(** * Session and request-lifecycle orchestration of the research assistant

    A shallow embedding of the client core of [frontend/src/App.js]: the
    identity resolver ([checkAuthStatus]), the account-state aggregator
    ([fetchUserStats], [fetchUserReports]) and the request lifecycle manager
    ([submitResearchQuestion], [pollForResults]).

    React state is one record; every [setX] of the component is a function on
    that record and a handler is a composition of them.  What the component
    does to the outside world (requests, timers, toasts, console lines and
    writes to [localStorage]) is appended to a log carried by the state, so
    that "no call is made" and "no error is shown" are statements about the
    log.  The result of each awaited request and each clock reading is an
    input of the handler that awaits it. *)

From Stdlib Require Import ZArith NArith List String Ascii Bool Lia DecimalString.
From Equations Require Import Equations.
Import ListNotations.

Local Open Scope list_scope.
Local Open Scope Z_scope.
Local Open Scope string_scope.

(** ** JavaScript strings

    A string is a sequence of code units; the model keeps the code units
    below 256, one [ascii] each. *)

Definition nl : string := String (ascii_of_nat 10) EmptyString.
Definition dq : string := String (ascii_of_nat 34) EmptyString.

(** White space and line terminators of ECMAScript among the code units
    below 256: TAB, LF, VT, FF, CR, SP and NBSP. *)
Definition isWhiteSpace (c : ascii) : bool :=
  let n := nat_of_ascii c in
  ((9 <=? n) && (n <=? 13) || (n =? 32) || (n =? 160))%nat.

Fixpoint trimStart (s : string) : string :=
  match s with
  | EmptyString => EmptyString
  | String c s' => if isWhiteSpace c then trimStart s' else s
  end.

Fixpoint trimEnd (s : string) : string :=
  match s with
  | EmptyString => EmptyString
  | String c s' =>
      match trimEnd s' with
      | EmptyString => if isWhiteSpace c then EmptyString else String c EmptyString
      | t => String c t
      end
  end.

(** [s.trim()] *)
Definition trim (s : string) : string := trimEnd (trimStart s).

(** Truthiness of a string: every string but the empty one. *)
Definition truthy (s : string) : bool := negb (s =? EmptyString).

(** [s.startsWith(p)] *)
Definition startsWith (s p : string) : bool := String.prefix p s.

(** [l.join(sep)] *)
Definition join (l : list string) (sep : string) : string := String.concat sep l.

(** [String(n)] and [`${n}`] for a non-negative integer. *)
Definition String_of_N (n : N) : string := NilZero.string_of_uint (N.to_uint n).

(** ** Data model *)

Module User.
(** [credits] is [None] when the field is [null] or [undefined]. *)
Record t : Type := mk
  { id : string; name : string; email : string;
    credits : option Z; created_at : string }.
End User.

Module UploadedFile.
Record t : Type := mk { id : string; name : string; size : Z }.
End UploadedFile.

(** The stats record, as the backend sends it and as the component makes
    it up: four whole numbers, all present. *)
Module UserStats.
Record t : Type := mk
  { credits_remaining : Z; total_questions_asked : Z;
    reports_generated : Z; credits_used : Z }.
End UserStats.

Module Report.
Record t : Type := mk
  { id : string; question_id : string; user_id : string; report : string;
    citations : list string; sources_used : list string;
    live_data_included : bool; created_at : string }.
End Report.

Module Question.
Record t : Type := mk
  { id : string; user_id : string; question : string; files : list string;
    status : string; created_at : string }.
End Question.

(** One element of the report collection: [{ report, question }]. *)
Module ReportItem.
Record t : Type := mk { report : Report.t; question : Question.t }.
End ReportItem.

(** ** The remote gateway *)

Record HttpResponse : Type := { http_status : Z; detail : option string }.

(** What a rejected promise carries.  An axios failure has [isAxiosError]
    set and a [response] exactly when the server answered; any other
    exception has neither. *)
Record Err : Type := { isAxiosError : bool; response : option HttpResponse }.

(** [(err) => err && err.isAxiosError && !err.response] *)
Definition isNetworkError (err : Err) : bool :=
  isAxiosError err && match response err with Some _ => false | None => true end.

(** The two failure classes of the gateway. *)
Definition Unreachable (err : Err) : Prop := isNetworkError err = true.
Definition Rejected (err : Err) : Prop := exists r, response err = Some r.

Definition unreachable : Err := {| isAxiosError := true; response := None |}.
Definition rejected (code : Z) : Err :=
  {| isAxiosError := true;
     response := Some {| http_status := code; detail := None |} |}.
Definition typeError : Err := {| isAxiosError := false; response := None |}.

(** The outcome of an awaited request. *)
Inductive Outcome (A : Type) : Type :=
| Resolved (data : A)
| Thrown (error : Err).
Arguments Resolved {A} data.
Arguments Thrown {A} error.

(** ** Effects on the outside world *)

Inductive ToastKind : Type := t_success | t_error.
Inductive Method : Type := GET | POST.
Inductive Level : Type := c_log | c_warn | c_error.

Inductive Effect : Type :=
| Toast (kind : ToastKind) (message : string)
| Request (method : Method) (url : string)
| SetTimeout (ms : Z)
| SetItem (value : User.t)
| RemoveItem
| Console (level : Level) (message : string).

(** The value under the key [researchAssistantUser].  The component only ever
    writes [JSON.stringify] of an identity there, so a stored value is
    identified with the record it parses to; [Unparsable] stands for a value
    on which [JSON.parse] throws.  No value, or the empty string, is [None]:
    both are falsy to [if (savedUser)]. *)
Inductive StorageItem : Type :=
| Json (user : User.t)
| Unparsable.

(** ** The state of the component *)

Record State : Type := mkState
  { currentUser : option User.t;
    question : string;
    uploadedFiles : list UploadedFile.t;
    isProcessing : bool;
    reports : list ReportItem.t;
    userStats : option UserStats.t;
    activeTab : string;
    showAuth : bool;
    localStorage : option StorageItem;
    effects : list Effect }.

(** The state of [useState] at mount, over a given storage. *)
Definition initial (storage : option StorageItem) : State :=
  {| currentUser := None; question := EmptyString; uploadedFiles := [];
     isProcessing := false; reports := []; userStats := None;
     activeTab := "research"; showAuth := false;
     localStorage := storage; effects := [] |}.

Definition Action : Type := State -> State.

Definition andThen (a b : Action) : Action := fun st => b (a st).
Notation "a ;; b" := (andThen a b) (at level 61, right associativity).
Definition skip : Action := fun st => st.

Definition setCurrentUser (v : option User.t) : Action := fun st =>
  mkState v (question st) (uploadedFiles st) (isProcessing st) (reports st)
    (userStats st) (activeTab st) (showAuth st) (localStorage st) (effects st).

Definition setQuestion (v : string) : Action := fun st =>
  mkState (currentUser st) v (uploadedFiles st) (isProcessing st) (reports st)
    (userStats st) (activeTab st) (showAuth st) (localStorage st) (effects st).

(** [setUploadedFiles(prev => f(prev))] *)
Definition updUploadedFiles (f : list UploadedFile.t -> list UploadedFile.t) : Action :=
  fun st =>
  mkState (currentUser st) (question st) (f (uploadedFiles st)) (isProcessing st)
    (reports st) (userStats st) (activeTab st) (showAuth st) (localStorage st)
    (effects st).
Definition setUploadedFiles (v : list UploadedFile.t) : Action :=
  updUploadedFiles (fun _ => v).

Definition setIsProcessing (v : bool) : Action := fun st =>
  mkState (currentUser st) (question st) (uploadedFiles st) v (reports st)
    (userStats st) (activeTab st) (showAuth st) (localStorage st) (effects st).

(** [setReports(prev => f(prev))] *)
Definition updReports (f : list ReportItem.t -> list ReportItem.t) : Action :=
  fun st =>
  mkState (currentUser st) (question st) (uploadedFiles st) (isProcessing st)
    (f (reports st)) (userStats st) (activeTab st) (showAuth st)
    (localStorage st) (effects st).
Definition setReports (v : list ReportItem.t) : Action := updReports (fun _ => v).

(** [setUserStats(prev => f(prev))] *)
Definition updUserStats (f : option UserStats.t -> option UserStats.t) : Action :=
  fun st =>
  mkState (currentUser st) (question st) (uploadedFiles st) (isProcessing st)
    (reports st) (f (userStats st)) (activeTab st) (showAuth st)
    (localStorage st) (effects st).
Definition setUserStats (v : option UserStats.t) : Action := updUserStats (fun _ => v).

Definition setActiveTab (v : string) : Action := fun st =>
  mkState (currentUser st) (question st) (uploadedFiles st) (isProcessing st)
    (reports st) (userStats st) v (showAuth st) (localStorage st) (effects st).

Definition setShowAuth (v : bool) : Action := fun st =>
  mkState (currentUser st) (question st) (uploadedFiles st) (isProcessing st)
    (reports st) (userStats st) (activeTab st) v (localStorage st) (effects st).

Definition emit (e : Effect) : Action := fun st =>
  mkState (currentUser st) (question st) (uploadedFiles st) (isProcessing st)
    (reports st) (userStats st) (activeTab st) (showAuth st) (localStorage st)
    (effects st ++ [e])%list.

Definition setStorage (v : option StorageItem) : Action := fun st =>
  mkState (currentUser st) (question st) (uploadedFiles st) (isProcessing st)
    (reports st) (userStats st) (activeTab st) (showAuth st) v (effects st).

Definition toast_success (m : string) : Action := emit (Toast t_success m).
Definition toast_error (m : string) : Action := emit (Toast t_error m).
Definition console_log (m : string) : Action := emit (Console c_log m).
Definition console_warn (m : string) : Action := emit (Console c_warn m).
Definition console_error (m : string) : Action := emit (Console c_error m).
Definition axios_get (url : string) : Action := emit (Request GET url).
Definition axios_post (url : string) : Action := emit (Request POST url).
Definition setTimeout (ms : Z) : Action := emit (SetTimeout ms).

(** [localStorage.setItem('researchAssistantUser', JSON.stringify(u))] *)
Definition localStorage_setItem (u : User.t) : Action :=
  setStorage (Some (Json u)) ;; emit (SetItem u).
(** [localStorage.removeItem('researchAssistantUser')] *)
Definition localStorage_removeItem : Action :=
  setStorage None ;; emit RemoveItem.

(** [String(u.id).startsWith('local-')] *)
Definition isLocalUser (u : User.t) : bool := startsWith (User.id u) "local-".

(** [x ?? d] *)
Definition nullish {A : Type} (x : option A) (d : A) : A :=
  match x with Some v => v | None => d end.
Notation "x ?? d" := (nullish x d) (at level 45, right associativity).

(** ** Account state aggregator *)

(** The defaults of an identity that has no server-side account. *)
Definition localStats (credits : option Z) : UserStats.t :=
  {| UserStats.credits_remaining := credits ?? 100;
     UserStats.total_questions_asked := 0;
     UserStats.reports_generated := 0;
     UserStats.credits_used := 0 |}.

(** [fetchUserStats], closed over the [currentUser] of the render that
    created it; [res] is the outcome of [axios.get(`stats/${id}`)] and is
    looked at only after that request is issued.  With no user, evaluating
    [currentUser.id] throws before any request and lands in the logging
    branch of the [catch]. *)
Definition fetchUserStats (currentUser : option User.t)
    (res : Outcome UserStats.t) : Action :=
  match currentUser with
  | Some u =>
      if isLocalUser u then
        setUserStats (Some (localStats (User.credits u)))
      else
        axios_get ("stats/" ++ User.id u) ;;
        match res with
        | Resolved data => setUserStats (Some data)
        | Thrown error =>
            if isNetworkError error then
              setUserStats (Some (localStats (User.credits u)))
            else console_error "Failed to fetch user stats:"
        end
  | None => console_error "Failed to fetch user stats:"
  end.

(** [fetchUserReports], same conventions. *)
Definition fetchUserReports (currentUser : option User.t)
    (res : Outcome (list ReportItem.t)) : Action :=
  match currentUser with
  | Some u =>
      if isLocalUser u then setReports []
      else
        axios_get ("reports/" ++ User.id u) ;;
        match res with
        | Resolved data => setReports data
        | Thrown error =>
            if isNetworkError error then setReports []
            else console_error "Failed to fetch reports:"
        end
  | None => console_error "Failed to fetch reports:"
  end.

(** The effect on [[currentUser]]: run after a render in which the identity
    changed. *)
Definition onCurrentUserChange (stats : Outcome UserStats.t)
    (history : Outcome (list ReportItem.t)) : Action := fun st =>
  match currentUser st with
  | Some _ =>
      (fetchUserStats (currentUser st) stats ;;
       fetchUserReports (currentUser st) history) st
  | None => st
  end.

(** ** Identity resolver *)

(** The second half of [checkAuthStatus]: no valid cached identity.
    [t_email] and [t_id] are the two readings of [Date.now()], [iso] the
    reading of [new Date().toISOString()]. *)
Definition createUser (t_email t_id : N) (iso : string)
    (create : Outcome User.t) : Action :=
  let userData_name := "Research User" in
  let userData_email := "user_" ++ String_of_N t_email ++ "@example.com" in
  axios_post "users" ;;
  match create with
  | Resolved data =>
      setCurrentUser (Some data) ;;
      localStorage_setItem data ;;
      toast_success "Welcome to Smart Research Assistant!"
  | Thrown error =>
      if isNetworkError error then
        let localUser :=
          {| User.id := "local-" ++ String_of_N t_id;
             User.name := userData_name;
             User.email := userData_email;
             User.credits := Some 100;
             User.created_at := iso |} in
        console_warn "Backend unreachable, created local fallback user" ;;
        setCurrentUser (Some localUser) ;;
        localStorage_setItem localUser ;;
        toast_success "Running in offline mode: local user created"
      else setShowAuth true
  end.

(** [checkAuthStatus]; [verify] is the outcome of [axios.get(`users/${id}`)],
    [create] that of [axios.post(`users`, userData)]. *)
Definition checkAuthStatus (t_email t_id : N) (iso : string)
    (verify create : Outcome User.t) : Action := fun st =>
  match localStorage st with
  | Some (Json user) =>
      (axios_get ("users/" ++ User.id user) ;;
       match verify with
       | Resolved data =>
           setCurrentUser (Some data) ;;
           console_log "User authenticated successfully"
       | Thrown error =>
           if isNetworkError error then
             console_warn "Backend unreachable, using local cached user" ;;
             setCurrentUser (Some user)
           else
             localStorage_removeItem ;;
             createUser t_email t_id iso create
       end) st
  | Some Unparsable =>
      (console_error "Auth check failed:" ;; setShowAuth true) st
  | None => createUser t_email t_id iso create st
  end.

(** [handleLogout] *)
Definition handleLogout : Action :=
  setCurrentUser None ;;
  setUserStats None ;;
  setReports [] ;;
  setUploadedFiles [] ;;
  localStorage_removeItem ;;
  setShowAuth true ;;
  toast_success "Logged out successfully".

(** ** File upload handling *)

Record UploadResponse : Type := { file_id : string; filename : string }.

(** One selected file: its name and size, the outcome of its upload and the
    suffix [Date.now()-random] of a local id. *)
Record Selected : Type :=
  { sel_name : string; sel_size : Z;
    sel_upload : Outcome UploadResponse; sel_suffix : string }.

Definition uploadOne (f : Selected) : Action :=
  axios_post "upload" ;;
  match sel_upload f with
  | Resolved data =>
      updUploadedFiles (fun prev =>
        prev ++ [UploadedFile.mk (file_id data) (filename data) (sel_size f)])%list ;;
      toast_success ("File " ++ dq ++ sel_name f ++ dq ++ " uploaded successfully!")
  | Thrown error =>
      if isNetworkError error then
        let localId := "local-file-" ++ sel_suffix f in
        updUploadedFiles (fun prev =>
          prev ++ [UploadedFile.mk localId (sel_name f) (sel_size f)])%list ;;
        toast_success ("Added " ++ dq ++ sel_name f ++ dq ++ " (local only)")
      else
        console_error "File upload failed:" ;;
        toast_error ("Failed to upload " ++ dq ++ sel_name f ++ dq)
  end.

(** [handleFileUpload]: the files one after the other. *)
Fixpoint handleFileUpload (files : list Selected) : Action :=
  match files with
  | [] => skip
  | f :: rest => uploadOne f ;; handleFileUpload rest
  end.

(** [removeFile] *)
Definition removeFile (fileId : string) : Action :=
  updUploadedFiles (filter (fun file => negb (UploadedFile.id file =? fileId))).

(** ** Request lifecycle manager *)

Record StatusResponse : Type := { status : string }.
Record ResearchResponse : Type := { question_id : string }.

Definition maxAttempts : nat := 30.

(** How many more times the timer may still be set. *)
Definition remaining (attempts : nat) : nat := (maxAttempts - attempts)%nat.
Arguments remaining : simpl never.

(** A call that is not awaited ([pollForResults] in the handler, the two
    refreshes in the completed branch and in the effect on the identity) is
    run to its end at the point of the call.  What the caller does meanwhile
    touches other state variables, so the state reached is the same; in the
    log, the console line of a refresh that failed stands before the request
    of the refresh called after it, where the browser would have it after. *)
Section Polling.
Variable questionId : string.
(** the [currentUser] of the render whose handler started the loop *)
Variable user : option User.t.
(** [answers k]: the outcome of the status request issued while
    [attempts] is [k] *)
Variable answers : nat -> Outcome StatusResponse.
(** the outcomes of the two refreshes of the completed branch *)
Variable stats : Outcome UserStats.t.
Variable history : Outcome (list ReportItem.t).

(** The body of [poll] after its [await]; [again] is what the timer runs. *)
Definition settle (attempts : nat) (res : Outcome StatusResponse)
    (again : Action) : Action :=
  match res with
  | Resolved data =>
      if status data =? "completed" then
        setIsProcessing false ;;
        toast_success "Research report generated!" ;;
        fetchUserStats user stats ;;
        fetchUserReports user history ;;
        setActiveTab "reports"
      else if status data =? "failed" then
        setIsProcessing false ;;
        toast_error "Research processing failed"
      else if (attempts <? maxAttempts)%nat then
        setTimeout 1000 ;; again
      else
        setIsProcessing false ;;
        toast_error "Research processing timed out"
  | Thrown error =>
      if isNetworkError error && (attempts <? maxAttempts)%nat then
        setTimeout 1000 ;; again
      else
        setIsProcessing false ;;
        toast_error "Error checking research status"
  end.

(** [poll], with the captured counter [attempts] as its argument.  The
    timer is set only while [attempts < maxAttempts], which is what makes
    the recursion well founded: past the cap the body never runs what the
    timer would (lemma [settle_at_cap]), and the two clauses are the one
    body of the source (lemma [poll_step]). *)
Equations? poll (attempts : nat) : Action by wf (remaining attempts) lt :=
  poll attempts with lt_dec attempts maxAttempts := {
    | left _ :=
        axios_get ("research/" ++ questionId) ;;
        settle attempts (answers attempts) (poll (S attempts))
    | right _ :=
        axios_get ("research/" ++ questionId) ;;
        settle attempts (answers attempts) skip }.
Proof. unfold remaining, maxAttempts in *. lia. Qed.

(** [pollForResults(questionId)] *)
Definition pollForResults : Action := poll 0.
End Polling.

(** The body of the locally generated report. *)
Definition reportText (question : string) (sources : list string) : string :=
  "Key Findings" ++ nl ++
  "- Offline mode: generated a local report." ++ nl ++
  "- Your question: " ++ question ++ nl ++ nl ++
  "Supporting Evidence" ++ nl ++
  "- Files provided: " ++
  (if (0 <? List.length sources)%nat then join sources ", " else "none") ++ nl ++ nl ++
  "Actionable Recommendations" ++ nl ++
  "- Connect the backend to generate AI-powered reports." ++ nl ++ nl ++
  "Sources Referenced" ++ nl ++
  "- " ++
  (if (0 <? List.length sources)%nat then join sources (nl ++ "- ")
   else "No files uploaded").

Definition localReportItem (u : User.t) (question : string)
    (uploadedFiles : list UploadedFile.t) (now qId rId : string) : ReportItem.t :=
  let sources := map UploadedFile.name uploadedFiles in
  {| ReportItem.report :=
       {| Report.id := rId;
          Report.question_id := qId;
          Report.user_id := User.id u;
          Report.report := reportText question sources;
          Report.citations := map (fun s => "Source: " ++ s) sources;
          Report.sources_used := sources;
          Report.live_data_included := false;
          Report.created_at := now |};
     ReportItem.question :=
       {| Question.id := qId;
          Question.user_id := User.id u;
          Question.question := question;
          Question.files := map UploadedFile.id uploadedFiles;
          Question.status := "completed";
          Question.created_at := now |} |}.

(** The credits and the counters are JS numbers, that is IEEE doubles, and
    hold integers; such a number is modelled by the integer it holds.  A
    sum or a difference of two of them is the exact one rounded to the
    nearest double, ties to the even significand: exact up to [2 ^ 53] in
    magnitude, and a multiple of a power of two beyond.  (Adding or taking
    away one never overflows.)  Comparisons, [Math.max] and [Math.min] are
    exact. *)
Module Double.
Definition round (z : Z) : Z :=
  let a := Z.abs z in
  if (a <? 2 ^ 53)%Z then z
  else
    let q := 2 ^ (Z.log2 a - 52) in
    let m := a / q in
    let r := a mod q in
    let m' :=
      if (2 * r <? q)%Z then m
      else if (q <? 2 * r)%Z then m + 1
      else if Z.even m then m else m + 1 in
    Z.sgn z * (m' * q).
Definition add (x y : Z) : Z := round (x + y).
Definition sub (x y : Z) : Z := round (x - y).
End Double.

(** The updater passed to [setUserStats] by the offline flow. *)
Definition debit (u : User.t) (prev : option UserStats.t) : option UserStats.t :=
  let credits :=
    Double.sub (option_map UserStats.credits_remaining prev ?? User.credits u ?? 100) 1 in
  Some
    {| UserStats.credits_remaining := Z.max 0 credits;
       UserStats.total_questions_asked :=
         Double.add (option_map UserStats.total_questions_asked prev ?? 0) 1;
       UserStats.reports_generated :=
         Double.add (option_map UserStats.reports_generated prev ?? 0) 1;
       UserStats.credits_used :=
         Double.add (option_map UserStats.credits_used prev ?? 0) 1 |}.

(** The offline flow of the [catch] of [submitResearchQuestion]. *)
Definition offlineFlow (u : User.t) (question : string)
    (uploadedFiles : list UploadedFile.t) (now : string) (t_q t_r : N) : Action :=
  let qId := "local-q-" ++ String_of_N t_q in
  let rId := "local-r-" ++ String_of_N t_r in
  updReports (fun prev => localReportItem u question uploadedFiles now qId rId :: prev) ;;
  setIsProcessing false ;;
  setActiveTab "reports" ;;
  setQuestion EmptyString ;;
  setUploadedFiles [] ;;
  updUserStats (debit u) ;;
  toast_success "Local report generated (offline mode)".

(** [submitResearchQuestion].  [render] is the state of the render that
    created the handler: [question], [currentUser], [userStats] and
    [uploadedFiles] are read from it, while the setters act on the state
    they are applied to.  [now] is the reading of [toISOString()], [t_q] and
    [t_r] those of [Date.now()]; [res] is the outcome of
    [axios.post(`research`, formData)]; the rest feeds the polling loop. *)
Definition submitResearchQuestion (render : State)
    (now : string) (t_q t_r : N) (res : Outcome ResearchResponse)
    (answers : nat -> Outcome StatusResponse)
    (stats : Outcome UserStats.t) (history : Outcome (list ReportItem.t)) : Action :=
  if negb (truthy (trim (question render))) then
    toast_error "Please enter a research question"
  else
    match currentUser render with
    | None => toast_error "Please log in to submit questions"
    | Some u =>
        if match userStats render with
           | Some s => (UserStats.credits_remaining s <? 1)%Z
           | None => false
           end
        then toast_error "Insufficient credits. You need 1 credit to ask a question."
        else
          setIsProcessing true ;;
          axios_post "research" ;;
          match res with
          | Resolved data =>
              toast_success "Research question submitted! Processing..." ;;
              pollForResults (question_id data) (currentUser render)
                answers stats history ;;
              setQuestion EmptyString ;;
              setUploadedFiles []
          | Thrown error =>
              console_error "Research submission failed:" ;;
              if isNetworkError error || isLocalUser u then
                offlineFlow u (question render) (uploadedFiles render) now t_q t_r
              else
                toast_error "Failed to submit research question" ;;
                setIsProcessing false
          end
    end.

(** A click on the submit button: the handler of the current render. *)
Definition submit (now : string) (t_q t_r : N) (res : Outcome ResearchResponse)
    (answers : nat -> Outcome StatusResponse)
    (stats : Outcome UserStats.t) (history : Outcome (list ReportItem.t)) : Action :=
  fun st => submitResearchQuestion st now t_q t_r res answers stats history st.

(** ** The session: what can happen to a mounted component *)

(** Loading the page: React state starts afresh, the storage and the world
    (and so the log of what was done to it) stay. *)
Definition reload : Action := fun st =>
  mkState None EmptyString [] false [] None "research" false
    (localStorage st) (effects st).

(** What the mount effect does to the state variables above:
    [checkAuthStatus], then the effect on the identity.  The news call that
    [Promise.all] starts alongside touches none of them and is not part of
    this; the whole mount effect, with its request, is [initialize]
    below. *)
Definition mount (t_email t_id : N) (iso : string)
    (verify create : Outcome User.t)
    (stats : Outcome UserStats.t) (history : Outcome (list ReportItem.t)) : Action :=
  reload ;;
  checkAuthStatus t_email t_id iso verify create ;;
  onCurrentUserChange stats history.

Inductive Event : Type :=
| Mount (t_email t_id : N) (iso : string) (verify create : Outcome User.t)
    (stats : Outcome UserStats.t) (history : Outcome (list ReportItem.t))
| Typing (text : string)
| SelectFiles (files : list Selected)
| RemoveFile (fileId : string)
| SelectTab (tab : string)
| Submit (now : string) (t_q t_r : N) (res : Outcome ResearchResponse)
    (answers : nat -> Outcome StatusResponse)
    (stats : Outcome UserStats.t) (history : Outcome (list ReportItem.t))
| Logout.

Definition step (e : Event) : Action :=
  match e with
  | Mount t_email t_id iso verify create stats history =>
      mount t_email t_id iso verify create stats history
  | Typing text => setQuestion text
  | SelectFiles files => handleFileUpload files
  | RemoveFile fileId => removeFile fileId
  | SelectTab tab => setActiveTab tab
  | Submit now t_q t_r res answers stats history =>
      submit now t_q t_r res answers stats history
  | Logout => handleLogout
  end.

Fixpoint run (events : list Event) : Action :=
  match events with
  | [] => skip
  | e :: rest => step e ;; run rest
  end.

(** ** The API root *)

(** [s.replace(/\/$/, "")]: without the [m] flag [$] is the end of the
    string, so this drops a slash that is its last code unit. *)
Fixpoint stripTrailingSlash (s : string) : string :=
  match s with
  | EmptyString => EmptyString
  | String c s' =>
      match s' with
      | EmptyString => if (c =? "/")%char then EmptyString else s
      | String _ _ => String c (stripTrailingSlash s')
      end
  end.

(** [s.includes(part)] *)
Fixpoint includesb (s part : string) : bool :=
  String.prefix part s ||
  match s with
  | EmptyString => false
  | String _ s' => includesb s' part
  end.

(** The constant [API]: [env] is [process.env.REACT_APP_BACKEND_URL]
    ([None] when it is not defined; [env || ""] is then the empty string,
    as it is for an empty value), [origin] is [window.location.origin]
    ([None] when there is no [window]). *)
Definition apiBase (env origin : option string) : string :=
  let BACKEND_URL := env ?? EmptyString in
  if truthy BACKEND_URL then stripTrailingSlash BACKEND_URL ++ "/api"
  else
    match origin with
    | Some origin =>
        if includesb origin "fly.dev" || includesb origin "render.com"
           || includesb origin "localhost"
        then origin ++ "/api"
        else "/api"
    | None => "/api"
    end.

(** ** The rest of the component: sign-in form, news, first load *)

Module AuthForm.
Record t : Type := mk { name : string; email : string; password : string }.
End AuthForm.

Module NewsItem.
Record t : Type := mk
  { id : string; title : string; content : string; source : string;
    published_at : string }.
End NewsItem.

(** The answer of [auth/signup] and [auth/login]: [{ user }]. *)
Record AuthResponse : Type := { user : User.t }.

(** The state variables that the core above does not read. *)
Record Shell : Type := mkShell
  { authMode : string;
    authForm : AuthForm.t;
    latestNews : list NewsItem.t;
    isInitializing : bool }.

Definition Component : Type := (State * Shell)%type.
Definition Handler : Type := Component -> Component.

Definition next (a b : Handler) : Handler := fun c => b (a c).
Notation "a >>> b" := (next a b) (at level 62, right associativity).

(** A handler of the core, run inside the whole component. *)
Definition onState (a : Action) : Handler := fun c => (a (fst c), snd c).

Definition setAuthMode (v : string) : Handler := fun c =>
  (fst c, mkShell v (authForm (snd c)) (latestNews (snd c)) (isInitializing (snd c))).
Definition setAuthForm (v : AuthForm.t) : Handler := fun c =>
  (fst c, mkShell (authMode (snd c)) v (latestNews (snd c)) (isInitializing (snd c))).
Definition setLatestNews (v : list NewsItem.t) : Handler := fun c =>
  (fst c, mkShell (authMode (snd c)) (authForm (snd c)) v (isInitializing (snd c))).
Definition setIsInitializing (v : bool) : Handler := fun c =>
  (fst c, mkShell (authMode (snd c)) (authForm (snd c)) (latestNews (snd c)) v).

Definition emptyForm : AuthForm.t :=
  AuthForm.mk EmptyString EmptyString EmptyString.

(** The [try] and [catch] of [handleAuthSubmit], past the validation. *)
Definition authRequest (API : string) (signup : bool)
    (res : Outcome AuthResponse) : Handler :=
  onState (axios_post (if signup then "auth/signup" else "auth/login")) >>>
  match res with
  | Resolved data =>
      onState (toast_success
                 (if signup then "Account created successfully!"
                  else "Welcome back!")) >>>
      onState (setCurrentUser (Some (user data))) >>>
      onState (localStorage_setItem (user data)) >>>
      onState (setShowAuth false) >>>
      setAuthForm emptyForm
  | Thrown error =>
      onState (console_error "Auth failed:") >>>
      if isNetworkError error then
        onState (toast_error
                   ("Network error: could not reach backend at " ++ API ++
                    ". Check REACT_APP_BACKEND_URL, CORS_ORIGINS, and that the backend is running."))
      else
        match option_map detail (response error) with
        | Some (Some d) =>
            if truthy d then onState (toast_error d)
            else onState (toast_error (if signup then "Signup failed" else "Login failed"))
        | _ => onState (toast_error (if signup then "Signup failed" else "Login failed"))
        end
  end.

(** The validation at the head of [handleAuthSubmit]: every field that
    the mode asks for is filled in. *)
Definition formComplete (render : Shell) : bool :=
  let form := authForm render in
  if authMode render =? "signup" then
    negb (negb (truthy (AuthForm.name form)) || negb (truthy (AuthForm.email form))
          || negb (truthy (AuthForm.password form)))
  else
    negb (negb (truthy (AuthForm.email form)) || negb (truthy (AuthForm.password form))).

(** [handleAuthSubmit]; [render] holds the [authMode] and [authForm] of
    the render that created the handler, [res] is the outcome of the post. *)
Definition handleAuthSubmit (API : string) (render : Shell)
    (res : Outcome AuthResponse) : Handler :=
  let form := authForm render in
  if authMode render =? "signup" then
    if negb (truthy (AuthForm.name form)) || negb (truthy (AuthForm.email form))
       || negb (truthy (AuthForm.password form))
    then onState (toast_error "Please fill in all fields")
    else authRequest API true res
  else
    if negb (truthy (AuthForm.email form)) || negb (truthy (AuthForm.password form))
    then onState (toast_error "Please enter email and password")
    else authRequest API false res.

(** The link under the form: the other mode, and an empty form. *)
Definition toggleAuthMode (render : Shell) : Handler :=
  setAuthMode (if authMode render =? "signup" then "login" else "signup") >>>
  setAuthForm emptyForm.

(** [fetchLatestNews]; [iso1] and [iso2] are the two readings of
    [new Date().toISOString()]. *)
Definition fetchLatestNews (iso1 iso2 : string)
    (res : Outcome (list NewsItem.t)) : Handler :=
  onState (axios_get "news") >>>
  match res with
  | Resolved data => setLatestNews data
  | Thrown error =>
      if isNetworkError error then
        let fallbackNews :=
          [ NewsItem.mk "local-1" "Local News: Running in Offline Mode"
              "The application is currently running without a backend connection. Some features may be limited."
              "Local" iso1;
            NewsItem.mk "local-2" "Tip: Connect a Backend"
              "To enable live data and file uploads, start the backend API or set REACT_APP_BACKEND_URL to a reachable endpoint."
              "Local" iso2 ] in
        setLatestNews fallbackNews
      else fun c => c
  end.

(** The three screens of the render function. *)
Inductive Screen : Type := Loading | AuthScreen | Main.

Definition screen (c : Component) : Screen :=
  if isInitializing (snd c) then Loading
  else if showAuth (fst c) then AuthScreen
  else Main.

(** The shell of [useState] at mount. *)
Definition initialShell : Shell := mkShell "login" emptyForm [] true.

(** The mount effect of the whole component: [initialize].  The two
    promises of [Promise.all] are run one after the other (they touch
    different state variables), then the loading screen is left. *)
Definition initialize (t_email t_id : N) (iso : string)
    (verify create : Outcome User.t)
    (stats : Outcome UserStats.t) (history : Outcome (list ReportItem.t))
    (iso1 iso2 : string) (news : Outcome (list NewsItem.t)) : Handler :=
  (fun c => (fst c, initialShell)) >>>
  onState (mount t_email t_id iso verify create stats history) >>>
  fetchLatestNews iso1 iso2 news >>>
  setIsInitializing false.

(** What can happen to the whole component.  [Core e] is an event of the
    core; a page load of the whole component is [Startup]. *)
Inductive UiEvent : Type :=
| Core (e : Event)
| Startup (t_email t_id : N) (iso : string) (verify create : Outcome User.t)
    (stats : Outcome UserStats.t) (history : Outcome (list ReportItem.t))
    (iso1 iso2 : string) (news : Outcome (list NewsItem.t))
| EditForm (form : AuthForm.t)
| ToggleMode
| SubmitAuth (API : string) (res : Outcome AuthResponse)
    (stats : Outcome UserStats.t) (history : Outcome (list ReportItem.t)).

(** A step of the component.  [handleAuthSubmit] sets the identity when
    the form is complete and the post resolves; the effect on the identity
    runs then. *)
Definition stepUi (e : UiEvent) : Handler :=
  match e with
  | Core e => onState (step e)
  | Startup t_email t_id iso verify create stats history iso1 iso2 news =>
      initialize t_email t_id iso verify create stats history iso1 iso2 news
  | EditForm form => setAuthForm form
  | ToggleMode => fun c => toggleAuthMode (snd c) c
  | SubmitAuth API res stats history =>
      fun c =>
        (handleAuthSubmit API (snd c) res >>>
         match res with
         | Resolved _ =>
             if formComplete (snd c)
             then onState (onCurrentUserChange stats history)
             else fun c' => c'
         | Thrown _ => fun c' => c'
         end) c
  end.

Fixpoint runUi (events : list UiEvent) : Handler :=
  match events with
  | [] => fun c => c
  | e :: rest => stepUi e >>> runUi rest
  end.

(** ** Vocabulary of the properties *)

(** [s] has [part] somewhere inside. *)
Definition includes (s part : string) : Prop := exists a b, s = a ++ part ++ b.

(** The three preconditions of [submitResearchQuestion], in its order. *)
Definition guardsPass (render : State) : bool :=
  truthy (trim (question render)) &&
  match currentUser render with Some _ => true | None => false end &&
  negb match userStats render with
       | Some s => (UserStats.credits_remaining s <? 1)%Z
       | None => false
       end.

Definition processing : Outcome StatusResponse :=
  Resolved {| status := "processing" |}.
Definition completed : Outcome StatusResponse :=
  Resolved {| status := "completed" |}.

(** An answer after which [poll] goes on while attempts are left: a status
    that is neither [completed] nor [failed], or an Unreachable failure. *)
Definition notYet (res : Outcome StatusResponse) : bool :=
  match res with
  | Resolved data =>
      negb (status data =? "completed") && negb (status data =? "failed")
  | Thrown error => isNetworkError error
  end.

(** What [n] rounds of "request, then timer" add to the log. *)
Fixpoint rounds (questionId : string) (n : nat) : list Effect :=
  match n with
  | O => []
  | S n' =>
      Request GET ("research/" ++ questionId) :: SetTimeout 1000 ::
      rounds questionId n'
  end.

(** Credits are not negative: in an identity, in a stats record, in what
    the backend sends and in a whole state. *)
Definition userOk (u : User.t) : Prop :=
  match User.credits u with Some c => 0 <= c | None => True end.
Definition statsOk (s : UserStats.t) : Prop := 0 <= UserStats.credits_remaining s.
Definition sends {A : Type} (P : A -> Prop) (o : Outcome A) : Prop :=
  match o with Resolved data => P data | Thrown _ => True end.

Definition eventOk (e : Event) : Prop :=
  match e with
  | Mount _ _ _ verify create stats _ =>
      sends userOk verify /\ sends userOk create /\ sends statsOk stats
  | Submit _ _ _ _ _ stats _ => sends statsOk stats
  | _ => True
  end.


(** [Number.isSafeInteger]: an integer that a double holds exactly, with
    its two neighbours. *)
Definition safe (x : Z) : Prop := - 2 ^ 53 < x < 2 ^ 53.

(** [x] can be incremented [n] times with every sum exact. *)
Definition room (x n : Z) : Prop := - 2 ^ 53 < x /\ x + n <= 2 ^ 53.

Definition creditsOk (st : State) : Prop :=
  match userStats st with Some s => statsOk s | None => True end.

Definition wellFormed (st : State) : Prop :=
  match currentUser st with Some u => userOk u | None => True end /\
  match localStorage st with Some (Json u) => userOk u | _ => True end /\
  creditsOk st.

(** Appending a list of effects to the log. *)
Definition logged (l : list Effect) : Action := fun st =>
  mkState (currentUser st) (question st) (uploadedFiles st) (isProcessing st)
    (reports st) (userStats st) (activeTab st) (showAuth st) (localStorage st)
    (effects st ++ l)%list.

(** Timers in a piece of log: how many, and whether each is of one second. *)
Definition isTimer (e : Effect) : bool :=
  match e with SetTimeout _ => true | _ => false end.
Definition timers (l : list Effect) : nat := List.length (filter isTimer l).
Definition oneSecond (e : Effect) : Prop :=
  match e with SetTimeout ms => ms = 1000 | _ => True end.

(** ** Sample inputs *)

(** An account of the backend, and the record of it after 58 of its
    credits were spent elsewhere. *)
Definition remoteUser : User.t :=
  User.mk "u-17" "Research User" "user_5@example.com" (Some 100)
    "2025-01-01T00:00:00.000Z".
Definition cachedUser : User.t := remoteUser.
Definition refreshedUser : User.t :=
  User.mk "u-17" "Research User" "user_5@example.com" (Some 42)
    "2025-01-01T00:00:00.000Z".
(** An identity made up locally. *)
Definition localUser5 : User.t :=
  User.mk "local-5" "Research User" "user_5@example.com" (Some 100)
    "2025-01-01T00:00:00.000Z".

Definition stats50 : UserStats.t := UserStats.mk 50 7 7 50.
Definition file_a : UploadedFile.t := UploadedFile.mk "f-1" "a.txt" 12.

(** A session at rest: identity [u] (cached as well), stats [s], question
    text [q], pending [files] and report collection [rs]. *)
Definition ready (u : User.t) (s : option UserStats.t) (q : string)
    (files : list UploadedFile.t) (rs : list ReportItem.t) : State :=
  mkState (Some u) q files false rs s "research" false (Some (Json u)) [].

(** A report made offline for the question [q0]. *)
Definition localItem : ReportItem.t :=
  localReportItem remoteUser "q0" [] "now" "local-q-1" "local-r-2".

(** A remote session with that report at the head of its collection. *)
Definition withLocalReport : State :=
  ready remoteUser (Some stats50) EmptyString [] [localItem].

(** The backend answers [processing] to the first [n] status requests and
    [last] to every later one. *)
Definition processingUntil (n : nat) (last : Outcome StatusResponse)
    : nat -> Outcome StatusResponse :=
  fun k => if (k <? n)%nat then processing else last.
Definition alwaysUnreachable : nat -> Outcome StatusResponse :=
  fun _ => Thrown unreachable.

(** A first visit with no backend, then a question typed in. *)
Definition offlineSession : list Event :=
  [Mount 5 6 "2025-01-01T00:00:00.000Z" (Thrown unreachable) (Thrown unreachable)
     (Thrown unreachable) (Thrown unreachable);
   Typing "why?"].


(** ** Vocabulary of the further properties *)

(** The four ways the polling loop ends, and what each does. *)
Inductive Ending : Type := Completed | Failed | TimedOut | StatusError.

Definition finish (user : option User.t) (stats : Outcome UserStats.t)
    (history : Outcome (list ReportItem.t)) (e : Ending) : Action :=
  match e with
  | Completed =>
      setIsProcessing false ;;
      toast_success "Research report generated!" ;;
      fetchUserStats user stats ;;
      fetchUserReports user history ;;
      setActiveTab "reports"
  | Failed => setIsProcessing false ;; toast_error "Research processing failed"
  | TimedOut => setIsProcessing false ;; toast_error "Research processing timed out"
  | StatusError =>
      setIsProcessing false ;; toast_error "Error checking research status"
  end.

(** What the answer to the request issued at counter [attempts] decides:
    an ending, or [None] for one more round. *)
Definition verdict (attempts : nat) (res : Outcome StatusResponse) : option Ending :=
  match res with
  | Resolved data =>
      if status data =? "completed" then Some Completed
      else if status data =? "failed" then Some Failed
      else if (attempts <? maxAttempts)%nat then None
      else Some TimedOut
  | Thrown error =>
      if isNetworkError error && (attempts <? maxAttempts)%nat then None
      else Some StatusError
  end.

(** Messages shown to the user in a piece of log. *)
Definition isToast (e : Effect) : bool :=
  match e with Toast _ _ => true | _ => false end.
Definition toasts (l : list Effect) : list Effect := filter isToast l.

(** Requests in a piece of log. *)
Definition isRequest (e : Effect) : bool :=
  match e with Request _ _ => true | _ => false end.
Definition requests (l : list Effect) : list Effect := filter isRequest l.

(** A string of white space only (the empty one included). *)
Fixpoint blank (s : string) : bool :=
  match s with
  | EmptyString => true
  | String c s' => isWhiteSpace c && blank s'
  end.

(** Three sessions that cannot submit: a question of two spaces and a tab,
    a question with nobody signed in, a question with no credit left. *)
Definition blankQuestion : State :=
  ready remoteUser (Some stats50)
    (String " " (String " " (String (ascii_of_nat 9) EmptyString))) [] [].
Definition signedOut : State := setQuestion "why?" (initial None).
Definition noCredit : State :=
  ready remoteUser (Some (UserStats.mk 0 100 100 100)) "why?" [] [].

(** A question typed in and submitted while the backend cannot be
    reached: its text, and the clock readings of the submission. *)
Record Ask : Type := { ask_text : string; ask_now : string; ask_q : N; ask_r : N }.

Definition offlineAsks (asks : list Ask) : list Event :=
  flat_map (fun a =>
    [Typing (ask_text a);
     Submit (ask_now a) (ask_q a) (ask_r a) (Thrown unreachable)
       alwaysUnreachable (Thrown unreachable) (Thrown unreachable)]) asks.

Definition threeAsks : list Ask :=
  [ {| ask_text := "one?"; ask_now := "t1"; ask_q := 1; ask_r := 2 |};
    {| ask_text := "two?"; ask_now := "t2"; ask_q := 3; ask_r := 4 |};
    {| ask_text := "three?"; ask_now := "t3"; ask_q := 5; ask_r := 6 |} ].

(** What the upload of one selected file adds to the pending files: the
    file under the id and name the backend gave, the file under a local
    id when the backend cannot be reached, nothing when it is refused. *)
Definition kept (f : Selected) : list UploadedFile.t :=
  match sel_upload f with
  | Resolved data => [UploadedFile.mk (file_id data) (filename data) (sel_size f)]
  | Thrown error =>
      if isNetworkError error
      then [UploadedFile.mk ("local-file-" ++ sel_suffix f) (sel_name f) (sel_size f)]
      else []
  end.

(** The message shown for one selected file. *)
Definition uploadMessage (f : Selected) : Effect :=
  match sel_upload f with
  | Resolved _ =>
      Toast t_success ("File " ++ dq ++ sel_name f ++ dq ++ " uploaded successfully!")
  | Thrown error =>
      if isNetworkError error
      then Toast t_success ("Added " ++ dq ++ sel_name f ++ dq ++ " (local only)")
      else Toast t_error ("Failed to upload " ++ dq ++ sel_name f ++ dq)
  end.

(** Three files selected at once: accepted, refused, unreachable. *)
Definition threeFiles : list Selected :=
  [ {| sel_name := "a.txt"; sel_size := 12;
       sel_upload := Resolved {| file_id := "f-1"; filename := "a.txt" |};
       sel_suffix := "10-aaaaaa" |};
    {| sel_name := "b.exe"; sel_size := 99;
       sel_upload := Thrown (rejected 400); sel_suffix := "11-bbbbbb" |};
    {| sel_name := "c.pdf"; sel_size := 7;
       sel_upload := Thrown unreachable; sel_suffix := "12-cccccc" |} ].

(** A sign-up form filled in, and the same with no password. *)
Definition filledShell : Shell :=
  mkShell "signup" (AuthForm.mk "Ada" "ada@example.com" "secret") [] false.
Definition noPasswordShell : Shell :=
  mkShell "login" (AuthForm.mk EmptyString "ada@example.com" EmptyString) [] false.
(** The component on its sign-in screen, nobody signed in. *)
Definition signInScreen (shell : Shell) : Component :=
  (setShowAuth true (initial None), shell).

(** The sign-in screen is on exactly when nobody is signed in. *)
Definition signInRule (st : State) : Prop :=
  showAuth st = match currentUser st with Some _ => false | None => true end.
(** The two news items built in for the offline mode. *)
Definition isLocalNews (n : NewsItem.t) : Prop := NewsItem.source n = "Local".
(** A first page load, a question asked, a sign-out, a sign-in. *)
Definition aVisit : list UiEvent :=
  [ Startup 5 6 "now" (Thrown unreachable) (Thrown unreachable)
      (Thrown unreachable) (Thrown unreachable) "t1" "t2" (Thrown unreachable);
    Core (Typing "why?");
    Core (Submit "now" 7 8 (Thrown unreachable) alwaysUnreachable
            (Thrown unreachable) (Thrown unreachable));
    Core Logout;
    EditForm (AuthForm.mk EmptyString "ada@example.com" "secret");
    SubmitAuth "/api" (Resolved {| user := remoteUser |})
      (Resolved stats50) (Resolved []) ].


(** * Properties *)

(** Run the setters of a straight-line handler, field by field: a
    projection of a setter applied to a state reduces to the value set or
    to the projection of that state. *)
Ltac straight :=
  cbn [andThen skip setCurrentUser setQuestion updUploadedFiles
       setUploadedFiles setIsProcessing updReports setReports updUserStats
       setUserStats setActiveTab setShowAuth emit setStorage toast_success
       toast_error console_log console_warn console_error axios_get axios_post
       setTimeout localStorage_setItem localStorage_removeItem
       currentUser question uploadedFiles isProcessing reports userStats
       activeTab showAuth localStorage effects].

(** Expand the setters of a short handler in a goal on whole states. *)
Ltac expand :=
  unfold andThen, skip, setCurrentUser, setQuestion, setUploadedFiles,
    updUploadedFiles, setIsProcessing, setReports, updReports, setUserStats,
    updUserStats, setActiveTab, setShowAuth, toast_success, toast_error,
    console_log, console_warn, console_error, axios_get, axios_post,
    setTimeout, localStorage_setItem, localStorage_removeItem, setStorage, emit;
  cbn [currentUser question uploadedFiles isProcessing reports userStats
       activeTab showAuth localStorage effects].

(** ** Strings *)

Lemma append_assoc (a b c : string) : (a ++ b) ++ c = a ++ b ++ c.
Proof. induction a as [|x a IH]; cbn; [reflexivity | now rewrite IH]. Qed.

Lemma startsWith_append (p s : string) : startsWith (p ++ s) p = true.
Proof.
  unfold startsWith. induction p as [|c p IH]; cbn.
  - now destruct s.
  - destruct (ascii_dec c c) as [_|ne]; [exact IH | now elim ne].
Qed.

(** ** The gateway's classes *)

Lemma Rejected_not_network (err : Err) : Rejected err -> isNetworkError err = false.
Proof.
  intros [r Hr]. unfold isNetworkError. rewrite Hr. apply andb_false_r.
Qed.

Lemma Unreachable_not_Rejected (err : Err) : Unreachable err -> ~ Rejected err.
Proof.
  intros Hu Hr. apply Rejected_not_network in Hr.
  unfold Unreachable in Hu. congruence.
Qed.

(** ** Identity resolver *)

(** C7: with a cached identity and an Unreachable verification, the active
    identity is the cached record as it was read, the storage is left as it
    is, and all that is done to the world is the request and a console
    warning: nothing is written to the storage. *)
Theorem checkAuthStatus_cached_unreachable
    (st : State) (cached : User.t) (t_email t_id : N) (iso : string)
    (err : Err) (create : Outcome User.t) :
  localStorage st = Some (Json cached) ->
  Unreachable err ->
  let st' := checkAuthStatus t_email t_id iso (Thrown err) create st in
  currentUser st' = Some cached /\
  localStorage st' = localStorage st /\
  showAuth st' = showAuth st /\
  effects st' =
    (effects st ++
     [Request GET ("users/" ++ User.id cached);
      Console c_warn "Backend unreachable, using local cached user"])%list.
Proof.
  intros Hs Hu st'. subst st'. unfold checkAuthStatus. rewrite Hs, Hu.
  straight. rewrite Hs, <- !app_assoc. repeat split; reflexivity.
Qed.

(** On a first state whose storage holds [cachedUser]. *)
Lemma checkAuthStatus_cached_unreachable_witness :
  localStorage (initial (Some (Json cachedUser))) = Some (Json cachedUser) /\
  Unreachable unreachable /\
  currentUser
    (checkAuthStatus 5 6 "now" (Thrown unreachable) (Thrown unreachable)
       (initial (Some (Json cachedUser)))) = Some cachedUser.
Proof.
  split; [reflexivity | split; [reflexivity |]].
  exact (proj1 (checkAuthStatus_cached_unreachable
                  (initial (Some (Json cachedUser))) cachedUser 5 6 "now"
                  unreachable (Thrown unreachable) eq_refl eq_refl)).
Defined.

(** The identity [createUser] makes up when the backend cannot be reached. *)
Lemma createUser_unreachable
    (st : State) (t_email t_id : N) (iso : string) (err : Err) :
  Unreachable err ->
  let localUser :=
    User.mk ("local-" ++ String_of_N t_id) "Research User"
      ("user_" ++ String_of_N t_email ++ "@example.com") (Some 100) iso in
  let st' := createUser t_email t_id iso (Thrown err) st in
  currentUser st' = Some localUser /\
  localStorage st' = Some (Json localUser) /\
  effects st' =
    (effects st ++
     [Request POST "users";
      Console c_warn "Backend unreachable, created local fallback user";
      SetItem localUser;
      Toast t_success "Running in offline mode: local user created"])%list.
Proof.
  intros Hu localUser st'. subst st' localUser. unfold createUser.
  rewrite Hu. straight. rewrite <- !app_assoc. repeat split; reflexivity.
Qed.

(** C8: with no valid cached identity (nothing stored, or a stored record
    whose verification failed otherwise than Unreachable) and an
    Unreachable create call, the active identity is a record made up
    locally: its id is [local-] followed by the clock reading, its credits
    are 100, its timestamp is the current one; and that record is written
    to the storage. *)
Theorem checkAuthStatus_local_identity
    (st : State) (t_email t_id : N) (iso : string)
    (verify : Outcome User.t) (err : Err) :
  (localStorage st = None \/
   exists cached e, localStorage st = Some (Json cached) /\
     verify = Thrown e /\ isNetworkError e = false) ->
  Unreachable err ->
  let st' := checkAuthStatus t_email t_id iso verify (Thrown err) st in
  exists localUser,
    currentUser st' = Some localUser /\
    User.id localUser = "local-" ++ String_of_N t_id /\
    isLocalUser localUser = true /\
    User.credits localUser = Some 100 /\
    User.created_at localUser = iso /\
    localStorage st' = Some (Json localUser) /\
    In (SetItem localUser) (effects st').
Proof.
  intros Hs Hu st'. subst st'. unfold checkAuthStatus.
  destruct Hs as [Hs | (cached & e & Hs & Hv & He)]; rewrite Hs;
    [| rewrite Hv, He; unfold andThen].
  all: match goal with
       | |- context [createUser _ _ _ _ ?s] =>
           destruct (createUser_unreachable s t_email t_id iso err Hu)
             as (Hc & Hl & Hlog)
       end.
  all: eexists; split; [exact Hc |].
  all: cbn [User.id User.credits User.created_at].
  all: repeat split; try reflexivity; try exact Hl.
  all: try apply (startsWith_append "local-").
  all: rewrite Hlog; apply in_or_app; right; cbn; tauto.
Qed.

(** On a first visit: nothing stored, no backend. *)
Lemma checkAuthStatus_local_identity_witness :
  (localStorage (initial None) = None \/
   exists cached e, localStorage (initial None) = Some (Json cached) /\
     Thrown (A := User.t) unreachable = Thrown e /\ isNetworkError e = false) /\
  Unreachable unreachable /\
  exists localUser,
    currentUser (checkAuthStatus 5 6 "now" (Thrown unreachable)
                   (Thrown unreachable) (initial None)) = Some localUser /\
    User.id localUser = "local-6" /\
    isLocalUser localUser = true /\
    User.credits localUser = Some 100 /\
    User.created_at localUser = "now" /\
    localStorage (checkAuthStatus 5 6 "now" (Thrown unreachable)
                    (Thrown unreachable) (initial None)) = Some (Json localUser) /\
    In (SetItem localUser)
      (effects (checkAuthStatus 5 6 "now" (Thrown unreachable)
                  (Thrown unreachable) (initial None))).
Proof.
  split; [left; reflexivity | split; [reflexivity |]].
  exact (checkAuthStatus_local_identity (initial None) 5 6 "now"
           (Thrown unreachable) unreachable (or_introl eq_refl) eq_refl).
Defined.

(** C5, on the code: a cached identity whose verification succeeds becomes
    the active identity as the backend returned it, but nothing is written
    to the storage, which keeps the record cached before (here with 100
    credits where the backend says 42). *)
Theorem checkAuthStatus_refresh_not_persisted :
  let st' := checkAuthStatus 5 6 "now" (Resolved refreshedUser)
               (Thrown unreachable) (initial (Some (Json cachedUser))) in
  currentUser st' = Some refreshedUser /\
  localStorage st' = Some (Json cachedUser) /\
  effects st' = [Request GET "users/u-17";
                 Console c_log "User authenticated successfully"] /\
  cachedUser <> refreshedUser.
Proof.
  cbv zeta. repeat split; try reflexivity. discriminate.
Qed.

(** The same for every cached record and every answer: the verified branch
    writes nothing. *)
Lemma checkAuthStatus_verified
    (st : State) (cached data : User.t) (t_email t_id : N) (iso : string)
    (create : Outcome User.t) :
  localStorage st = Some (Json cached) ->
  let st' := checkAuthStatus t_email t_id iso (Resolved data) create st in
  currentUser st' = Some data /\
  localStorage st' = Some (Json cached) /\
  effects st' =
    (effects st ++
     [Request GET ("users/" ++ User.id cached);
      Console c_log "User authenticated successfully"])%list.
Proof.
  intros Hs st'. subst st'. unfold checkAuthStatus. rewrite Hs.
  straight. rewrite Hs, <- !app_assoc. repeat split; reflexivity.
Qed.

(** Where the sibling branch does persist: a created identity is written. *)
Lemma createUser_resolved
    (st : State) (data : User.t) (t_email t_id : N) (iso : string) :
  let st' := createUser t_email t_id iso (Resolved data) st in
  currentUser st' = Some data /\ localStorage st' = Some (Json data).
Proof. split; reflexivity. Qed.

(** ** Account state aggregator *)

(** C9: a stats fetch (a) for an identity made up locally issues no
    request and sets the local defaults; (b) failing as Unreachable sets
    the same defaults (credits from the identity, or 100; counters at
    zero) and shows or logs no error; (c) failing as Rejected logs the
    failure and leaves the previous stats in place. *)
Theorem fetchUserStats_fallbacks
    (st : State) (u : User.t) (res : Outcome UserStats.t) :
  let st' := fetchUserStats (Some u) res st in
  (isLocalUser u = true ->
     userStats st' =
       Some (UserStats.mk (User.credits u ?? 100) 0 0 0) /\
     effects st' = effects st) /\
  (isLocalUser u = false ->
   forall err, res = Thrown err -> Unreachable err ->
     userStats st' =
       Some (UserStats.mk (User.credits u ?? 100) 0 0 0) /\
     effects st' = (effects st ++ [Request GET ("stats/" ++ User.id u)])%list) /\
  (isLocalUser u = false ->
   forall err, res = Thrown err -> Rejected err ->
     userStats st' = userStats st /\
     effects st' =
       (effects st ++
        [Request GET ("stats/" ++ User.id u);
         Console c_error "Failed to fetch user stats:"])%list).
Proof.
  cbv zeta. unfold fetchUserStats. split; [| split].
  - intros Hl. rewrite Hl. split; reflexivity.
  - intros Hl err Hr Hu. rewrite Hl, Hr, Hu. split; reflexivity.
  - intros Hl err Hr Hj. rewrite Hl, Hr, (Rejected_not_network _ Hj).
    straight. rewrite <- app_assoc. split; reflexivity.
Qed.

(** The three cases on sessions with 50 credits left. *)
Lemma fetchUserStats_fallbacks_witness :
  (userStats (fetchUserStats (Some localUser5) (Resolved stats50)
                (ready localUser5 (Some stats50) EmptyString [] []))
   = Some (UserStats.mk 100 0 0 0) /\
   effects (fetchUserStats (Some localUser5) (Resolved stats50)
              (ready localUser5 (Some stats50) EmptyString [] [])) = []) /\
  (userStats (fetchUserStats (Some remoteUser) (Thrown unreachable)
                (ready remoteUser (Some stats50) EmptyString [] []))
   = Some (UserStats.mk 100 0 0 0) /\
   effects (fetchUserStats (Some remoteUser) (Thrown unreachable)
              (ready remoteUser (Some stats50) EmptyString [] []))
   = [Request GET "stats/u-17"]) /\
  (userStats (fetchUserStats (Some remoteUser) (Thrown (rejected 500))
                (ready remoteUser (Some stats50) EmptyString [] []))
   = Some stats50 /\
   effects (fetchUserStats (Some remoteUser) (Thrown (rejected 500))
              (ready remoteUser (Some stats50) EmptyString [] []))
   = [Request GET "stats/u-17"; Console c_error "Failed to fetch user stats:"]).
Proof.
  split; [| split].
  - exact (proj1 (fetchUserStats_fallbacks
             (ready localUser5 (Some stats50) EmptyString [] [])
             localUser5 (Resolved stats50)) eq_refl).
  - exact (proj1 (proj2 (fetchUserStats_fallbacks
             (ready remoteUser (Some stats50) EmptyString [] [])
             remoteUser (Thrown unreachable))) eq_refl unreachable eq_refl eq_refl).
  - exact (proj2 (proj2 (fetchUserStats_fallbacks
             (ready remoteUser (Some stats50) EmptyString [] [])
             remoteUser (Thrown (rejected 500)))) eq_refl (rejected 500) eq_refl
             (ex_intro _ _ eq_refl)).
Defined.

(** The stats a fetch leaves, as a function of the stats before it. *)
Lemma fetchUserStats_userStats
    (st : State) (user : option User.t) (res : Outcome UserStats.t) :
  userStats (fetchUserStats user res st) =
    match user with
    | Some u =>
        if isLocalUser u then Some (localStats (User.credits u))
        else match res with
             | Resolved data => Some data
             | Thrown error =>
                 if isNetworkError error then Some (localStats (User.credits u))
                 else userStats st
             end
    | None => userStats st
    end.
Proof.
  unfold fetchUserStats. destruct user as [u|]; [| reflexivity].
  destruct (isLocalUser u); [reflexivity |].
  destruct res as [data|error]; [reflexivity |].
  destruct (isNetworkError error); reflexivity.
Qed.

(** The collection a refresh leaves, as a function of the one before it. *)
Lemma fetchUserReports_reports
    (st : State) (user : option User.t) (res : Outcome (list ReportItem.t)) :
  reports (fetchUserReports user res st) =
    match user with
    | Some u =>
        if isLocalUser u then []
        else match res with
             | Resolved data => data
             | Thrown error =>
                 if isNetworkError error then [] else reports st
             end
    | None => reports st
    end.
Proof.
  unfold fetchUserReports. destruct user as [u|]; [| reflexivity].
  destruct (isLocalUser u); [reflexivity |].
  destruct res as [data|error]; [reflexivity |].
  destruct (isNetworkError error); reflexivity.
Qed.

(** A fetch touches nothing but its own state variable and the log. *)
Lemma fetchUserStats_frame
    (st : State) (user : option User.t) (res : Outcome UserStats.t) :
  let st' := fetchUserStats user res st in
  currentUser st' = currentUser st /\ question st' = question st /\
  uploadedFiles st' = uploadedFiles st /\ isProcessing st' = isProcessing st /\
  reports st' = reports st /\ activeTab st' = activeTab st /\
  showAuth st' = showAuth st /\ localStorage st' = localStorage st.
Proof.
  cbv zeta. unfold fetchUserStats. destruct user as [u|]; [| now straight].
  destruct (isLocalUser u); [now straight |].
  destruct res as [data|error]; [now straight |].
  destruct (isNetworkError error); now straight.
Qed.

Lemma fetchUserReports_frame
    (st : State) (user : option User.t) (res : Outcome (list ReportItem.t)) :
  let st' := fetchUserReports user res st in
  currentUser st' = currentUser st /\ question st' = question st /\
  uploadedFiles st' = uploadedFiles st /\ isProcessing st' = isProcessing st /\
  userStats st' = userStats st /\ activeTab st' = activeTab st /\
  showAuth st' = showAuth st /\ localStorage st' = localStorage st.
Proof.
  cbv zeta. unfold fetchUserReports. destruct user as [u|]; [| now straight].
  destruct (isLocalUser u); [now straight |].
  destruct res as [data|error]; [now straight |].
  destruct (isNetworkError error); now straight.
Qed.

(** ** The polling loop *)

Lemma logged_nil (st : State) : logged [] st = st.
Proof. destruct st. unfold logged. cbn. now rewrite app_nil_r. Qed.

Lemma logged_logged (l1 l2 : list Effect) (st : State) :
  logged l2 (logged l1 st) = logged (l1 ++ l2) st.
Proof. unfold logged. cbn. now rewrite app_assoc. Qed.

Section PollingFacts.
Variable questionId : string.
Variable user : option User.t.
Variable answers : nat -> Outcome StatusResponse.
Variable stats : Outcome UserStats.t.
Variable history : Outcome (list ReportItem.t).

Local Abbreviation poll' := (poll questionId user answers stats history).
Local Abbreviation settle' := (settle user stats history).
Local Abbreviation url := ("research/" ++ questionId).

(** Once the counter has reached the cap, [settle] never runs the timer's
    callback. *)
Lemma settle_at_cap (attempts : nat) (res : Outcome StatusResponse)
    (a b : Action) :
  (maxAttempts <= attempts)%nat ->
  settle user stats history attempts res a = settle user stats history attempts res b.
Proof.
  intros H. apply Nat.ltb_ge in H. unfold settle. rewrite H.
  destruct res as [data|error]; [reflexivity |].
  now rewrite andb_false_r.
Qed.

(** [poll] is: issue the request, await, run the body. *)
Lemma poll_step (attempts : nat) :
  poll' attempts =
    axios_get url ;; settle' attempts (answers attempts) (poll' (S attempts)).
Proof.
  rewrite poll_equation_1.
  destruct (lt_dec attempts maxAttempts) as [Hlt|Hge]; cbn.
  - reflexivity.
  - f_equal. apply settle_at_cap. lia.
Qed.

(** One more round: an answer that is not final, below the cap. *)
Lemma poll_notYet (attempts : nat) (st : State) :
  (attempts < maxAttempts)%nat ->
  notYet (answers attempts) = true ->
  poll' attempts st = poll' (S attempts) (logged (rounds questionId 1) st).
Proof.
  intros Hlt Hn. apply Nat.ltb_lt in Hlt. rewrite poll_step.
  unfold andThen. unfold settle. rewrite Hlt.
  unfold notYet in Hn. destruct (answers attempts) as [data|error].
  - apply andb_true_iff in Hn. destruct Hn as [Hc Hf].
    apply negb_true_iff in Hc, Hf. rewrite Hc, Hf.
    unfold andThen. f_equal. unfold logged. expand.
    now rewrite <- app_assoc.
  - rewrite Hn. cbn [andb]. unfold andThen. f_equal. unfold logged. expand.
    now rewrite <- app_assoc.
Qed.

Lemma rounds_snoc (n : nat) :
  (rounds questionId n ++ rounds questionId 1)%list = rounds questionId (S n).
Proof. induction n as [|n IH]; [reflexivity |]. cbn in *. now rewrite IH. Qed.

(** [n] rounds in a row. *)
Lemma poll_rounds (n : nat) (st : State) :
  (n <= maxAttempts)%nat ->
  (forall j, (j < n)%nat -> notYet (answers j) = true) ->
  poll' 0%nat st = poll' n (logged (rounds questionId n) st).
Proof.
  induction n as [|n IH]; intros Hn Hj.
  - cbn. now rewrite logged_nil.
  - rewrite IH by (try lia; intros; apply Hj; lia).
    rewrite poll_notYet by (try lia; apply Hj; lia).
    now rewrite logged_logged, rounds_snoc.
Qed.

(** The loop ends in the completed branch at the request numbered [k]. *)
Lemma poll_completes (k : nat) (st : State) :
  (k <= maxAttempts)%nat ->
  (forall j, (j < k)%nat -> notYet (answers j) = true) ->
  answers k = completed ->
  poll' 0%nat st =
    (setIsProcessing false ;;
     toast_success "Research report generated!" ;;
     fetchUserStats user stats ;;
     fetchUserReports user history ;;
     setActiveTab "reports")
      (logged (rounds questionId k ++ [Request GET url]) st).
Proof.
  intros Hk Hj Hc. rewrite (poll_rounds k) by assumption.
  rewrite poll_step. unfold andThen at 1. unfold settle.
  rewrite Hc. cbn [status String.eqb]. rewrite <- logged_logged.
  reflexivity.
Qed.

(** The loop runs out: every request up to the cap got an answer that
    is not final.  The message depends on the kind of the last one. *)
Lemma poll_exhausted (st : State) :
  (forall j, (j <= maxAttempts)%nat -> notYet (answers j) = true) ->
  poll' 0%nat st =
    (setIsProcessing false ;;
     toast_error
       match answers maxAttempts with
       | Resolved _ => "Research processing timed out"
       | Thrown _ => "Error checking research status"
       end)
      (logged (rounds questionId maxAttempts ++ [Request GET url]) st).
Proof.
  intros Hj. rewrite (poll_rounds maxAttempts) by (try lia; intros; apply Hj; lia).
  rewrite poll_step. unfold andThen at 1. unfold settle.
  rewrite Nat.ltb_irrefl.
  specialize (Hj maxAttempts (Nat.le_refl _)). unfold notYet in Hj.
  rewrite <- logged_logged.
  destruct (answers maxAttempts) as [data|error].
  - apply andb_true_iff in Hj. destruct Hj as [Hc Hf].
    apply negb_true_iff in Hc, Hf. now rewrite Hc, Hf.
  - now rewrite andb_false_r.
Qed.
End PollingFacts.

(** C6: a status request that fails as Unreachable while the counter is
    below [maxAttempts] = 30 does not end the loop: a one-second timer is
    set, the counter goes up by one and [poll] runs again, nothing being
    shown to the user.  Once the counter is at the cap the same failure
    ends the loop with the status-check error, and a failure that is not
    Unreachable ends it with that error whatever the counter.  So a loop
    whose every request is Unreachable consumes all [maxAttempts] attempts
    and then reports the status-check error. *)
Theorem poll_unreachable_is_not_yet
    (questionId : string) (user : option User.t)
    (answers : nat -> Outcome StatusResponse)
    (stats : Outcome UserStats.t) (history : Outcome (list ReportItem.t))
    (attempts : nat) (err : Err) (st : State) :
  answers attempts = Thrown err ->
  let loop := poll questionId user answers stats history in
  let asked := axios_get ("research/" ++ questionId) st in
  let giveUp :=
    setIsProcessing false ;; toast_error "Error checking research status" in
  (Unreachable err -> (attempts < maxAttempts)%nat ->
     loop attempts st = loop (S attempts) (setTimeout 1000 asked)) /\
  (Unreachable err -> (maxAttempts <= attempts)%nat ->
     loop attempts st = giveUp asked) /\
  (~ Unreachable err -> loop attempts st = giveUp asked) /\
  ((forall j, (j <= maxAttempts)%nat -> exists e, answers j = Thrown e /\ Unreachable e) ->
     loop 0%nat st =
       giveUp (logged (rounds questionId maxAttempts ++
                       [Request GET ("research/" ++ questionId)]) st)).
Proof.
  intros Ha loop asked giveUp. subst loop asked giveUp.
  repeat split.
  - intros Hu Hlt. rewrite poll_step. unfold andThen at 1. unfold settle.
    rewrite Ha, Hu. apply Nat.ltb_lt in Hlt. rewrite Hlt. reflexivity.
  - intros Hu Hge. rewrite poll_step. unfold andThen at 1. unfold settle.
    rewrite Ha, Hu. apply Nat.ltb_ge in Hge. rewrite Hge. reflexivity.
  - intros Hn. rewrite poll_step. unfold andThen at 1. unfold settle.
    rewrite Ha. unfold Unreachable in Hn.
    destruct (isNetworkError err); [now elim Hn | reflexivity].
  - intros Hall. rewrite poll_exhausted.
    + destruct (Hall maxAttempts (Nat.le_refl _)) as (e & He & _).
      now rewrite He.
    + intros j Hj. destruct (Hall j Hj) as (e & He & Hu).
      rewrite He. exact Hu.
Qed.

(** The fourth request of a loop that never reaches the backend. *)
Lemma poll_unreachable_is_not_yet_witness :
  alwaysUnreachable 3%nat = Thrown unreachable /\
  Unreachable unreachable /\ (3 < maxAttempts)%nat /\
  poll "q-9" (Some remoteUser) alwaysUnreachable (Thrown unreachable)
    (Thrown unreachable) 3 (initial None) =
  poll "q-9" (Some remoteUser) alwaysUnreachable (Thrown unreachable)
    (Thrown unreachable) 4
    (setTimeout 1000 (axios_get "research/q-9" (initial None))).
Proof.
  split; [reflexivity | split; [reflexivity | split; [unfold maxAttempts; lia |]]].
  refine (proj1 (poll_unreachable_is_not_yet "q-9" (Some remoteUser)
                   alwaysUnreachable (Thrown unreachable) (Thrown unreachable)
                   3 unreachable (initial None) eq_refl) eq_refl _).
  unfold maxAttempts; lia.
Defined.

(** A fetch only adds to the log, and no timer. *)
Lemma fetchUserStats_effects
    (st : State) (user : option User.t) (res : Outcome UserStats.t) :
  exists tail,
    effects (fetchUserStats user res st) = (effects st ++ tail)%list /\
    timers tail = 0%nat.
Proof.
  unfold fetchUserStats. destruct user as [u|]; [| now eexists].
  destruct (isLocalUser u).
  - exists []. straight. now rewrite app_nil_r.
  - destruct res as [data|error]; [now eexists |].
    destruct (isNetworkError error); straight; rewrite <- ?app_assoc; now eexists.
Qed.

Lemma fetchUserReports_effects
    (st : State) (user : option User.t) (res : Outcome (list ReportItem.t)) :
  exists tail,
    effects (fetchUserReports user res st) = (effects st ++ tail)%list /\
    timers tail = 0%nat.
Proof.
  unfold fetchUserReports. destruct user as [u|]; [| now eexists].
  destruct (isLocalUser u).
  - exists []. straight. now rewrite app_nil_r.
  - destruct res as [data|error]; [now eexists |].
    destruct (isNetworkError error); straight; rewrite <- ?app_assoc; now eexists.
Qed.

Lemma timers_app (l1 l2 : list Effect) :
  timers (l1 ++ l2) = (timers l1 + timers l2)%nat.
Proof. unfold timers. now rewrite filter_app, length_app. Qed.

Lemma no_timer_oneSecond (l : list Effect) :
  timers l = 0%nat -> Forall oneSecond l.
Proof.
  unfold timers. induction l as [|e l IH]; intros H; constructor.
  - destruct e; cbn in *; try exact I. discriminate.
  - apply IH. destruct e; cbn in *; try exact H. discriminate.
Qed.

(** The completed branch of [poll], variable by variable. *)
Lemma completed_branch
    (user : option User.t) (stats : Outcome UserStats.t)
    (history : Outcome (list ReportItem.t)) (st : State) :
  let st' := (setIsProcessing false ;;
              toast_success "Research report generated!" ;;
              fetchUserStats user stats ;;
              fetchUserReports user history ;;
              setActiveTab "reports") st in
  isProcessing st' = false /\ activeTab st' = "reports" /\
  reports st' = reports (fetchUserReports user history st) /\
  userStats st' = userStats (fetchUserStats user stats st) /\
  currentUser st' = currentUser st /\ localStorage st' = localStorage st /\
  question st' = question st /\ uploadedFiles st' = uploadedFiles st /\
  exists tail,
    effects st' =
      (effects st ++ Toast t_success "Research report generated!" :: tail)%list /\
    timers tail = 0%nat.
Proof.
  cbv zeta. unfold andThen.
  set (s1 := toast_success _ (setIsProcessing false st)).
  set (s2 := fetchUserStats user stats s1).
  set (s3 := fetchUserReports user history s2).
  destruct (fetchUserStats_frame s1 user stats)
    as (Hu1 & Hq1 & Hf1 & Hp1 & Hr1 & Ht1 & Ha1 & Hl1).
  destruct (fetchUserReports_frame s2 user history)
    as (Hu2 & Hq2 & Hf2 & Hp2 & Hs2 & Ht2 & Ha2 & Hl2).
  fold s2 in Hu1, Hq1, Hf1, Hp1, Hr1, Ht1, Ha1, Hl1.
  fold s3 in Hu2, Hq2, Hf2, Hp2, Hs2, Ht2, Ha2, Hl2.
  destruct (fetchUserStats_effects s1 user stats) as (t1 & He1 & Hn1).
  destruct (fetchUserReports_effects s2 user history) as (t2 & He2 & Hn2).
  fold s2 in He1. fold s3 in He2.
  straight. repeat split.
  - now rewrite Hp2, Hp1.
  - subst s3. rewrite !fetchUserReports_reports, Hr1. reflexivity.
  - rewrite Hs2. subst s2. rewrite !fetchUserStats_userStats. reflexivity.
  - now rewrite Hu2, Hu1.
  - now rewrite Hl2, Hl1.
  - now rewrite Hq2, Hq1.
  - now rewrite Hf2, Hf1.
  - exists (t1 ++ t2)%list. split.
    + rewrite He2, He1. subst s1. straight. now rewrite <- !app_assoc.
    + now rewrite timers_app, Hn1, Hn2.
Qed.

Section PollingBound.
Variable questionId : string.
Variable user : option User.t.
Variable answers : nat -> Outcome StatusResponse.
Variable stats : Outcome UserStats.t.
Variable history : Outcome (list ReportItem.t).

(** Whatever the answers, the loop only adds to the log, sets a timer at
    most once per attempt left, and every timer it sets is of one second. *)
Lemma poll_bound (n attempts : nat) (st : State) :
  (remaining attempts <= n)%nat ->
  exists added,
    effects (poll questionId user answers stats history attempts st)
    = (effects st ++ added)%list /\
    (timers added <= remaining attempts)%nat /\
    Forall oneSecond added.
Proof.
  revert n attempts st.
  assert (Hend : forall (st : State) (k : nat) (m : string) (kind : ToastKind),
            exists added,
              effects ((setIsProcessing false ;; emit (Toast kind m))
                         (axios_get ("research/" ++ questionId) st))
              = (effects st ++ added)%list /\
              (timers added <= k)%nat /\ Forall oneSecond added).
  { intros st k m kind. eexists. straight. rewrite <- app_assoc.
    split; [reflexivity |]. split; [cbn; lia |]. repeat constructor. }
  assert (Hdone : forall (st : State) (k : nat),
            exists added,
              effects ((setIsProcessing false ;;
                        toast_success "Research report generated!" ;;
                        fetchUserStats user stats ;;
                        fetchUserReports user history ;;
                        setActiveTab "reports")
                         (axios_get ("research/" ++ questionId) st))
              = (effects st ++ added)%list /\
              (timers added <= k)%nat /\ Forall oneSecond added).
  { intros st k.
    destruct (completed_branch user stats history
                (axios_get ("research/" ++ questionId) st))
      as (_ & _ & _ & _ & _ & _ & _ & _ & tail & He & Hn).
    cbv zeta in He. rewrite He. straight. rewrite <- app_assoc.
    eexists. split; [reflexivity |].
    assert (Ht : timers ([Request GET ("research/" ++ questionId)] ++
                         Toast t_success "Research report generated!" :: tail)
                 = 0%nat) by (rewrite timers_app; cbn; exact Hn).
    split; [rewrite Ht; lia | now apply no_timer_oneSecond]. }
  assert (Hagain : forall (attempts : nat) (st : State) (n : nat),
            (forall a s, (remaining a <= n)%nat ->
               exists added,
                 effects (poll questionId user answers stats history a s)
                 = (effects s ++ added)%list /\
                 (timers added <= remaining a)%nat /\ Forall oneSecond added) ->
            (remaining attempts <= S n)%nat ->
            (attempts < maxAttempts)%nat ->
            exists added,
              effects ((setTimeout 1000 ;;
                        poll questionId user answers stats history (S attempts))
                         (axios_get ("research/" ++ questionId) st))
              = (effects st ++ added)%list /\
              (timers added <= remaining attempts)%nat /\ Forall oneSecond added).
  { intros attempts st n IH Hn Hlt. unfold andThen.
    destruct (IH (S attempts)
                (setTimeout 1000 (axios_get ("research/" ++ questionId) st)))
      as (added & He & Ht & Hf); [unfold remaining in *; lia |].
    rewrite He. straight. rewrite <- !app_assoc.
    eexists. split; [reflexivity |]. split.
    - rewrite !timers_app. cbn. unfold remaining in *. lia.
    - repeat (apply Forall_app; split); try assumption; repeat constructor. }
  induction n as [|n IH]; intros attempts st Hn; rewrite poll_step;
    unfold andThen at 1; unfold settle.
  - assert (Hge : (attempts <? maxAttempts)%nat = false)
      by (apply Nat.ltb_ge; unfold remaining in Hn; lia).
    rewrite Hge. destruct (answers attempts) as [data|error].
    + destruct (status data =? "completed"); [apply Hdone |].
      destruct (status data =? "failed"); apply Hend.
    + rewrite andb_false_r. apply Hend.
  - destruct (answers attempts) as [data|error].
    + destruct (status data =? "completed"); [apply Hdone |].
      destruct (status data =? "failed"); [apply Hend |].
      destruct (attempts <? maxAttempts)%nat eqn:Hlt; [| apply Hend].
      apply Nat.ltb_lt in Hlt. now apply (Hagain attempts st n).
    + destruct (isNetworkError error && (attempts <? maxAttempts)%nat) eqn:Hc;
        [| apply Hend].
      apply andb_true_iff in Hc. destruct Hc as [_ Hlt].
      apply Nat.ltb_lt in Hlt. now apply (Hagain attempts st n).
Qed.
End PollingBound.

(** C3, as the code has it.  After a submission the backend accepted, the
    loop asks for the status of the question; whatever the answers it
    ends, having set a timer at most [maxAttempts] = 30 times, each of one
    second.  With [processing] as the answer to the first 29 requests and
    [completed] to the 30th, the loop ends completed: processing is over,
    the view is [reports], and stats and report collection are what their
    refresh from the backend yields (the loop itself adds no report).
    With [processing] as the answer to every request the loop ends with
    the timeout message, and the collection, the stats and the view are
    left as they were. *)
Theorem pollForResults_scenarios
    (questionId : string) (user : option User.t)
    (answers : nat -> Outcome StatusResponse)
    (stats : Outcome UserStats.t) (history : Outcome (list ReportItem.t))
    (st : State) :
  let st' := pollForResults questionId user answers stats history st in
  let url := "research/" ++ questionId in
  (exists added,
     effects st' = (effects st ++ added)%list /\
     (timers added <= maxAttempts)%nat /\
     Forall oneSecond added) /\
  ((forall j, (j < 29)%nat -> answers j = processing) ->
   answers 29%nat = completed ->
     isProcessing st' = false /\ activeTab st' = "reports" /\
     reports st' = reports (fetchUserReports user history st) /\
     userStats st' = userStats (fetchUserStats user stats st) /\
     exists tail,
       effects st' =
         (effects st ++ rounds questionId 29 ++
          [Request GET url; Toast t_success "Research report generated!"] ++
          tail)%list) /\
  ((forall j, answers j = processing) ->
     isProcessing st' = false /\ activeTab st' = activeTab st /\
     reports st' = reports st /\ userStats st' = userStats st /\
     exists n,
       effects st' =
         (effects st ++ rounds questionId n ++
          [Request GET url; Toast t_error "Research processing timed out"])%list).
Proof.
  cbv zeta. unfold pollForResults. split; [| split].
  - destruct (poll_bound questionId user answers stats history
                maxAttempts 0 st) as (added & He & Ht & Hf).
    { unfold remaining. lia. }
    exists added. repeat split; assumption.
  - intros Hj Hc.
    rewrite (poll_completes questionId user answers stats history 29)
      by (try (unfold maxAttempts; lia); try assumption;
          intros j Hlt; rewrite (Hj j Hlt); reflexivity).
    set (s0 := logged _ st).
    destruct (completed_branch user stats history s0)
      as (Hp & Ht & Hr & Hs & _ & _ & _ & _ & tail & He & _).
    cbv zeta in Hp, Ht, Hr, Hs, He.
    repeat split; try assumption.
    + rewrite Hr. subst s0. now rewrite !fetchUserReports_reports.
    + rewrite Hs. subst s0. now rewrite !fetchUserStats_userStats.
    + exists tail. rewrite He. subst s0. unfold logged. straight.
      now rewrite <- !app_assoc.
  - intros Hj.
    rewrite (poll_exhausted questionId user answers stats history)
      by (intros j _; rewrite (Hj j); reflexivity).
    rewrite (Hj maxAttempts). unfold processing, logged. straight.
    repeat split. exists maxAttempts. now rewrite <- !app_assoc.
Qed.

(** The two scenarios on a session of [remoteUser]. *)
Lemma pollForResults_scenarios_witness :
  ((forall j, (j < 29)%nat -> processingUntil 29 completed j = processing) /\
   processingUntil 29 completed 29 = completed /\
   activeTab
     (pollForResults "q-9" (Some remoteUser) (processingUntil 29 completed)
        (Resolved stats50) (Resolved [localItem])
        (ready remoteUser (Some stats50) "text" [] [])) = "reports") /\
  ((forall j, processingUntil 0 processing j = processing) /\
   reports
     (pollForResults "q-9" (Some remoteUser) (processingUntil 0 processing)
        (Resolved stats50) (Resolved [localItem])
        (ready remoteUser (Some stats50) "text" [] [])) = []).
Proof.
  assert (H29 : forall j, (j < 29)%nat -> processingUntil 29 completed j = processing).
  { intros j Hj. unfold processingUntil. apply Nat.ltb_lt in Hj. now rewrite Hj. }
  assert (H0 : forall j, processingUntil 0 processing j = processing).
  { intros j. reflexivity. }
  split; (split; [assumption |]).
  - split; [reflexivity |].
    exact (proj1 (proj2 (proj1 (proj2 (pollForResults_scenarios "q-9"
             (Some remoteUser) (processingUntil 29 completed) (Resolved stats50)
             (Resolved [localItem])
             (ready remoteUser (Some stats50) "text" [] []))) H29 eq_refl))).
  - exact (proj1 (proj2 (proj2 (proj2 (proj2 (pollForResults_scenarios "q-9"
             (Some remoteUser) (processingUntil 0 processing)
             (Resolved stats50) (Resolved [localItem])
             (ready remoteUser (Some stats50) "text" [] []))) H0)))).
Defined.

(** C3 as stated fails twice.  (1) After 29 [processing] answers and
    [completed] as the 30th, with the report-history refresh Rejected, the
    loop ends completed and the view is [reports], but the collection is
    the one it was: it has not grown.  (2) After 30 [processing] answers
    the loop is not over: it sets a 30th timer and issues a 31st request,
    and when that one is answered [completed] it ends completed, not timed
    out. *)
Lemma pollForResults_counterexample :
  (let st' := pollForResults "q-9" (Some remoteUser)
                (processingUntil 29 completed) (Resolved stats50)
                (Thrown (rejected 500)) withLocalReport in
   reports st' = reports withLocalReport /\
   activeTab st' = "reports" /\
   effects st' =
     (rounds "q-9" 29 ++
      [Request GET "research/q-9"; Toast t_success "Research report generated!";
       Request GET "stats/u-17"; Request GET "reports/u-17";
       Console c_error "Failed to fetch reports:"])%list) /\
  (let st' := pollForResults "q-9" (Some remoteUser)
                (processingUntil 30 completed) (Resolved stats50)
                (Resolved [localItem]) withLocalReport in
   (forall j, (j < 30)%nat -> processingUntil 30 completed j = processing) /\
   isProcessing st' = false /\
   activeTab st' = "reports" /\
   effects st' =
     (rounds "q-9" 30 ++
      [Request GET "research/q-9"; Toast t_success "Research report generated!";
       Request GET "stats/u-17"; Request GET "reports/u-17"])%list).
Proof.
  cbv zeta. split; [repeat split; vm_compute; reflexivity |].
  split; [| repeat split; vm_compute; reflexivity].
  intros j Hj. unfold processingUntil. apply Nat.ltb_lt in Hj. now rewrite Hj.
Qed.

(** ** Report history *)




(** ** Submission *)

(** Past its three guards, [submitResearchQuestion] marks the session as
    processing, posts the question and branches on the outcome. *)
Lemma submit_past_guards
    (render : State) (u : User.t) (now : string) (t_q t_r : N)
    (res : Outcome ResearchResponse) (answers : nat -> Outcome StatusResponse)
    (stats : Outcome UserStats.t) (history : Outcome (list ReportItem.t)) :
  guardsPass render = true ->
  currentUser render = Some u ->
  submitResearchQuestion render now t_q t_r res answers stats history =
    (setIsProcessing true ;;
     axios_post "research" ;;
     match res with
     | Resolved data =>
         toast_success "Research question submitted! Processing..." ;;
         pollForResults (question_id data) (Some u) answers stats history ;;
         setQuestion EmptyString ;;
         setUploadedFiles []
     | Thrown error =>
         console_error "Research submission failed:" ;;
         if isNetworkError error || isLocalUser u then
           offlineFlow u (question render) (uploadedFiles render) now t_q t_r
         else
           toast_error "Failed to submit research question" ;;
           setIsProcessing false
     end).
Proof.
  unfold guardsPass, submitResearchQuestion. intros Hg Hu. rewrite Hu in *.
  apply andb_true_iff in Hg. destruct Hg as [Hg Hc].
  apply andb_true_iff in Hg. destruct Hg as [Hq _].
  apply negb_true_iff in Hc. rewrite Hq, Hc. reflexivity.
Qed.

(** A guard that fails stops the handler before any request, with an error
    message and nothing else. *)
Lemma submit_refused
    (render st : State) (now : string) (t_q t_r : N)
    (res : Outcome ResearchResponse) (answers : nat -> Outcome StatusResponse)
    (stats : Outcome UserStats.t) (history : Outcome (list ReportItem.t)) :
  guardsPass render = false ->
  exists message,
    submitResearchQuestion render now t_q t_r res answers stats history st
    = toast_error message st.
Proof.
  unfold guardsPass, submitResearchQuestion. intros Hg.
  destruct (truthy (trim (question render))); [| now eexists].
  destruct (currentUser render) as [u|]; [| now eexists].
  cbn in Hg. apply negb_false_iff in Hg. rewrite Hg. now eexists.
Qed.

(** The submission takes the offline flow when it fails as Unreachable,
    or fails at all under an identity made up locally. *)
Lemma submit_takes_offlineFlow
    (render st : State) (u : User.t) (now : string) (t_q t_r : N) (err : Err)
    (answers : nat -> Outcome StatusResponse)
    (stats : Outcome UserStats.t) (history : Outcome (list ReportItem.t)) :
  guardsPass render = true ->
  currentUser render = Some u ->
  isNetworkError err || isLocalUser u = true ->
  submitResearchQuestion render now t_q t_r (Thrown err) answers stats history st
  = offlineFlow u (question render) (uploadedFiles render) now t_q t_r
      (console_error "Research submission failed:"
         (axios_post "research" (setIsProcessing true st))).
Proof.
  intros Hg Hu Hoff. rewrite (submit_past_guards render u) by assumption.
  rewrite Hoff. reflexivity.
Qed.

(** C4, as the code has it: when the submission is Rejected and the id of
    the active identity does not start with [local-], the error is shown,
    the question text, the pending files, the stats (so the credits) and
    the report collection are left as they were, and processing is over. *)
Theorem submit_rejected
    (render st : State) (u : User.t) (now : string) (t_q t_r : N) (err : Err)
    (answers : nat -> Outcome StatusResponse)
    (stats : Outcome UserStats.t) (history : Outcome (list ReportItem.t)) :
  guardsPass render = true ->
  currentUser render = Some u ->
  isLocalUser u = false ->
  Rejected err ->
  let st' := submitResearchQuestion render now t_q t_r (Thrown err)
               answers stats history st in
  question st' = question st /\
  uploadedFiles st' = uploadedFiles st /\
  userStats st' = userStats st /\
  reports st' = reports st /\
  activeTab st' = activeTab st /\
  isProcessing st' = false /\
  effects st' =
    (effects st ++
     [Request POST "research";
      Console c_error "Research submission failed:";
      Toast t_error "Failed to submit research question"])%list.
Proof.
  intros Hg Hu Hl Hr st'. subst st'.
  rewrite (submit_past_guards render u) by assumption.
  rewrite (Rejected_not_network err Hr), Hl. cbn [orb]. straight.
  rewrite <- !app_assoc. repeat split; reflexivity.
Qed.

(** A Rejected submission of [remoteUser], one file pending. *)
Lemma submit_rejected_witness :
  guardsPass (ready remoteUser (Some stats50) "why?" [file_a] []) = true /\
  isLocalUser remoteUser = false /\
  Rejected (rejected 500) /\
  question (submit "now" 1 2 (Thrown (rejected 500)) alwaysUnreachable
              (Thrown unreachable) (Thrown unreachable)
              (ready remoteUser (Some stats50) "why?" [file_a] [])) = "why?".
Proof.
  assert (Hr : Rejected (rejected 500)) by (eexists; reflexivity).
  split; [reflexivity | split; [reflexivity | split; [exact Hr |]]].
  exact (proj1 (submit_rejected
                  (ready remoteUser (Some stats50) "why?" [file_a] [])
                  (ready remoteUser (Some stats50) "why?" [file_a] [])
                  remoteUser "now" 1 2 (rejected 500) alwaysUnreachable
                  (Thrown unreachable) (Thrown unreachable)
                  eq_refl eq_refl eq_refl Hr)).
Defined.

(** C4 as stated fails for an identity made up locally: a Rejected
    submission takes the offline flow, which clears the question and the
    pending files, prepends a report, debits a credit and shows no error. *)
Lemma submit_rejected_counterexample :
  let st := ready localUser5 (Some stats50) "why?" [file_a] [] in
  let st' := submit "now" 1 2 (Thrown (rejected 500)) alwaysUnreachable
               (Thrown unreachable) (Thrown unreachable) st in
  Rejected (rejected 500) /\
  question st = "why?" /\ question st' = EmptyString /\
  uploadedFiles st = [file_a] /\ uploadedFiles st' = [] /\
  userStats st = Some (UserStats.mk 50 7 7 50) /\
  userStats st' = Some (UserStats.mk 49 8 8 51) /\
  List.length (reports st') = 1%nat /\
  effects st' =
    [Request POST "research";
     Console c_error "Research submission failed:";
     Toast t_success "Local report generated (offline mode)"].
Proof.
  cbv zeta. split; [eexists; reflexivity |].
  repeat split; vm_compute; reflexivity.
Qed.

(** The three things the body of a local report spells out. *)
Lemma reportText_includes (question : string) (sources : list string) :
  includes (reportText question sources) question /\
  includes (reportText question sources) "Offline mode: generated a local report." /\
  includes (reportText question sources)
    "Connect the backend to generate AI-powered reports.".
Proof.
  unfold includes, reportText. repeat split.
  - exists ("Key Findings" ++ nl ++ "- Offline mode: generated a local report."
            ++ nl ++ "- Your question: ").
    eexists. rewrite !append_assoc. reflexivity.
  - exists ("Key Findings" ++ nl ++ "- "). eexists. reflexivity.
  - exists ("Key Findings" ++ nl ++
            "- Offline mode: generated a local report." ++ nl ++
            "- Your question: " ++ question ++ nl ++ nl ++
            "Supporting Evidence" ++ nl ++
            "- Files provided: " ++
            (if (0 <? List.length sources)%nat then join sources ", " else "none")
            ++ nl ++ nl ++ "Actionable Recommendations" ++ nl ++ "- ").
    eexists. rewrite !append_assoc. reflexivity.
Qed.

(** What the offline flow does to a state, variable by variable. *)
Lemma offlineFlow_spec
    (u : User.t) (q : string) (files : list UploadedFile.t)
    (now : string) (t_q t_r : N) (st : State) :
  let st' := offlineFlow u q files now t_q t_r st in
  reports st' =
    localReportItem u q files now ("local-q-" ++ String_of_N t_q)
      ("local-r-" ++ String_of_N t_r) :: reports st /\
  userStats st' = debit u (userStats st) /\
  activeTab st' = "reports" /\ question st' = EmptyString /\
  uploadedFiles st' = [] /\ isProcessing st' = false /\
  currentUser st' = currentUser st /\ localStorage st' = localStorage st /\
  effects st' =
    (effects st ++ [Toast t_success "Local report generated (offline mode)"])%list.
Proof. cbv zeta. unfold offlineFlow. straight. repeat split. Qed.

(** C1, as the code has it: when the question is not blank, an identity is
    active and the known credits are at least 1, a submission that fails
    as Unreachable, or fails in any way under an identity made up locally,
    ends well for the user.  One report is prepended to the collection;
    its body is a fixed function of the question text and of the names of
    the pending files and spells out the question, the offline notice and
    the advice to connect the backend; its sources are those names and its
    citations those names each after [Source: ]; it carries no live data;
    its question is marked completed.  The view is [reports], the question
    text and the pending files are cleared, processing is over, and the
    only message shown is the success one. *)
Theorem submit_offline
    (render st : State) (u : User.t) (now : string) (t_q t_r : N) (err : Err)
    (answers : nat -> Outcome StatusResponse)
    (stats : Outcome UserStats.t) (history : Outcome (list ReportItem.t)) :
  guardsPass render = true ->
  currentUser render = Some u ->
  isNetworkError err || isLocalUser u = true ->
  let st' := submitResearchQuestion render now t_q t_r (Thrown err)
               answers stats history st in
  let names := map UploadedFile.name (uploadedFiles render) in
  exists item,
    reports st' = item :: reports st /\
    Report.report (ReportItem.report item) = reportText (question render) names /\
    includes (Report.report (ReportItem.report item)) (question render) /\
    includes (Report.report (ReportItem.report item))
      "Offline mode: generated a local report." /\
    includes (Report.report (ReportItem.report item))
      "Connect the backend to generate AI-powered reports." /\
    Report.citations (ReportItem.report item)
      = map (fun s => "Source: " ++ s) names /\
    Report.sources_used (ReportItem.report item) = names /\
    Report.live_data_included (ReportItem.report item) = false /\
    Question.status (ReportItem.question item) = "completed" /\
    Question.question (ReportItem.question item) = question render /\
    Question.id (ReportItem.question item)
      = Report.question_id (ReportItem.report item) /\
    activeTab st' = "reports" /\
    question st' = EmptyString /\
    uploadedFiles st' = [] /\
    isProcessing st' = false /\
    effects st' =
      (effects st ++
       [Request POST "research";
        Console c_error "Research submission failed:";
        Toast t_success "Local report generated (offline mode)"])%list.
Proof.
  intros Hg Hu Hoff st' names. subst st' names.
  rewrite (submit_takes_offlineFlow render st u) by assumption.
  set (s0 := console_error _ _).
  destruct (offlineFlow_spec u (question render) (uploadedFiles render)
              now t_q t_r s0) as (Hr & _ & Ht & Hq & Hf & Hp & _ & _ & He).
  cbv zeta in Hr, Ht, Hq, Hf, Hp, He.
  destruct (reportText_includes (question render)
              (map UploadedFile.name (uploadedFiles render))) as (I1 & I2 & I3).
  eexists. split; [exact Hr |].
  cbn [ReportItem.report ReportItem.question localReportItem Report.report
       Report.citations Report.sources_used Report.live_data_included
       Question.status Question.question Question.id Report.question_id].
  repeat split; try assumption.
  rewrite He. subst s0. straight. now rewrite <- !app_assoc.
Qed.

(** An Unreachable submission of [remoteUser], one file pending. *)
Lemma submit_offline_witness :
  guardsPass (ready remoteUser (Some stats50) "why?" [file_a] []) = true /\
  isNetworkError unreachable || isLocalUser remoteUser = true /\
  exists item,
    reports (submit "now" 1 2 (Thrown unreachable) alwaysUnreachable
               (Thrown unreachable) (Thrown unreachable)
               (ready remoteUser (Some stats50) "why?" [file_a] [])) = [item] /\
    Report.sources_used (ReportItem.report item) = ["a.txt"] /\
    Report.citations (ReportItem.report item) = ["Source: a.txt"].
Proof.
  split; [reflexivity | split; [reflexivity |]].
  destruct (submit_offline
              (ready remoteUser (Some stats50) "why?" [file_a] [])
              (ready remoteUser (Some stats50) "why?" [file_a] [])
              remoteUser "now" 1 2 unreachable alwaysUnreachable
              (Thrown unreachable) (Thrown unreachable)
              eq_refl eq_refl eq_refl)
    as (item & Hr & _ & _ & _ & _ & Hc & Hs & _).
  exists item. repeat split; assumption.
Defined.

(** C1 as stated fails in four ways.  (1) A question of one space is not
    empty, yet it is refused with an error and no report is made.  (2)
    With no credit left the submission is refused too.  (3) The citations
    are not the file names: each is a name after [Source: ].  (4) Under an
    identity made up locally a submission that the backend accepts is
    polled like any other and makes no local report. *)
Lemma submit_offline_counterexample :
  (let st' := submit "now" 1 2 (Thrown unreachable) alwaysUnreachable
                (Thrown unreachable) (Thrown unreachable)
                (ready remoteUser (Some stats50) " " [] []) in
   reports st' = [] /\
   effects st' = [Toast t_error "Please enter a research question"]) /\
  (let st' := submit "now" 1 2 (Thrown unreachable) alwaysUnreachable
                (Thrown unreachable) (Thrown unreachable)
                (ready remoteUser (Some (UserStats.mk 0 100 100 100)) "why?" [] []) in
   reports st' = [] /\
   effects st' =
     [Toast t_error "Insufficient credits. You need 1 credit to ask a question."]) /\
  (let st' := submit "now" 1 2 (Thrown unreachable) alwaysUnreachable
                (Thrown unreachable) (Thrown unreachable)
                (ready remoteUser (Some stats50) "why?" [file_a] []) in
   map (fun i => Report.citations (ReportItem.report i)) (reports st')
     = [["Source: a.txt"]] /\
   map UploadedFile.name [file_a] = ["a.txt"]) /\
  (let st' := submit "now" 1 2 (Resolved {| question_id := "q-9" |})
                (processingUntil 0 completed)
                (Thrown unreachable) (Thrown unreachable)
                (ready localUser5 (Some stats50) "why?" [file_a] []) in
   isLocalUser localUser5 = true /\
   reports st' = [] /\
   effects st' =
     [Request POST "research";
      Toast t_success "Research question submitted! Processing...";
      Request GET "research/q-9";
      Toast t_success "Research report generated!"]).
Proof.
  cbv zeta. repeat split; vm_compute; reflexivity.
Qed.

(** ** Credits over a session *)

(** [wellFormed] looks at the identity, the storage and the stats only. *)
Lemma wellFormed_frame (st st' : State) :
  currentUser st' = currentUser st ->
  localStorage st' = localStorage st ->
  userStats st' = userStats st ->
  wellFormed st -> wellFormed st'.
Proof.
  unfold wellFormed, creditsOk. intros Hu Hl Hs. now rewrite Hu, Hl, Hs.
Qed.

Lemma localStats_ok (u : User.t) : userOk u -> statsOk (localStats (User.credits u)).
Proof.
  unfold userOk, statsOk, localStats. cbn.
  destruct (User.credits u) as [c|]; cbn; [trivial | lia].
Qed.

Lemma debit_ok (u : User.t) (prev : option UserStats.t) :
  match debit u prev with Some s => statsOk s | None => True end.
Proof.
  unfold debit, statsOk. cbv zeta. cbn [UserStats.credits_remaining].
  apply Z.le_max_l.
Qed.

(** Up to [2 ^ 53] in magnitude an integer is a double. *)
Lemma round_exact (z : Z) : - 2 ^ 53 <= z <= 2 ^ 53 -> Double.round z = z.
Proof.
  intros H. unfold Double.round. cbv zeta.
  destruct (Z.abs z <? 2 ^ 53)%Z eqn:E; [reflexivity |].
  apply Z.ltb_ge in E. change (2 ^ 53) with 9007199254740992 in *.
  assert (H0 : z = 9007199254740992 \/ z = - 9007199254740992) by lia.
  destruct H0 as [-> | ->]; vm_compute; reflexivity.
Qed.

(** Beyond, the nearest double, a tie going to the even significand. *)
Lemma round_beyond :
  Double.round (2 ^ 53 + 1) = 2 ^ 53 /\
  Double.round (2 ^ 53 + 2) = 2 ^ 53 + 2 /\
  Double.round (2 ^ 53 + 3) = 2 ^ 53 + 4 /\
  Double.round (2 ^ 54 - 1) = 2 ^ 54 /\
  Double.round (2 ^ 54 + 1) = 2 ^ 54 /\
  Double.round (2 ^ 54 + 2) = 2 ^ 54 /\
  Double.round (2 ^ 54 + 3) = 2 ^ 54 + 4 /\
  Double.round (- (2 ^ 53 + 1)) = - 2 ^ 53.
Proof. repeat split; vm_compute; reflexivity. Qed.

Lemma add_one_exact (x : Z) : safe x -> Double.add x 1 = x + 1.
Proof.
  unfold safe, Double.add. intros H. apply round_exact.
  change (2 ^ 53) with 9007199254740992 in *. lia.
Qed.

Lemma sub_one_exact (x : Z) : safe x -> Double.sub x 1 = x - 1.
Proof.
  unfold safe, Double.sub. intros H. apply round_exact.
  change (2 ^ 53) with 9007199254740992 in *. lia.
Qed.

(** A debit from known stats that pass the credit guard is exactly one
    credit, one question, one report, as long as the four numbers are
    safe integers. *)
Lemma debit_known (u : User.t) (s : UserStats.t) :
  (UserStats.credits_remaining s <? 1)%Z = false ->
  safe (UserStats.credits_remaining s) ->
  safe (UserStats.total_questions_asked s) ->
  safe (UserStats.reports_generated s) ->
  safe (UserStats.credits_used s) ->
  debit u (Some s) =
    Some (UserStats.mk (UserStats.credits_remaining s - 1)
            (UserStats.total_questions_asked s + 1)
            (UserStats.reports_generated s + 1)
            (UserStats.credits_used s + 1)).
Proof.
  intros Hg H1 H2 H3 H4. apply Z.ltb_ge in Hg. unfold debit.
  cbn [option_map nullish].
  rewrite sub_one_exact, !add_one_exact by assumption.
  do 2 f_equal. lia.
Qed.

Lemma fetchUserStats_ok (st : State) (res : Outcome UserStats.t) :
  sends statsOk res -> wellFormed st ->
  wellFormed (fetchUserStats (currentUser st) res st).
Proof.
  intros Hres (Hu & Hl & Hs).
  destruct (fetchUserStats_frame st (currentUser st) res)
    as (Hu' & _ & _ & _ & _ & _ & _ & Hl').
  cbv zeta in Hu', Hl'. unfold wellFormed, creditsOk.
  rewrite Hu', Hl', fetchUserStats_userStats. repeat split; try assumption.
  destruct (currentUser st) as [u|]; [| exact Hs].
  destruct (isLocalUser u); [now apply localStats_ok |].
  destruct res as [data|error]; [exact Hres |].
  destruct (isNetworkError error); [now apply localStats_ok | exact Hs].
Qed.

Lemma fetchUserReports_ok (st : State) (user : option User.t)
    (res : Outcome (list ReportItem.t)) :
  wellFormed st -> wellFormed (fetchUserReports user res st).
Proof.
  destruct (fetchUserReports_frame st user res)
    as (Hu & _ & _ & _ & Hs & _ & _ & Hl).
  now apply wellFormed_frame.
Qed.

Section PollingFrame.
Variable questionId : string.
Variable user : option User.t.
Variable answers : nat -> Outcome StatusResponse.
Variable stats : Outcome UserStats.t.
Variable history : Outcome (list ReportItem.t).

(** Whatever the answers, the loop leaves the identity, the storage, the
    question text and the pending files alone, and the stats are either
    the ones before or the ones a refresh yields. *)
Lemma poll_frame (n attempts : nat) (st : State) :
  (remaining attempts <= n)%nat ->
  let st' := poll questionId user answers stats history attempts st in
  currentUser st' = currentUser st /\ localStorage st' = localStorage st /\
  question st' = question st /\ uploadedFiles st' = uploadedFiles st /\
  (userStats st' = userStats st \/
   userStats st' = userStats (fetchUserStats user stats st)).
Proof.
  cbv zeta. revert attempts st.
  induction n as [|n IH]; intros attempts st Hn; rewrite poll_step;
    unfold andThen; unfold settle, remaining in *.
  - assert (Hge : (attempts <? maxAttempts)%nat = false)
      by (apply Nat.ltb_ge; lia).
    rewrite Hge.
    destruct (answers attempts) as [data|error].
    + destruct (status data =? "completed").
      * destruct (completed_branch user stats history
                    (axios_get ("research/" ++ questionId) st))
          as (_ & _ & _ & Hs & Hu & Hl & Hq & Hf & _).
        cbv zeta in Hs, Hu, Hl, Hq, Hf. rewrite Hs, Hu, Hl, Hq, Hf.
        rewrite !fetchUserStats_userStats. straight. tauto.
      * destruct (status data =? "failed"); straight; tauto.
    + rewrite andb_false_r. straight. tauto.
  - destruct (answers attempts) as [data|error].
    + destruct (status data =? "completed").
      * destruct (completed_branch user stats history
                    (axios_get ("research/" ++ questionId) st))
          as (_ & _ & _ & Hs & Hu & Hl & Hq & Hf & _).
        cbv zeta in Hs, Hu, Hl, Hq, Hf. rewrite Hs, Hu, Hl, Hq, Hf.
        rewrite !fetchUserStats_userStats. straight. tauto.
      * destruct (status data =? "failed"); [straight; tauto |].
        destruct (attempts <? maxAttempts)%nat eqn:Hlt; [| straight; tauto].
        apply Nat.ltb_lt in Hlt. unfold andThen.
        destruct (IH (S attempts)
                    (setTimeout 1000 (axios_get ("research/" ++ questionId) st)))
          as (Hu & Hl & Hq & Hf & Hs); [lia |].
        rewrite Hu, Hl, Hq, Hf. rewrite !fetchUserStats_userStats in *.
        straight. tauto.
    + destruct (isNetworkError error && (attempts <? maxAttempts)%nat) eqn:Hc;
        [| straight; tauto].
      apply andb_true_iff in Hc. destruct Hc as [_ Hlt].
      apply Nat.ltb_lt in Hlt. unfold andThen.
      destruct (IH (S attempts)
                  (setTimeout 1000 (axios_get ("research/" ++ questionId) st)))
        as (Hu & Hl & Hq & Hf & Hs); [lia |].
      rewrite Hu, Hl, Hq, Hf. rewrite !fetchUserStats_userStats in *.
      straight. tauto.
Qed.
End PollingFrame.

Lemma createUser_ok (st : State) (t_email t_id : N) (iso : string)
    (create : Outcome User.t) :
  sends userOk create -> wellFormed st ->
  wellFormed (createUser t_email t_id iso create st).
Proof.
  intros Hc (Hu & Hl & Hs). unfold createUser, wellFormed, creditsOk in *.
  destruct create as [data|error].
  - straight. repeat split; assumption.
  - destruct (isNetworkError error); straight; repeat split;
      try assumption; unfold userOk; cbn; lia.
Qed.

Lemma checkAuthStatus_ok (st : State) (t_email t_id : N) (iso : string)
    (verify create : Outcome User.t) :
  sends userOk verify -> sends userOk create -> wellFormed st ->
  wellFormed (checkAuthStatus t_email t_id iso verify create st).
Proof.
  intros Hv Hc Hw. unfold checkAuthStatus.
  destruct (localStorage st) as [[cached|]|] eqn:Hst.
  - destruct Hw as (Hu & Hl & Hs). rewrite Hst in Hl.
    destruct verify as [data|error].
    + unfold wellFormed, creditsOk. straight. rewrite Hst.
      repeat split; assumption.
    + destruct (isNetworkError error).
      * unfold wellFormed, creditsOk. straight. rewrite Hst.
        repeat split; assumption.
      * unfold andThen. apply createUser_ok; [assumption |].
        unfold wellFormed, creditsOk. straight. repeat split; assumption.
  - revert Hw. apply wellFormed_frame; reflexivity.
  - now apply createUser_ok.
Qed.

Lemma mount_ok (st : State) (t_email t_id : N) (iso : string)
    (verify create : Outcome User.t)
    (stats : Outcome UserStats.t) (history : Outcome (list ReportItem.t)) :
  sends userOk verify -> sends userOk create -> sends statsOk stats ->
  wellFormed st ->
  wellFormed (mount t_email t_id iso verify create stats history st).
Proof.
  intros Hv Hc Hs Hw. unfold mount, andThen.
  set (s1 := checkAuthStatus _ _ _ _ _ _).
  assert (H1 : wellFormed s1).
  { subst s1. apply checkAuthStatus_ok; try assumption.
    destruct Hw as (_ & Hl & _). unfold wellFormed, creditsOk, reload.
    cbn. tauto. }
  unfold onCurrentUserChange. destruct (currentUser s1) eqn:Hu; [| exact H1].
  unfold andThen. apply fetchUserReports_ok. rewrite <- Hu.
  now apply fetchUserStats_ok.
Qed.

Lemma handleFileUpload_frame (files : list Selected) (st : State) :
  let st' := handleFileUpload files st in
  currentUser st' = currentUser st /\ localStorage st' = localStorage st /\
  userStats st' = userStats st /\ reports st' = reports st.
Proof.
  cbv zeta. revert st. induction files as [|f files IH]; intros st.
  - now cbn.
  - change (handleFileUpload (f :: files) st)
      with (handleFileUpload files (uploadOne f st)).
    destruct (IH (uploadOne f st)) as (Hu & Hl & Hs & Hr).
    rewrite Hu, Hl, Hs, Hr. unfold uploadOne.
    destruct (sel_upload f) as [data|error]; [now straight |].
    destruct (isNetworkError error); now straight.
Qed.

Lemma submit_ok (st : State) (now : string) (t_q t_r : N)
    (res : Outcome ResearchResponse) (answers : nat -> Outcome StatusResponse)
    (stats : Outcome UserStats.t) (history : Outcome (list ReportItem.t)) :
  sends statsOk stats -> wellFormed st ->
  wellFormed (submit now t_q t_r res answers stats history st).
Proof.
  intros Hs Hw. unfold submit.
  destruct (guardsPass st) eqn:Hg.
  - destruct (currentUser st) as [u|] eqn:Hu.
    2:{ unfold guardsPass in Hg. rewrite Hu, andb_false_r in Hg. discriminate. }
    rewrite (submit_past_guards st u) by assumption.
    unfold andThen at 1 2. set (s0 := axios_post _ _).
    assert (H0 : wellFormed s0) by (revert Hw; apply wellFormed_frame; reflexivity).
    assert (Hu0 : currentUser s0 = Some u) by exact Hu.
    destruct res as [data|error].
    + unfold andThen. unfold pollForResults.
      set (s1 := toast_success _ s0).
      destruct (poll_frame (question_id data) (Some u) answers stats history
                  maxAttempts 0 s1) as (Hc & Hl & _ & _ & Hst).
      { unfold remaining. lia. }
      cbv zeta in Hc, Hl, Hst. unfold wellFormed, creditsOk. straight.
      rewrite Hc, Hl.
      destruct H0 as (A & B & C).
      pose proof (fetchUserStats_ok s0 stats Hs (conj A (conj B C))) as (_ & _ & D).
      unfold creditsOk in C, D. rewrite Hu0 in D.
      rewrite !fetchUserStats_userStats in *.
      repeat split; try assumption.
      destruct Hst as [Hst|Hst]; rewrite Hst; assumption.
    + unfold andThen. set (s1 := console_error _ s0).
      destruct (isNetworkError error || isLocalUser u).
      * destruct (offlineFlow_spec u (question st) (uploadedFiles st)
                    now t_q t_r s1) as (_ & Hd & _ & _ & _ & _ & Hc & Hl & _).
        cbv zeta in Hd, Hc, Hl. destruct H0 as (A & B & C).
        unfold wellFormed, creditsOk. rewrite Hd, Hc, Hl.
        repeat split; try assumption. apply debit_ok.
      * revert H0. apply wellFormed_frame; reflexivity.
  - destruct (submit_refused st st now t_q t_r res answers stats history Hg)
      as (message & Hm).
    rewrite Hm. revert Hw. apply wellFormed_frame; reflexivity.
Qed.

Lemma step_ok (e : Event) (st : State) :
  eventOk e -> wellFormed st -> wellFormed (step e st).
Proof.
  destruct e; cbn [step eventOk]; intros He Hw.
  - destruct He as (Hv & Hc & Hs). now apply mount_ok.
  - revert Hw. apply wellFormed_frame; reflexivity.
  - destruct (handleFileUpload_frame files st) as (Hu & Hl & Hs & _).
    revert Hw. now apply wellFormed_frame.
  - revert Hw. apply wellFormed_frame; reflexivity.
  - revert Hw. apply wellFormed_frame; reflexivity.
  - now apply submit_ok.
  - unfold handleLogout, wellFormed, creditsOk. straight. tauto.
Qed.

Lemma run_ok (events : list Event) (st : State) :
  Forall eventOk events -> wellFormed st -> wellFormed (run events st).
Proof.
  revert st. induction events as [|e events IH]; intros st He Hw.
  - exact Hw.
  - inversion He; subst. cbn [run]. unfold andThen.
    apply IH; [assumption |]. now apply step_ok.
Qed.

Lemma handleAuthSubmit_complete (API : string) (render : Shell)
    (res : Outcome AuthResponse) :
  formComplete render = true ->
  handleAuthSubmit API render res
  = authRequest API (authMode render =? "signup") res.
Proof.
  unfold formComplete, handleAuthSubmit. cbv zeta.
  destruct (authMode render =? "signup"); intros H;
    apply negb_true_iff in H; now rewrite H.
Qed.

Lemma handleAuthSubmit_incomplete (API : string) (render : Shell)
    (res : Outcome AuthResponse) :
  formComplete render = false ->
  handleAuthSubmit API render res
  = onState (toast_error (if authMode render =? "signup"
                          then "Please fill in all fields"
                          else "Please enter email and password")).
Proof.
  unfold formComplete, handleAuthSubmit. cbv zeta.
  destruct (authMode render =? "signup"); intros H;
    apply negb_false_iff in H; now rewrite H.
Qed.


Lemma fetchLatestNews_fst (iso1 iso2 : string) (news : Outcome (list NewsItem.t))
    (c : Component) :
  fst (fetchLatestNews iso1 iso2 news c) = axios_get "news" (fst c).
Proof.
  unfold fetchLatestNews, next, onState.
  destruct news as [data|error]; [reflexivity |].
  now destruct (isNetworkError error).
Qed.







(** * Further properties *)

(** ** The polling loop, whatever the answers *)

Section PollingEnds.
Variable questionId : string.
Variable user : option User.t.
Variable answers : nat -> Outcome StatusResponse.
Variable stats : Outcome UserStats.t.
Variable history : Outcome (list ReportItem.t).

Local Abbreviation loop := (poll questionId user answers stats history).
Local Abbreviation url := ("research/" ++ questionId).

(** The body of [poll] ends the loop or sets the timer, as [verdict] says. *)
Lemma settle_verdict (attempts : nat) (res : Outcome StatusResponse)
    (again : Action) :
  settle user stats history attempts res again =
    match verdict attempts res with
    | Some e => finish user stats history e
    | None => setTimeout 1000 ;; again
    end.
Proof.
  unfold settle, verdict. destruct res as [data|error].
  - destruct (status data =? "completed"); [reflexivity |].
    destruct (status data =? "failed"); [reflexivity |].
    destruct (attempts <? maxAttempts)%nat; reflexivity.
  - destruct (isNetworkError error && (attempts <? maxAttempts)%nat); reflexivity.
Qed.

Lemma verdict_None_notYet (attempts : nat) (res : Outcome StatusResponse) :
  verdict attempts res = None ->
  notYet res = true /\ (attempts < maxAttempts)%nat.
Proof.
  unfold verdict, notYet. destruct res as [data|error].
  - destruct (status data =? "completed"); [discriminate |].
    destruct (status data =? "failed"); [discriminate |].
    destruct (attempts <? maxAttempts)%nat eqn:Hlt; [| discriminate].
    intros _. split; [reflexivity | now apply Nat.ltb_lt].
  - destruct (isNetworkError error); cbn [andb]; [| discriminate].
    destruct (attempts <? maxAttempts)%nat eqn:Hlt; [| discriminate].
    intros _. split; [reflexivity | now apply Nat.ltb_lt].
Qed.

Lemma verdict_at_cap (attempts : nat) (res : Outcome StatusResponse) :
  (maxAttempts <= attempts)%nat -> exists e, verdict attempts res = Some e.
Proof.
  intros Hge. apply Nat.ltb_ge in Hge. unfold verdict. rewrite Hge.
  destruct res as [data|error].
  - destruct (status data =? "completed"); [now eexists |].
    destruct (status data =? "failed"); now eexists.
  - rewrite andb_false_r. now eexists.
Qed.

(** From any counter, the loop goes round while the answers decide
    nothing and ends on the first one that does. *)
Lemma poll_ends (n attempts : nat) (st : State) :
  (attempts <= maxAttempts)%nat ->
  (remaining attempts <= n)%nat ->
  exists k e,
    (attempts + k <= maxAttempts)%nat /\
    (forall j, (j < k)%nat -> verdict (attempts + j) (answers (attempts + j)) = None) /\
    verdict (attempts + k) (answers (attempts + k)) = Some e /\
    loop attempts st =
      finish user stats history e
        (logged (rounds questionId k ++ [Request GET url]) st).
Proof.
  revert attempts st. induction n as [|n IH]; intros attempts st Hle Hn.
  - destruct (verdict_at_cap attempts (answers attempts)) as (e & He).
    { unfold remaining in Hn. lia. }
    exists 0%nat, e. rewrite Nat.add_0_r. repeat split; try assumption.
    + intros j Hj. lia.
    + rewrite poll_step. unfold andThen at 1. rewrite settle_verdict, He.
      reflexivity.
  - destruct (verdict attempts (answers attempts)) as [e|] eqn:Hv.
    + exists 0%nat, e. rewrite Nat.add_0_r.
      repeat split; try assumption.
      * intros j Hj. lia.
      * rewrite poll_step. unfold andThen at 1. rewrite settle_verdict, Hv.
        reflexivity.
    + destruct (verdict_None_notYet _ _ Hv) as (Hy & Hlt).
      destruct (IH (S attempts) (logged (rounds questionId 1) st))
        as (k & e & Hk & Hj & He & Heq).
      { lia. }
      { unfold remaining in *. lia. }
      exists (S k), e. rewrite <- !Nat.add_succ_comm. repeat split.
      * exact Hk.
      * intros [|j] Hlt'.
        -- now rewrite Nat.add_0_r.
        -- rewrite <- Nat.add_succ_comm. apply Hj. lia.
      * exact He.
      * rewrite (poll_notYet questionId user answers stats history attempts st Hlt Hy).
        rewrite Heq, logged_logged, app_assoc. reflexivity.
Qed.
End PollingEnds.

(** What a refresh adds to the log: requests and console lines only. *)
Lemma fetchUserStats_quiet
    (st : State) (user : option User.t) (res : Outcome UserStats.t) :
  exists tail,
    effects (fetchUserStats user res st) = (effects st ++ tail)%list /\
    toasts tail = [] /\ timers tail = 0%nat.
Proof.
  unfold fetchUserStats. destruct user as [u|]; [| now eexists].
  destruct (isLocalUser u).
  - exists []. straight. now rewrite app_nil_r.
  - destruct res as [data|error]; [now eexists |].
    destruct (isNetworkError error); straight; rewrite <- ?app_assoc; now eexists.
Qed.

Lemma fetchUserReports_quiet
    (st : State) (user : option User.t) (res : Outcome (list ReportItem.t)) :
  exists tail,
    effects (fetchUserReports user res st) = (effects st ++ tail)%list /\
    toasts tail = [] /\ timers tail = 0%nat.
Proof.
  unfold fetchUserReports. destruct user as [u|]; [| now eexists].
  destruct (isLocalUser u).
  - exists []. straight. now rewrite app_nil_r.
  - destruct res as [data|error]; [now eexists |].
    destruct (isNetworkError error); straight; rewrite <- ?app_assoc; now eexists.
Qed.

Lemma toasts_app (l1 l2 : list Effect) :
  toasts (l1 ++ l2) = (toasts l1 ++ toasts l2)%list.
Proof. unfold toasts. apply filter_app. Qed.

Lemma toasts_rounds (questionId : string) (n : nat) :
  toasts (rounds questionId n) = [].
Proof. induction n as [|n IH]; [reflexivity | exact IH]. Qed.

Lemma timers_rounds (questionId : string) (n : nat) :
  timers (rounds questionId n) = n.
Proof.
  unfold timers. induction n as [|n IH]; [reflexivity |]. cbn. now rewrite IH.
Qed.

(** An ending, variable by variable: processing is over, one message is
    shown, and only the completed one touches stats, collection and view. *)
Lemma finish_spec
    (user : option User.t) (stats : Outcome UserStats.t)
    (history : Outcome (list ReportItem.t)) (e : Ending) (st : State) :
  let st' := finish user stats history e st in
  isProcessing st' = false /\
  currentUser st' = currentUser st /\ localStorage st' = localStorage st /\
  showAuth st' = showAuth st /\ question st' = question st /\
  uploadedFiles st' = uploadedFiles st /\
  (e <> Completed ->
     reports st' = reports st /\ userStats st' = userStats st /\
     activeTab st' = activeTab st) /\
  exists kind message tail,
    effects st' = (effects st ++ Toast kind message :: tail)%list /\
    toasts tail = [] /\ timers tail = 0%nat.
Proof.
  cbv zeta. destruct e; cbn [finish].
  - unfold andThen.
    set (s1 := toast_success _ (setIsProcessing false st)).
    set (s2 := fetchUserStats user stats s1).
    destruct (fetchUserStats_frame s1 user stats)
      as (Hu1 & Hq1 & Hf1 & Hp1 & _ & _ & Ha1 & Hl1).
    destruct (fetchUserReports_frame s2 user history)
      as (Hu2 & Hq2 & Hf2 & Hp2 & _ & _ & Ha2 & Hl2).
    destruct (fetchUserStats_quiet s1 user stats) as (t1 & He1 & Ht1 & Hn1).
    destruct (fetchUserReports_quiet s2 user history) as (t2 & He2 & Ht2 & Hn2).
    cbv zeta in *. fold s2 in Hu1, Hq1, Hf1, Hp1, Ha1, Hl1, He1.
    straight. fold s2.
    rewrite Hp2, Hp1, Hu2, Hu1, Hl2, Hl1, Ha2, Ha1, Hq2, Hq1, Hf2, Hf1.
    repeat split; try reflexivity;
      try match goal with Hne : Completed <> Completed |- _ => now elim Hne end.
    exists t_success, "Research report generated!", (t1 ++ t2)%list.
    rewrite He2, He1. subst s1. straight. rewrite <- !app_assoc.
    repeat split.
    + now rewrite toasts_app, Ht1, Ht2.
    + now rewrite timers_app, Hn1, Hn2.
  - straight. repeat split. now exists t_error, "Research processing failed", [].
  - straight. repeat split. now exists t_error, "Research processing timed out", [].
  - straight. repeat split. now exists t_error, "Error checking research status", [].
Qed.

(** X1: whatever the answers, the loop asks for the status once, then once
    more after each one-second timer for as long as the answers decide
    nothing, and stops at the first answer that does: a status
    [completed] or [failed], a failure that is not Unreachable, or any
    answer once the counter is at [maxAttempts].  It then runs that one
    ending.  So it sets at most 30 timers and makes at most 31 requests. *)
Theorem pollForResults_first_verdict
    (questionId : string) (user : option User.t)
    (answers : nat -> Outcome StatusResponse)
    (stats : Outcome UserStats.t) (history : Outcome (list ReportItem.t))
    (st : State) :
  exists k e,
    (k <= maxAttempts)%nat /\
    (forall j, (j < k)%nat -> verdict j (answers j) = None) /\
    verdict k (answers k) = Some e /\
    pollForResults questionId user answers stats history st =
      finish user stats history e
        (logged (rounds questionId k ++
                 [Request GET ("research/" ++ questionId)]) st).
Proof.
  destruct (poll_ends questionId user answers stats history maxAttempts 0 st)
    as (k & e & Hk & Hj & He & Heq).
  { lia. }
  { unfold remaining. lia. }
  exists k, e. repeat split; assumption.
Qed.

(** The loop, variable by variable, whatever the answers. *)
Lemma poll_settles
    (questionId : string) (user : option User.t)
    (answers : nat -> Outcome StatusResponse)
    (stats : Outcome UserStats.t) (history : Outcome (list ReportItem.t))
    (st : State) :
  let st' := pollForResults questionId user answers stats history st in
  isProcessing st' = false /\
  currentUser st' = currentUser st /\ localStorage st' = localStorage st /\
  showAuth st' = showAuth st /\ question st' = question st /\
  uploadedFiles st' = uploadedFiles st /\
  exists added kind message,
    effects st' = (effects st ++ added)%list /\
    toasts added = [Toast kind message] /\
    (timers added <= maxAttempts)%nat.
Proof.
  cbv zeta.
  destruct (poll_ends questionId user answers stats history maxAttempts 0 st)
    as (k & e & Hk & _ & _ & Heq).
  { lia. }
  { unfold remaining. lia. }
  unfold pollForResults. rewrite Heq.
  set (s0 := logged _ st).
  destruct (finish_spec user stats history e s0)
    as (Hp & Hu & Hl & Ha & Hq & Hf & _ & kind & message & tail & He & Ht & Hn).
  cbv zeta in *. rewrite Hp, Hu, Hl, Ha, Hq, Hf. repeat split.
  exists ((rounds questionId k ++ [Request GET ("research/" ++ questionId)])
          ++ Toast kind message :: tail)%list, kind, message.
  rewrite He. subst s0. unfold logged. straight. rewrite <- !app_assoc.
  repeat split.
  - rewrite !toasts_app, toasts_rounds. unfold toasts in *. cbn.
    now rewrite Ht.
  - rewrite !timers_app, timers_rounds. unfold timers in *. cbn.
    rewrite Hn. cbn in Hk. lia.
Qed.

(** X2: whatever the answers and the refreshes, when the loop is over
    processing is over, exactly one message was shown, at most 30 timers
    were set, and the identity,
    the storage, the sign-in flag, the question text and the pending files
    are as they were. *)
Theorem pollForResults_settles
    (questionId : string) (user : option User.t)
    (answers : nat -> Outcome StatusResponse)
    (stats : Outcome UserStats.t) (history : Outcome (list ReportItem.t))
    (st : State) :
  let st' := pollForResults questionId user answers stats history st in
  isProcessing st' = false /\
  currentUser st' = currentUser st /\ localStorage st' = localStorage st /\
  showAuth st' = showAuth st /\ question st' = question st /\
  uploadedFiles st' = uploadedFiles st /\
  exists added kind message,
    effects st' = (effects st ++ added)%list /\
    toasts added = [Toast kind message] /\
    (timers added <= maxAttempts)%nat.
Proof. exact (poll_settles questionId user answers stats history st). Qed.

(** X3: the loop refreshes the stats and the collection and switches the
    view only when it ends completed: when no answer up to the cap has the
    status [completed], the three are left as they were. *)
Theorem pollForResults_untouched_unless_completed
    (questionId : string) (user : option User.t)
    (answers : nat -> Outcome StatusResponse)
    (stats : Outcome UserStats.t) (history : Outcome (list ReportItem.t))
    (st : State) :
  (forall j data, (j <= maxAttempts)%nat -> answers j = Resolved data ->
     (status data =? "completed") = false) ->
  let st' := pollForResults questionId user answers stats history st in
  reports st' = reports st /\ userStats st' = userStats st /\
  activeTab st' = activeTab st.
Proof.
  intros Hno. cbv zeta.
  destruct (poll_ends questionId user answers stats history maxAttempts 0 st)
    as (k & e & Hk & _ & Hv & Heq).
  { lia. }
  { unfold remaining. lia. }
  unfold pollForResults. rewrite Heq.
  set (s0 := logged _ st).
  destruct (finish_spec user stats history e s0)
    as (_ & _ & _ & _ & _ & _ & Hkeep & _).
  apply Hkeep. intros ->. cbn in Hv. unfold verdict in Hv.
  destruct (answers k) as [data|error] eqn:Ha.
  - rewrite (Hno k data Hk Ha) in Hv.
    destruct (status data =? "failed"); [discriminate |].
    destruct (k <? maxAttempts)%nat; discriminate.
  - destruct (isNetworkError error && (k <? maxAttempts)%nat); discriminate.
Qed.

(** A question that the backend reports as failed at its third poll. *)
Lemma pollForResults_untouched_unless_completed_witness :
  (forall j data, (j <= maxAttempts)%nat ->
     processingUntil 2 (Resolved {| status := "failed" |}) j = Resolved data ->
     (status data =? "completed") = false) /\
  reports (pollForResults "q-9" (Some remoteUser)
             (processingUntil 2 (Resolved {| status := "failed" |}))
             (Resolved stats50) (Resolved []) withLocalReport)
  = [localItem].
Proof.
  assert (H : forall j data, (j <= maxAttempts)%nat ->
     processingUntil 2 (Resolved {| status := "failed" |}) j = Resolved data ->
     (status data =? "completed") = false).
  { intros j data _. unfold processingUntil.
    destruct (j <? 2)%nat; intros E; inversion E; reflexivity. }
  split; [exact H |].
  exact (proj1 (pollForResults_untouched_unless_completed "q-9" (Some remoteUser)
                  (processingUntil 2 (Resolved {| status := "failed" |}))
                  (Resolved stats50) (Resolved []) withLocalReport H)).
Defined.

(** ** Submission, whatever the outcome *)

Lemma trimStart_blank (s : string) : blank s = true -> trimStart s = EmptyString.
Proof.
  induction s as [|c s IH]; cbn; [reflexivity |].
  intros H. apply andb_true_iff in H. destruct H as [Hc Hs].
  rewrite Hc. now apply IH.
Qed.

Lemma trimEnd_keeps_head (c : ascii) (s : string) :
  isWhiteSpace c = false -> trimEnd (String c s) <> EmptyString.
Proof.
  intros Hc. cbn. destruct (trimEnd s); [rewrite Hc |]; discriminate.
Qed.

Lemma trimStart_head (s : string) :
  trimStart s = EmptyString \/
  exists c t, trimStart s = String c t /\ isWhiteSpace c = false.
Proof.
  induction s as [|c s IH]; cbn; [now left |].
  destruct (isWhiteSpace c) eqn:Hc; [exact IH |].
  right. now exists c, s.
Qed.

Lemma trimStart_empty_blank (s : string) :
  trimStart s = EmptyString -> blank s = true.
Proof.
  induction s as [|c s IH]; cbn; [reflexivity |].
  destruct (isWhiteSpace c); [exact IH | discriminate].
Qed.

(** [trim] leaves nothing exactly of the strings of white space. *)
Lemma trim_empty_iff_blank (s : string) :
  trim s = EmptyString <-> blank s = true.
Proof.
  unfold trim. split.
  - intros H. destruct (trimStart_head s) as [E | (c & t & E & Hc)].
    + now apply trimStart_empty_blank.
    + rewrite E in H. now elim (trimEnd_keeps_head c t Hc).
  - intros H. now rewrite (trimStart_blank s H).
Qed.

Lemma truthy_false_iff (s : string) : truthy s = false <-> s = EmptyString.
Proof.
  unfold truthy. rewrite negb_false_iff. apply String.eqb_eq.
Qed.

(** The three refusals of [submitResearchQuestion], in its order. *)
Lemma submit_refusals_aux
    (render st : State) (now : string) (t_q t_r : N)
    (res : Outcome ResearchResponse) (answers : nat -> Outcome StatusResponse)
    (stats : Outcome UserStats.t) (history : Outcome (list ReportItem.t)) :
  let st' := submitResearchQuestion render now t_q t_r res answers stats history st in
  (blank (question render) = true ->
     st' = toast_error "Please enter a research question" st) /\
  (blank (question render) = false -> currentUser render = None ->
     st' = toast_error "Please log in to submit questions" st) /\
  (blank (question render) = false ->
   forall u s, currentUser render = Some u -> userStats render = Some s ->
     UserStats.credits_remaining s < 1 ->
     st' = toast_error
             "Insufficient credits. You need 1 credit to ask a question." st).
Proof.
  cbv zeta. unfold submitResearchQuestion. split; [| split].
  - intros Hb. apply trim_empty_iff_blank in Hb.
    apply truthy_false_iff in Hb. now rewrite Hb.
  - intros Hb Hu.
    destruct (truthy (trim (question render))) eqn:Ht.
    + cbn [negb]. now rewrite Hu.
    + apply truthy_false_iff, trim_empty_iff_blank in Ht. congruence.
  - intros Hb u s Hu Hs Hc.
    destruct (truthy (trim (question render))) eqn:Ht.
    + cbn [negb]. rewrite Hu, Hs. apply Z.ltb_lt in Hc. now rewrite Hc.
    + apply truthy_false_iff, trim_empty_iff_blank in Ht. congruence.
Qed.

(** X4: the three refusals of a submission, in their order, each before
    any request and with no other change than its message: a question of
    white space only (whoever is signed in, whatever the credits); then no
    active identity; then known remaining credits below 1. *)
Theorem submit_refusals
    (render st : State) (now : string) (t_q t_r : N)
    (res : Outcome ResearchResponse) (answers : nat -> Outcome StatusResponse)
    (stats : Outcome UserStats.t) (history : Outcome (list ReportItem.t)) :
  let st' := submitResearchQuestion render now t_q t_r res answers stats history st in
  (blank (question render) = true ->
     st' = toast_error "Please enter a research question" st) /\
  (blank (question render) = false -> currentUser render = None ->
     st' = toast_error "Please log in to submit questions" st) /\
  (blank (question render) = false ->
   forall u s, currentUser render = Some u -> userStats render = Some s ->
     UserStats.credits_remaining s < 1 ->
     st' = toast_error
             "Insufficient credits. You need 1 credit to ask a question." st).
Proof. exact (submit_refusals_aux render st now t_q t_r res answers stats history). Qed.

(** On the three sessions that cannot submit. *)
Lemma submit_refusals_witness :
  effects (submit "now" 1 2 (Thrown unreachable) alwaysUnreachable
             (Thrown unreachable) (Thrown unreachable) blankQuestion)
  = [Toast t_error "Please enter a research question"] /\
  effects (submit "now" 1 2 (Thrown unreachable) alwaysUnreachable
             (Thrown unreachable) (Thrown unreachable) signedOut)
  = [Toast t_error "Please log in to submit questions"] /\
  effects (submit "now" 1 2 (Thrown unreachable) alwaysUnreachable
             (Thrown unreachable) (Thrown unreachable) noCredit)
  = [Toast t_error "Insufficient credits. You need 1 credit to ask a question."].
Proof.
  split; [| split].
  - exact (f_equal effects
             (proj1 (submit_refusals blankQuestion blankQuestion "now" 1 2
                       (Thrown unreachable) alwaysUnreachable
                       (Thrown unreachable) (Thrown unreachable))
                eq_refl)).
  - exact (f_equal effects
             (proj1 (proj2 (submit_refusals signedOut signedOut "now" 1 2
                       (Thrown unreachable) alwaysUnreachable
                       (Thrown unreachable) (Thrown unreachable)))
                eq_refl eq_refl)).
  - exact (f_equal effects
             (proj2 (proj2 (submit_refusals noCredit noCredit "now" 1 2
                       (Thrown unreachable) alwaysUnreachable
                       (Thrown unreachable) (Thrown unreachable)))
                eq_refl remoteUser (UserStats.mk 0 100 100 100)
                eq_refl eq_refl eq_refl)).
Defined.

(** A submission, variable by variable, whatever the outcome. *)
Lemma submit_settles
    (render st : State) (now : string) (t_q t_r : N)
    (res : Outcome ResearchResponse) (answers : nat -> Outcome StatusResponse)
    (stats : Outcome UserStats.t) (history : Outcome (list ReportItem.t)) :
  let st' := submitResearchQuestion render now t_q t_r res answers stats history st in
  currentUser st' = currentUser st /\ localStorage st' = localStorage st /\
  showAuth st' = showAuth st /\
  isProcessing st' = (if guardsPass render then false else isProcessing st).
Proof.
  cbv zeta. destruct (guardsPass render) eqn:Hg.
  - destruct (currentUser render) as [u|] eqn:Hu.
    2:{ unfold guardsPass in Hg. rewrite Hu, andb_false_r in Hg. discriminate. }
    rewrite (submit_past_guards render u) by assumption.
    destruct res as [data|error].
    + unfold andThen. straight.
      match goal with
      | |- context [pollForResults ?q ?us ?a ?s ?h ?x] =>
          destruct (poll_settles q us a s h x) as (Hp & Hc & Hl & Ha & _)
      end.
      cbv zeta in *. rewrite Hp, Hc, Hl, Ha. straight. repeat split.
    + unfold andThen. destruct (isNetworkError error || isLocalUser u).
      * match goal with
        | |- context [offlineFlow ?a ?b ?c ?d ?e ?f ?x] =>
            destruct (offlineFlow_spec a b c d e f x)
              as (_ & _ & _ & _ & _ & Hp & Hc & Hl & _)
        end.
        cbv zeta in *. rewrite Hp, Hc, Hl. unfold offlineFlow. straight.
        repeat split.
      * straight. repeat split.
  - destruct (submit_refused render st now t_q t_r res answers stats history Hg)
      as (message & Hm).
    rewrite Hm. straight. repeat split.
Qed.

(** X5: a submission never changes the identity, the storage or the
    sign-in flag, and whatever the outcome of the post, the answers of the
    polls and the refreshes, it leaves the session processing only if it
    was refused while the session was processing. *)
Theorem submit_never_stuck
    (render st : State) (now : string) (t_q t_r : N)
    (res : Outcome ResearchResponse) (answers : nat -> Outcome StatusResponse)
    (stats : Outcome UserStats.t) (history : Outcome (list ReportItem.t)) :
  let st' := submitResearchQuestion render now t_q t_r res answers stats history st in
  currentUser st' = currentUser st /\ localStorage st' = localStorage st /\
  showAuth st' = showAuth st /\
  isProcessing st' = (if guardsPass render then false else isProcessing st).
Proof. exact (submit_settles render st now t_q t_r res answers stats history). Qed.

(** X6: when the post resolves, the question text and the pending files
    are cleared whatever becomes of the question afterwards, and the first
    status request asks for the id the backend gave. *)
Theorem submit_resolved_clears
    (render st : State) (u : User.t) (now : string) (t_q t_r : N)
    (data : ResearchResponse) (answers : nat -> Outcome StatusResponse)
    (stats : Outcome UserStats.t) (history : Outcome (list ReportItem.t)) :
  guardsPass render = true ->
  currentUser render = Some u ->
  let st' := submitResearchQuestion render now t_q t_r (Resolved data)
               answers stats history st in
  question st' = EmptyString /\ uploadedFiles st' = [] /\
  exists rest,
    effects st' =
      (effects st ++
       [Request POST "research";
        Toast t_success "Research question submitted! Processing...";
        Request GET ("research/" ++ question_id data)] ++ rest)%list.
Proof.
  intros Hg Hu. cbv zeta.
  rewrite (submit_past_guards render u) by assumption.
  unfold andThen. straight. repeat split.
  unfold pollForResults.
  match goal with
  | |- context [poll ?q ?us ?a ?s ?h 0 ?x] =>
      destruct (poll_ends q us a s h maxAttempts 0 x)
        as (k & e & _ & _ & _ & Heq); [lia | unfold remaining; lia |];
      rewrite Heq;
      match goal with
      | |- context [finish us s h e ?y] =>
          destruct (finish_spec us s h e y)
            as (_ & _ & _ & _ & _ & _ & _ & kind & message & tail & He & _)
      end
  end.
  cbv zeta in He. rewrite He. unfold logged. straight.
  destruct k as [|k]; cbn [rounds app]; rewrite <- !app_assoc; cbn [app];
    eexists; reflexivity.
Qed.

(** A submission of one file that the backend accepts and never answers. *)
Lemma submit_resolved_clears_witness :
  guardsPass (ready remoteUser (Some stats50) "why?" [file_a] []) = true /\
  question (submit "now" 1 2 (Resolved {| question_id := "q-9" |})
              (processingUntil 40 completed) (Thrown unreachable)
              (Thrown unreachable)
              (ready remoteUser (Some stats50) "why?" [file_a] []))
  = EmptyString /\
  uploadedFiles (submit "now" 1 2 (Resolved {| question_id := "q-9" |})
                   (processingUntil 40 completed) (Thrown unreachable)
                   (Thrown unreachable)
                   (ready remoteUser (Some stats50) "why?" [file_a] []))
  = [].
Proof.
  split; [reflexivity |].
  destruct (submit_resolved_clears
              (ready remoteUser (Some stats50) "why?" [file_a] [])
              (ready remoteUser (Some stats50) "why?" [file_a] [])
              remoteUser "now" 1 2 {| question_id := "q-9" |}
              (processingUntil 40 completed) (Thrown unreachable)
              (Thrown unreachable) eq_refl eq_refl) as (Hq & Hf & _).
  split; assumption.
Defined.

(** ** Questions asked offline, one after the other *)

Lemma blank_false_truthy (q : string) :
  blank q = false -> truthy (trim q) = true.
Proof.
  intros Hb. destruct (truthy (trim q)) eqn:Ht; [reflexivity |].
  apply truthy_false_iff, trim_empty_iff_blank in Ht. congruence.
Qed.

(** One question asked offline with credits left: one report, one debit. *)
Lemma offline_ask_served
    (a : Ask) (st : State) (u : User.t) (s : UserStats.t) :
  currentUser st = Some u -> userStats st = Some s ->
  blank (ask_text a) = false -> 1 <= UserStats.credits_remaining s ->
  safe (UserStats.credits_remaining s) ->
  safe (UserStats.total_questions_asked s) ->
  safe (UserStats.reports_generated s) ->
  safe (UserStats.credits_used s) ->
  let st' := run (offlineAsks [a]) st in
  currentUser st' = Some u /\
  userStats st' =
    Some (UserStats.mk (UserStats.credits_remaining s - 1)
            (UserStats.total_questions_asked s + 1)
            (UserStats.reports_generated s + 1)
            (UserStats.credits_used s + 1)) /\
  List.length (reports st') = S (List.length (reports st)).
Proof.
  intros Hu Hs Hb Hc S1 S2 S3 S4. cbv zeta. cbn [offlineAsks flat_map app run step].
  unfold andThen, skip, submit.
  set (s1 := setQuestion (ask_text a) st).
  assert (Hg : guardsPass s1 = true).
  { unfold guardsPass. subst s1. straight. rewrite Hu, Hs.
    rewrite (blank_false_truthy _ Hb).
    assert (E : (UserStats.credits_remaining s <? 1)%Z = false)
      by (apply Z.ltb_ge; lia).
    now rewrite E. }
  rewrite (submit_takes_offlineFlow s1 s1 u) by (try assumption; reflexivity).
  match goal with
  | |- context [offlineFlow ?a ?b ?c ?d ?e ?f ?x] =>
      destruct (offlineFlow_spec a b c d e f x)
        as (Hr & Hd & _ & _ & _ & _ & Hcu & _)
  end.
  cbv zeta in *. rewrite Hr, Hd, Hcu. subst s1. straight. rewrite Hs.
  repeat split; try assumption.
  apply debit_known; try assumption. apply Z.ltb_ge. lia.
Qed.

(** One question asked offline with no credit left: only a message. *)
Lemma offline_ask_refused
    (a : Ask) (st : State) (u : User.t) (s : UserStats.t) :
  currentUser st = Some u -> userStats st = Some s ->
  UserStats.credits_remaining s < 1 ->
  let st' := run (offlineAsks [a]) st in
  currentUser st' = Some u /\ userStats st' = Some s /\
  reports st' = reports st.
Proof.
  intros Hu Hs Hc. cbv zeta. cbn [offlineAsks flat_map app run step].
  unfold andThen, skip, submit.
  set (s1 := setQuestion (ask_text a) st).
  assert (Hg : guardsPass s1 = false).
  { unfold guardsPass. subst s1. straight. rewrite Hu, Hs.
    assert (E : (UserStats.credits_remaining s <? 1)%Z = true)
      by (apply Z.ltb_lt; lia).
    rewrite E. now rewrite andb_false_r. }
  destruct (submit_refused s1 s1 (ask_now a) (ask_q a) (ask_r a)
              (Thrown unreachable) alwaysUnreachable (Thrown unreachable)
              (Thrown unreachable) Hg) as (message & Hm).
  rewrite Hm. subst s1. straight. repeat split; assumption.
Qed.

Lemma run_app (l1 l2 : list Event) (st : State) :
  run (l1 ++ l2) st = run l2 (run l1 st).
Proof.
  revert st. induction l1 as [|e l1 IH]; intros st; [reflexivity |].
  cbn [app run]. unfold andThen. apply IH.
Qed.

(** X7: questions asked one after the other while the backend cannot be
    reached are served for as long as there are credits: of [n] questions
    (none blank) asked with [c] credits left, [min n c] get a report and
    are debited one credit each, the others add no report and cost
    nothing; each counter goes up by [min n c].  The numbers are doubles:
    this is for credits below [2 ^ 53] and counters that stay within
    [2 ^ 53] when [min n c] is added to them. *)
Theorem offline_asks_spend_credits
    (asks : list Ask) (st : State) (u : User.t) (s : UserStats.t) :
  let served := Z.min (Z.of_nat (List.length asks)) (UserStats.credits_remaining s) in
  currentUser st = Some u ->
  userStats st = Some s ->
  0 <= UserStats.credits_remaining s < 2 ^ 53 ->
  room (UserStats.total_questions_asked s) served ->
  room (UserStats.reports_generated s) served ->
  room (UserStats.credits_used s) served ->
  Forall (fun a => blank (ask_text a) = false) asks ->
  let st' := run (offlineAsks asks) st in
  userStats st' =
    Some (UserStats.mk (UserStats.credits_remaining s - served)
            (UserStats.total_questions_asked s + served)
            (UserStats.reports_generated s + served)
            (UserStats.credits_used s + served)) /\
  Z.of_nat (List.length (reports st')) =
    Z.of_nat (List.length (reports st)) + served.
Proof.
  cbv zeta. revert st s.
  induction asks as [|a asks IH]; intros st s Hu Hs Hc R1 R2 R3 Hb.
  - cbn [offlineAsks flat_map run List.length]. unfold skip.
    replace (Z.min (Z.of_nat 0) (UserStats.credits_remaining s)) with 0 by lia.
    rewrite Hs, !Z.add_0_r, Z.sub_0_r. destruct s. split; reflexivity.
  - inversion Hb as [|a' asks' Ha Hrest]; subst.
    change (offlineAsks (a :: asks)) with (offlineAsks [a] ++ offlineAsks asks)%list.
    rewrite run_app. unfold room, safe in *.
    change (2 ^ 53) with 9007199254740992 in *.
    destruct (Z_lt_le_dec (UserStats.credits_remaining s) 1) as [Hlow|Hok].
    + destruct (offline_ask_refused a st u s Hu Hs Hlow) as (Hu1 & Hs1 & Hr1).
      cbv zeta in *.
      assert (E0 : UserStats.credits_remaining s = 0) by lia.
      assert (E1 : Z.min (Z.of_nat (List.length (a :: asks)))
                     (UserStats.credits_remaining s) = 0)
        by (rewrite E0; cbn [List.length]; lia).
      assert (E2 : Z.min (Z.of_nat (List.length asks))
                     (UserStats.credits_remaining s) = 0)
        by (rewrite E0; lia).
      rewrite E1 in *.
      destruct (IH _ s Hu1 Hs1 Hc) as (Hs2 & Hr2);
        [rewrite E2; exact R1 | rewrite E2; exact R2 | rewrite E2; exact R3
        | exact Hrest |].
      rewrite Hs2, Hr2, Hr1, E2. split; reflexivity.
    + assert (E : Z.min (Z.of_nat (List.length (a :: asks)))
                    (UserStats.credits_remaining s)
                  = 1 + Z.min (Z.of_nat (List.length asks))
                          (UserStats.credits_remaining s - 1))
        by (cbn [List.length]; lia).
      rewrite E in *.
      assert (Hpos : 0 <= Z.min (Z.of_nat (List.length asks))
                           (UserStats.credits_remaining s - 1)) by lia.
      destruct (offline_ask_served a st u s Hu Hs Ha Hok) as (Hu1 & Hs1 & Hr1);
        [unfold safe; change (2 ^ 53) with 9007199254740992; lia .. |].
      cbv zeta in *.
      match type of Hs1 with _ = Some ?s1 =>
        destruct (IH _ s1 Hu1 Hs1) as (Hs2 & Hr2);
          [cbn; lia | cbn; lia | cbn; lia | cbn; lia | exact Hrest |]
      end.
      rewrite Hs2, Hr2, Hr1.
      cbn [UserStats.credits_remaining UserStats.total_questions_asked
           UserStats.reports_generated UserStats.credits_used List.length].
      split; [do 2 f_equal; lia | lia].
Qed.

(** Three questions with two credits left: two reports, no credit left,
    the third question refused. *)
Lemma offline_asks_spend_credits_witness :
  Forall (fun a => blank (ask_text a) = false) threeAsks /\
  userStats (run (offlineAsks threeAsks)
               (ready remoteUser (Some (UserStats.mk 2 98 98 98)) EmptyString [] []))
  = Some (UserStats.mk 0 100 100 100) /\
  List.length
    (reports (run (offlineAsks threeAsks)
                (ready remoteUser (Some (UserStats.mk 2 98 98 98)) EmptyString [] [])))
  = 2%nat.
Proof.
  assert (Hb : Forall (fun a => blank (ask_text a) = false) threeAsks)
    by (repeat constructor).
  split; [exact Hb |].
  destruct (offline_asks_spend_credits threeAsks
              (ready remoteUser (Some (UserStats.mk 2 98 98 98)) EmptyString [] [])
              remoteUser (UserStats.mk 2 98 98 98) eq_refl eq_refl
              ltac:(split; [discriminate | reflexivity])
              ltac:(split; [reflexivity | discriminate])
              ltac:(split; [reflexivity | discriminate])
              ltac:(split; [reflexivity | discriminate]) Hb) as (Hs & Hr).
  split; [exact Hs |].
  cbv zeta in Hr. apply Nat2Z.inj. exact Hr.
Defined.

(** ** Identity, whatever the backend does *)

(** X8: from a fresh load (no identity, sign-in screen off) the identity
    check ends in one of two ways, whatever is stored and whatever the two
    calls give: an identity is active and the sign-in screen stays off, or
    none is and the sign-in screen is on. *)
Theorem checkAuthStatus_ready_or_sign_in
    (st : State) (t_email t_id : N) (iso : string)
    (verify create : Outcome User.t) :
  currentUser st = None ->
  showAuth st = false ->
  let st' := checkAuthStatus t_email t_id iso verify create st in
  (exists u, currentUser st' = Some u /\ showAuth st' = false) \/
  (currentUser st' = None /\ showAuth st' = true).
Proof.
  intros Hu Ha. cbv zeta. unfold checkAuthStatus, createUser.
  destruct (localStorage st) as [[cached|]|].
  - destruct verify as [data|error].
    + left. exists data. straight. now split.
    + destruct (isNetworkError error).
      * left. exists cached. straight. now split.
      * destruct create as [data|error'].
        -- left. exists data. straight. now split.
        -- destruct (isNetworkError error').
           ++ left. eexists. straight. now split.
           ++ right. straight. now split.
  - right. straight. now split.
  - destruct create as [data|error'].
    + left. exists data. straight. now split.
    + destruct (isNetworkError error').
      * left. eexists. straight. now split.
      * right. straight. now split.
Qed.

(** A stored identity that the backend no longer knows, and a creation
    that it refuses. *)
Lemma checkAuthStatus_ready_or_sign_in_witness :
  currentUser (initial (Some (Json cachedUser))) = None /\
  showAuth (initial (Some (Json cachedUser))) = false /\
  ((exists u,
      currentUser (checkAuthStatus 5 6 "now" (Thrown (rejected 404))
                     (Thrown (rejected 500)) (initial (Some (Json cachedUser))))
      = Some u /\
      showAuth (checkAuthStatus 5 6 "now" (Thrown (rejected 404))
                  (Thrown (rejected 500)) (initial (Some (Json cachedUser))))
      = false) \/
   (currentUser (checkAuthStatus 5 6 "now" (Thrown (rejected 404))
                   (Thrown (rejected 500)) (initial (Some (Json cachedUser))))
    = None /\
    showAuth (checkAuthStatus 5 6 "now" (Thrown (rejected 404))
                (Thrown (rejected 500)) (initial (Some (Json cachedUser))))
    = true)).
Proof.
  split; [reflexivity | split; [reflexivity |]].
  exact (checkAuthStatus_ready_or_sign_in (initial (Some (Json cachedUser)))
           5 6 "now" (Thrown (rejected 404)) (Thrown (rejected 500))
           eq_refl eq_refl).
Defined.

(** X9: after the identity check the storage holds the active identity,
    unless a verification succeeded with a record other than the cached
    one; and when no identity is active the storage holds none (it is
    empty, or still holds what could not be parsed). *)
Theorem checkAuthStatus_storage_coherent
    (st : State) (t_email t_id : N) (iso : string)
    (verify create : Outcome User.t) :
  currentUser st = None ->
  (forall cached data,
     localStorage st = Some (Json cached) -> verify = Resolved data ->
     data = cached) ->
  let st' := checkAuthStatus t_email t_id iso verify create st in
  match currentUser st' with
  | Some u => localStorage st' = Some (Json u)
  | None => localStorage st' = None \/ localStorage st' = Some Unparsable
  end.
Proof.
  intros Hu Hsame. cbv zeta. unfold checkAuthStatus, createUser.
  destruct (localStorage st) as [[cached|]|] eqn:Hst.
  - destruct verify as [data|error].
    + straight. rewrite Hst. now rewrite (Hsame cached data eq_refl eq_refl).
    + destruct (isNetworkError error).
      * straight. exact Hst.
      * destruct create as [data|error'].
        -- straight. reflexivity.
        -- destruct (isNetworkError error'); straight;
             [reflexivity | rewrite Hu; now left].
  - straight. rewrite Hu, Hst. now right.
  - destruct create as [data|error'].
    + straight. reflexivity.
    + destruct (isNetworkError error'); straight;
        [reflexivity | rewrite Hu, Hst; now left].
Qed.

(** A stored identity that the backend no longer knows, replaced by a new
    one. *)
Lemma checkAuthStatus_storage_coherent_witness :
  currentUser (initial (Some (Json cachedUser))) = None /\
  (forall cached data,
     localStorage (initial (Some (Json cachedUser))) = Some (Json cached) ->
     Thrown (A := User.t) (rejected 404) = Resolved data -> data = cached) /\
  localStorage (checkAuthStatus 5 6 "now" (Thrown (rejected 404))
                  (Resolved refreshedUser) (initial (Some (Json cachedUser))))
  = Some (Json refreshedUser).
Proof.
  assert (H : forall cached data,
     localStorage (initial (Some (Json cachedUser))) = Some (Json cached) ->
     Thrown (A := User.t) (rejected 404) = Resolved data -> data = cached)
    by (intros cached data _ E; discriminate E).
  split; [reflexivity | split; [exact H |]].
  exact (checkAuthStatus_storage_coherent (initial (Some (Json cachedUser)))
           5 6 "now" (Thrown (rejected 404)) (Resolved refreshedUser)
           eq_refl H).
Defined.

Lemma requests_app (l1 l2 : list Effect) :
  requests (l1 ++ l2) = (requests l1 ++ requests l2)%list.
Proof. unfold requests. apply filter_app. Qed.

Lemma mount_offline_spec
    (st : State) (t_email t_id : N) (iso : string)
    (verify : Outcome User.t) (err : Err)
    (stats : Outcome UserStats.t) (history : Outcome (list ReportItem.t)) :
  localStorage st = None ->
  Unreachable err ->
  let st' := mount t_email t_id iso verify (Thrown err) stats history st in
  let localUser :=
    User.mk ("local-" ++ String_of_N t_id) "Research User"
      ("user_" ++ String_of_N t_email ++ "@example.com") (Some 100) iso in
  currentUser st' = Some localUser /\
  localStorage st' = Some (Json localUser) /\
  userStats st' = Some (UserStats.mk 100 0 0 0) /\
  reports st' = [] /\ uploadedFiles st' = [] /\ question st' = EmptyString /\
  showAuth st' = false /\
  effects st' =
    (effects st ++
     [Request POST "users";
      Console c_warn "Backend unreachable, created local fallback user";
      SetItem localUser;
      Toast t_success "Running in offline mode: local user created"])%list.
Proof.
  intros Hs Hu. cbv zeta. unfold mount, andThen.
  assert (E : checkAuthStatus t_email t_id iso verify (Thrown err) (reload st)
              = createUser t_email t_id iso (Thrown err) (reload st)).
  { unfold checkAuthStatus. unfold reload at 1. cbn [localStorage]. now rewrite Hs. }
  rewrite E.
  destruct (createUser_unreachable (reload st) t_email t_id iso err Hu)
    as (Hc & Hl & He).
  cbv zeta in *. unfold onCurrentUserChange. rewrite Hc. unfold andThen.
  set (s1 := createUser _ _ _ _ _) in *.
  assert (Hloc : isLocalUser
            (User.mk ("local-" ++ String_of_N t_id) "Research User"
               ("user_" ++ String_of_N t_email ++ "@example.com") (Some 100) iso)
          = true) by apply (startsWith_append "local-").
  unfold fetchUserStats, fetchUserReports. rewrite Hloc. straight.
  rewrite Hc, Hl, He. repeat split.
  all: subst s1; unfold createUser; rewrite Hu; reflexivity.
Qed.

(** X10: on a first visit with no backend the identity made up locally
    is never looked up: two requests are made in all, the creation of the
    identity and the news, whatever the backend would answer to the stats
    and the history by then and whatever becomes of the news.  The session
    starts with the 100 credits of that identity, no report, nothing
    pending, and the one message that announces the offline mode. *)
Theorem first_visit_offline_no_lookup
    (c : Component) (t_email t_id : N) (iso : string)
    (verify : Outcome User.t) (err : Err)
    (stats : Outcome UserStats.t) (history : Outcome (list ReportItem.t))
    (iso1 iso2 : string) (news : Outcome (list NewsItem.t)) :
  localStorage (fst c) = None ->
  Unreachable err ->
  let c' := initialize t_email t_id iso verify (Thrown err) stats history
              iso1 iso2 news c in
  let localUser :=
    User.mk ("local-" ++ String_of_N t_id) "Research User"
      ("user_" ++ String_of_N t_email ++ "@example.com") (Some 100) iso in
  currentUser (fst c') = Some localUser /\
  localStorage (fst c') = Some (Json localUser) /\
  userStats (fst c') = Some (UserStats.mk 100 0 0 0) /\
  reports (fst c') = [] /\ uploadedFiles (fst c') = [] /\
  question (fst c') = EmptyString /\
  showAuth (fst c') = false /\
  requests (effects (fst c')) =
    (requests (effects (fst c)) ++ [Request POST "users"; Request GET "news"])%list /\
  toasts (effects (fst c')) =
    (toasts (effects (fst c)) ++
     [Toast t_success "Running in offline mode: local user created"])%list.
Proof.
  intros Hs Hu. cbv zeta.
  unfold initialize, next, onState, setIsInitializing. cbn [fst snd].
  rewrite fetchLatestNews_fst. cbn [fst].
  destruct (mount_offline_spec (fst c) t_email t_id iso verify err stats history Hs Hu)
    as (Hc & Hl & Hk & Hr & Hf & Hq & Ha & He).
  cbv zeta in *. straight. rewrite Hc, Hl, Hk, Hr, Hf, Hq, Ha, He.
  do 7 (split; [reflexivity |]).
  rewrite !requests_app, !toasts_app, <- !app_assoc. cbn.
  now rewrite ?app_nil_r.
Qed.

(** On a first visit, with a backend that would answer the stats, the
    history and the news. *)
Lemma first_visit_offline_no_lookup_witness :
  localStorage (fst (initial None, initialShell)) = None /\
  Unreachable unreachable /\
  requests
    (effects
       (fst (initialize 5 6 "now" (Resolved remoteUser) (Thrown unreachable)
               (Resolved stats50) (Resolved [localItem]) "t1" "t2" (Resolved [])
               (initial None, initialShell))))
  = [Request POST "users"; Request GET "news"].
Proof.
  split; [reflexivity | split; [reflexivity |]].
  destruct (first_visit_offline_no_lookup (initial None, initialShell) 5 6 "now"
              (Resolved remoteUser) unreachable (Resolved stats50)
              (Resolved [localItem]) "t1" "t2" (Resolved []) eq_refl eq_refl)
    as (_ & _ & _ & _ & _ & _ & _ & Hreq & _).
  exact Hreq.
Defined.

(** X11: a logout forgets the identity, the stats, the collection, the
    pending files and the stored record, and turns the sign-in screen on;
    it leaves the question text, the view and the processing flag as they
    were.  After it a question that is not blank is refused for want of an
    identity, and the next identity check asks the backend for a new
    identity at once: no stored identity is verified. *)
Theorem handleLogout_forgets (st : State) :
  let st' := handleLogout st in
  currentUser st' = None /\ userStats st' = None /\ reports st' = [] /\
  uploadedFiles st' = [] /\ localStorage st' = None /\ showAuth st' = true /\
  question st' = question st /\ activeTab st' = activeTab st /\
  isProcessing st' = isProcessing st /\
  (forall now t_q t_r res answers stats history,
     blank (question st) = false ->
     submit now t_q t_r res answers stats history st'
     = toast_error "Please log in to submit questions" st') /\
  (forall t_email t_id iso verify create,
     checkAuthStatus t_email t_id iso verify create st'
     = createUser t_email t_id iso create st').
Proof.
  cbv zeta. unfold handleLogout. straight. repeat split.
  intros now t_q t_r res answers stats history Hb. unfold submit.
  match goal with
  | |- submitResearchQuestion ?r _ _ _ _ _ _ _ ?s = _ =>
      exact (proj1 (proj2 (submit_refusals_aux r s now t_q t_r res answers
                              stats history)) Hb eq_refl)
  end.
Qed.

(** A logout in the middle of typing a question. *)
Lemma handleLogout_forgets_witness :
  blank (question (ready remoteUser (Some stats50) "why?" [file_a] [localItem])) = false /\
  effects (submit "now" 1 2 (Thrown unreachable) alwaysUnreachable
             (Thrown unreachable) (Thrown unreachable)
             (handleLogout (ready remoteUser (Some stats50) "why?" [file_a] [localItem])))
  = [RemoveItem; Toast t_success "Logged out successfully";
     Toast t_error "Please log in to submit questions"].
Proof.
  split; [reflexivity |].
  destruct (handleLogout_forgets
              (ready remoteUser (Some stats50) "why?" [file_a] [localItem]))
    as (_ & _ & _ & _ & _ & _ & _ & _ & _ & Hsub & _).
  cbv zeta in Hsub.
  rewrite (Hsub "now" 1%N 2%N (Thrown unreachable) alwaysUnreachable
             (Thrown unreachable) (Thrown unreachable) eq_refl).
  reflexivity.
Defined.

(** ** Pending files *)

(** One upload: what it adds to the pending files and to the log. *)
Lemma uploadOne_spec (f : Selected) (st : State) :
  let st' := uploadOne f st in
  uploadedFiles st' = (uploadedFiles st ++ kept f)%list /\
  currentUser st' = currentUser st /\ question st' = question st /\
  reports st' = reports st /\ userStats st' = userStats st /\
  localStorage st' = localStorage st /\
  exists added,
    effects st' = (effects st ++ added)%list /\
    requests added = [Request POST "upload"] /\
    toasts added = [uploadMessage f].
Proof.
  cbv zeta. unfold uploadOne, kept, uploadMessage.
  destruct (sel_upload f) as [data|error].
  - straight. repeat split. eexists. rewrite <- app_assoc.
    split; [reflexivity |]. split; reflexivity.
  - destruct (isNetworkError error); straight; repeat split.
    + eexists. rewrite <- app_assoc. split; [reflexivity |]. split; reflexivity.
    + now rewrite app_nil_r.
    + eexists. rewrite <- !app_assoc. split; [reflexivity |]. split; reflexivity.
Qed.

(** The uploads of a selection, one after the other. *)
Lemma handleFileUpload_spec (files : list Selected) (st : State) :
  let st' := handleFileUpload files st in
  uploadedFiles st' = (uploadedFiles st ++ flat_map kept files)%list /\
  currentUser st' = currentUser st /\ question st' = question st /\
  reports st' = reports st /\ userStats st' = userStats st /\
  localStorage st' = localStorage st /\
  exists added,
    effects st' = (effects st ++ added)%list /\
    requests added = map (fun _ => Request POST "upload") files /\
    toasts added = map uploadMessage files.
Proof.
  cbv zeta. revert st. induction files as [|f files IH]; intros st.
  - cbn. rewrite app_nil_r. repeat split. exists []. now rewrite app_nil_r.
  - change (handleFileUpload (f :: files) st)
      with (handleFileUpload files (uploadOne f st)).
    destruct (IH (uploadOne f st))
      as (Hf & Hu & Hq & Hr & Hs & Hl & added & He & Hreq & Ht).
    destruct (uploadOne_spec f st)
      as (Hf1 & Hu1 & Hq1 & Hr1 & Hs1 & Hl1 & added1 & He1 & Hreq1 & Ht1).
    cbv zeta in *.
    rewrite Hf, Hu, Hq, Hr, Hs, Hl, Hf1, Hu1, Hq1, Hr1, Hs1, Hl1.
    cbn [flat_map map]. rewrite <- app_assoc. repeat split.
    exists (added1 ++ added)%list. rewrite He, He1, <- app_assoc.
    split; [reflexivity |].
    now rewrite requests_app, toasts_app, Hreq, Hreq1, Ht, Ht1.
Qed.

(** X12: the files selected together are uploaded each on its own, in
    their order: a refused file is left out and named in an error message,
    and does not keep the files after it from being added.  The pending
    files grow by what each file adds; one upload request is made and one
    message is shown per file; nothing else of the session changes. *)
Theorem handleFileUpload_each_on_its_own (files : list Selected) (st : State) :
  let st' := handleFileUpload files st in
  uploadedFiles st' = (uploadedFiles st ++ flat_map kept files)%list /\
  currentUser st' = currentUser st /\ question st' = question st /\
  reports st' = reports st /\ userStats st' = userStats st /\
  localStorage st' = localStorage st /\
  exists added,
    effects st' = (effects st ++ added)%list /\
    requests added = map (fun _ => Request POST "upload") files /\
    toasts added = map uploadMessage files.
Proof. exact (handleFileUpload_spec files st). Qed.

(** X13: when the backend cannot be reached, no selected file is lost:
    every one of them is added to the pending files, in order, under its
    own name and size and under an id that starts with [local-file-], and
    every message shown is a success. *)
Theorem handleFileUpload_offline_keeps_all (files : list Selected) (st : State) :
  Forall (fun f => exists err, sel_upload f = Thrown err /\ Unreachable err) files ->
  let st' := handleFileUpload files st in
  exists added log,
    uploadedFiles st' = (uploadedFiles st ++ added)%list /\
    map UploadedFile.name added = map sel_name files /\
    map UploadedFile.size added = map sel_size files /\
    Forall (fun file => startsWith (UploadedFile.id file) "local-file-" = true) added /\
    effects st' = (effects st ++ log)%list /\
    toasts log =
      map (fun f => Toast t_success ("Added " ++ dq ++ sel_name f ++ dq ++ " (local only)"))
        files.
Proof.
  intros Hall. cbv zeta.
  destruct (handleFileUpload_spec files st)
    as (Hf & _ & _ & _ & _ & _ & log & He & _ & Ht).
  assert (Hlists :
    map UploadedFile.name (flat_map kept files) = map sel_name files /\
    map UploadedFile.size (flat_map kept files) = map sel_size files /\
    Forall (fun file => startsWith (UploadedFile.id file) "local-file-" = true)
      (flat_map kept files) /\
    map uploadMessage files =
      map (fun f => Toast t_success ("Added " ++ dq ++ sel_name f ++ dq ++ " (local only)"))
        files).
  { clear Hf He Ht. induction Hall as [|f files Hf _ IH].
    - repeat split. constructor.
    - destruct Hf as (err & Hup & Hun).
      destruct IH as (Hn & Hs & Hi & Hm).
      cbn [flat_map map]. unfold kept at 1 3 5. unfold uploadMessage at 1.
      rewrite Hup, Hun.
      cbn [app map UploadedFile.name UploadedFile.size]. rewrite Hn, Hs, Hm.
      repeat split. constructor; [| exact Hi].
      apply (startsWith_append "local-file-"). }
  destruct Hlists as (Hn & Hs & Hi & Hm).
  exists (flat_map kept files), log. cbv zeta in *.
  rewrite Ht, Hm. repeat split; assumption.
Qed.

(** Three files selected with no backend. *)
Lemma handleFileUpload_offline_keeps_all_witness :
  Forall (fun f => exists err, sel_upload f = Thrown err /\ Unreachable err)
    (map (fun f => {| sel_name := sel_name f; sel_size := sel_size f;
                      sel_upload := Thrown unreachable;
                      sel_suffix := sel_suffix f |}) threeFiles) /\
  map UploadedFile.name
    (uploadedFiles
       (handleFileUpload
          (map (fun f => {| sel_name := sel_name f; sel_size := sel_size f;
                            sel_upload := Thrown unreachable;
                            sel_suffix := sel_suffix f |}) threeFiles)
          (initial None)))
  = ["a.txt"; "b.exe"; "c.pdf"].
Proof.
  assert (H : Forall (fun f => exists err, sel_upload f = Thrown err /\ Unreachable err)
    (map (fun f => {| sel_name := sel_name f; sel_size := sel_size f;
                      sel_upload := Thrown unreachable;
                      sel_suffix := sel_suffix f |}) threeFiles)).
  { repeat constructor; exists unreachable; split; reflexivity. }
  split; [exact H |].
  destruct (handleFileUpload_offline_keeps_all _ (initial None) H)
    as (added & log & Hf & Hn & _).
  cbv zeta in Hf. rewrite Hf. cbn [initial uploadedFiles app]. exact Hn.
Defined.

(** X14: removing a pending file by its id removes every pending file of
    that id and no other, asks the backend nothing and changes nothing
    else; removing an id that no pending file has changes nothing,
    removing twice is removing once, and removing a file just added under
    an id that no pending file had gives back the pending files of
    before. *)
Theorem removeFile_spec (fileId : string) (st : State) :
  let st' := removeFile fileId st in
  (forall f, In f (uploadedFiles st') <->
             In f (uploadedFiles st) /\ UploadedFile.id f <> fileId) /\
  effects st' = effects st /\ currentUser st' = currentUser st /\
  question st' = question st /\ reports st' = reports st /\
  userStats st' = userStats st /\ localStorage st' = localStorage st /\
  ((forall f, In f (uploadedFiles st) -> UploadedFile.id f <> fileId) ->
     uploadedFiles st' = uploadedFiles st) /\
  uploadedFiles (removeFile fileId st') = uploadedFiles st' /\
  (forall f new,
     kept f = [new] -> UploadedFile.id new = fileId ->
     (forall g, In g (uploadedFiles st) -> UploadedFile.id g <> fileId) ->
     uploadedFiles (removeFile fileId (uploadOne f st)) = uploadedFiles st).
Proof.
  cbv zeta. unfold removeFile. straight.
  assert (Hkeep : forall l : list UploadedFile.t,
            (forall f, In f l -> UploadedFile.id f <> fileId) ->
            filter (fun file => negb (UploadedFile.id file =? fileId)) l = l).
  { induction l as [|g l IH]; intros H; [reflexivity |]. cbn.
    assert (Hg : (UploadedFile.id g =? fileId) = false)
      by (apply String.eqb_neq, H; now left).
    rewrite Hg. cbn. f_equal. apply IH. intros f Hf. apply H. now right. }
  split.
  { intros f. rewrite filter_In, negb_true_iff, String.eqb_neq. tauto. }
  do 6 (split; [reflexivity |]).
  split; [exact (Hkeep _) |]. split.
  - apply Hkeep. intros f Hin. apply filter_In in Hin. destruct Hin as [_ Hn].
    now apply negb_true_iff, String.eqb_neq in Hn.
  - intros f new Hk Hid Hfresh.
    destruct (uploadOne_spec f st) as (Hf & _). cbv zeta in Hf.
    rewrite Hf, Hk, filter_app, (Hkeep _ Hfresh). cbn.
    rewrite Hid, String.eqb_refl. cbn. apply app_nil_r.
Qed.

(** A file added with no backend and removed again. *)
Lemma removeFile_spec_witness :
  uploadedFiles
    (removeFile "local-file-12-cccccc"
       (uploadOne {| sel_name := "c.pdf"; sel_size := 7;
                     sel_upload := Thrown unreachable; sel_suffix := "12-cccccc" |}
          (ready remoteUser (Some stats50) EmptyString [file_a] [])))
  = [file_a].
Proof.
  refine (proj2 (proj2 (proj2 (proj2 (proj2 (proj2 (proj2 (proj2 (proj2
            (removeFile_spec "local-file-12-cccccc"
               (ready remoteUser (Some stats50) EmptyString [file_a] []))))))))))
            {| sel_name := "c.pdf"; sel_size := 7;
               sel_upload := Thrown unreachable; sel_suffix := "12-cccccc" |}
            (UploadedFile.mk "local-file-12-cccccc" "c.pdf" 7)
            eq_refl eq_refl _).
  intros g [Hg | []]. subst g. discriminate.
Defined.

(** ** The session at rest *)

(** X15: a session that is not processing is not processing after any
    sequence of events of the core: no submission, whatever its outcome,
    leaves the session processing. *)
Theorem run_never_left_processing (events : list Event) (st : State) :
  isProcessing st = false ->
  isProcessing (run events st) = false.
Proof.
  revert st. induction events as [|e events IH]; intros st Hp; [exact Hp |].
  cbn [run]. unfold andThen. apply IH.
  destruct e; cbn [step].
  - unfold mount, andThen, onCurrentUserChange.
    set (s1 := checkAuthStatus _ _ _ _ _ _).
    assert (H1 : isProcessing s1 = false).
    { subst s1. unfold checkAuthStatus, createUser, reload. cbn [localStorage].
      destruct (localStorage st) as [[cached|]|].
      - destruct verify as [data|error]; [reflexivity |].
        destruct (isNetworkError error); [reflexivity |].
        destruct create as [data|error']; [reflexivity |].
        destruct (isNetworkError error'); reflexivity.
      - reflexivity.
      - destruct create as [data|error']; [reflexivity |].
        destruct (isNetworkError error'); reflexivity. }
    destruct (currentUser s1) as [u|]; [| exact H1]. unfold andThen.
    destruct (fetchUserReports_frame (fetchUserStats (Some u) stats s1)
                (Some u) history) as (_ & _ & _ & Hp2 & _).
    destruct (fetchUserStats_frame s1 (Some u) stats)
      as (_ & _ & _ & Hp1 & _).
    cbv zeta in *. congruence.
  - exact Hp.
  - revert st Hp. induction files as [|f files IHf]; intros st Hp; [exact Hp |].
    change (handleFileUpload (f :: files) st)
      with (handleFileUpload files (uploadOne f st)).
    apply IHf. unfold uploadOne. destruct (sel_upload f) as [data|error];
      [exact Hp |]. destruct (isNetworkError error); exact Hp.
  - exact Hp.
  - exact Hp.
  - unfold submit.
    destruct (submit_settles st st now t_q t_r res answers stats history)
      as (_ & _ & _ & H).
    cbv zeta in H. rewrite H, Hp. now destruct (guardsPass st).
  - exact Hp.
Qed.

(** A submission that times out, then a logout. *)
Lemma run_never_left_processing_witness :
  isProcessing (initial None) = false /\
  isProcessing
    (run (offlineSession ++
          [Submit "now" 1 2 (Resolved {| question_id := "q-9" |})
             (processingUntil 40 completed) (Thrown unreachable)
             (Thrown unreachable);
           Logout]) (initial None)) = false.
Proof.
  split; [reflexivity |].
  exact (run_never_left_processing _ (initial None) eq_refl).
Defined.

(** ** Signing in *)

(** X16: a sign-in or sign-up that does not go through changes neither
    the identity, nor the storage, nor the sign-in screen, nor the form,
    and shows one error.  With a field missing no request is made at all
    (in login mode the name is not asked for).  With the form complete the
    request is made and the error is: the network message, naming the API
    root, when the backend cannot be reached; the detail of the answer,
    word for word, when the backend sent one; else [Signup failed] or
    [Login failed] by the mode. *)
Theorem handleAuthSubmit_failures
    (API : string) (render : Shell) (res : Outcome AuthResponse) (c : Component) :
  let c' := handleAuthSubmit API render res c in
  let signup := authMode render =? "signup" in
  (formComplete render = false ->
     c' = onState (toast_error (if signup then "Please fill in all fields"
                                else "Please enter email and password")) c) /\
  (formComplete render = true -> forall err, res = Thrown err ->
     snd c' = snd c /\
     currentUser (fst c') = currentUser (fst c) /\
     localStorage (fst c') = localStorage (fst c) /\
     showAuth (fst c') = showAuth (fst c) /\
     exists message,
       effects (fst c') =
         (effects (fst c) ++
          [Request POST (if signup then "auth/signup" else "auth/login");
           Console c_error "Auth failed:";
           Toast t_error message])%list /\
       (Unreachable err ->
          message = "Network error: could not reach backend at " ++ API ++
                    ". Check REACT_APP_BACKEND_URL, CORS_ORIGINS, and that the backend is running.") /\
       (forall r d, response err = Some r -> detail r = Some d ->
          d <> EmptyString -> message = d) /\
       (~ Unreachable err ->
        (forall r d, response err = Some r -> detail r = Some d -> d = EmptyString) ->
          message = if signup then "Signup failed" else "Login failed")).
Proof.
  cbv zeta. split.
  - intros H. now rewrite handleAuthSubmit_incomplete.
  - intros H err ->. rewrite handleAuthSubmit_complete by assumption.
    unfold authRequest, next, onState. cbn [fst snd].
    destruct (isNetworkError err) eqn:Hn.
    + cbn [fst snd]. straight. rewrite <- !app_assoc.
      repeat split. eexists. split; [reflexivity |]. repeat split.
      * intros r d Hr. exfalso.
        assert (Hj : Rejected err) by (now exists r).
        apply Rejected_not_network in Hj. congruence.
      * intros Hu. exfalso. apply Hu. exact Hn.
    + assert (Hnot : ~ Unreachable err).
      { unfold Unreachable. now rewrite Hn. }
      destruct (response err) as [r|] eqn:Hr; cbn [option_map].
      * destruct (detail r) as [d|] eqn:Hd.
        -- destruct (truthy d) eqn:Ht; cbn [fst snd]; straight;
             rewrite <- !app_assoc; repeat split; eexists;
             (split; [reflexivity |]); repeat split.
           ++ intros Hu. now elim Hnot.
           ++ intros r' d' E1 E2 _. congruence.
           ++ intros _ Hempty. rewrite (Hempty r d eq_refl Hd) in Ht.
              discriminate.
           ++ intros Hu. now elim Hnot.
           ++ intros r' d' E1 E2 Hne. apply truthy_false_iff in Ht.
              congruence.
        -- cbn [fst snd]. straight. rewrite <- !app_assoc. repeat split.
           eexists. split; [reflexivity |]. repeat split.
           ++ intros Hu. now elim Hnot.
           ++ intros r' d' E1 E2 _. congruence.
      * cbn [fst snd]. straight. rewrite <- !app_assoc. repeat split.
        eexists. split; [reflexivity |]. repeat split.
        -- intros Hu. now elim Hnot.
        -- intros r' d' E1. discriminate.
Qed.

Lemma onCurrentUserChange_frame
    (st : State) (stats : Outcome UserStats.t) (history : Outcome (list ReportItem.t)) :
  let st' := onCurrentUserChange stats history st in
  currentUser st' = currentUser st /\ showAuth st' = showAuth st /\
  localStorage st' = localStorage st /\
  toasts (effects st') = toasts (effects st).
Proof.
  cbv zeta. unfold onCurrentUserChange.
  destruct (currentUser st) as [u|] eqn:Hu; [| now rewrite ?Hu].
  unfold andThen.
  destruct (fetchUserReports_frame (fetchUserStats (Some u) stats st) (Some u) history)
    as (Hc2 & _ & _ & _ & _ & _ & Ha2 & Hl2).
  destruct (fetchUserStats_frame st (Some u) stats)
    as (Hc1 & _ & _ & _ & _ & _ & Ha1 & Hl1).
  destruct (fetchUserReports_quiet (fetchUserStats (Some u) stats st) (Some u) history)
    as (t2 & He2 & Ht2 & _).
  destruct (fetchUserStats_quiet st (Some u) stats) as (t1 & He1 & Ht1 & _).
  cbv zeta in *. rewrite Hc2, Hc1, Ha2, Ha1, Hl2, Hl1, He2, He1, Hu.
  repeat split. now rewrite !toasts_app, Ht1, Ht2, !app_nil_r.
Qed.

(** X17: a sign-in or sign-up with the form complete that the backend
    accepts makes the user of the answer the active identity, stores it,
    leaves the sign-in screen, empties the form and greets once, by the
    mode; the stats and the history are then the ones of a refresh for
    that user (the backend's, the local defaults, or the ones before when
    the refresh is rejected). *)
Theorem signIn_succeeds
    (API : string) (data : AuthResponse)
    (stats : Outcome UserStats.t) (history : Outcome (list ReportItem.t))
    (c : Component) :
  formComplete (snd c) = true ->
  let c' := stepUi (SubmitAuth API (Resolved data) stats history) c in
  let u := user data in
  currentUser (fst c') = Some u /\
  localStorage (fst c') = Some (Json u) /\
  showAuth (fst c') = false /\
  authForm (snd c') = emptyForm /\
  authMode (snd c') = authMode (snd c) /\
  latestNews (snd c') = latestNews (snd c) /\
  isInitializing (snd c') = isInitializing (snd c) /\
  userStats (fst c') =
    (if isLocalUser u then Some (localStats (User.credits u))
     else match stats with
          | Resolved s => Some s
          | Thrown error =>
              if isNetworkError error then Some (localStats (User.credits u))
              else userStats (fst c)
          end) /\
  reports (fst c') =
    (if isLocalUser u then []
     else match history with
          | Resolved rs => rs
          | Thrown error => if isNetworkError error then [] else reports (fst c)
          end) /\
  toasts (effects (fst c')) =
    (toasts (effects (fst c)) ++
     [Toast t_success (if authMode (snd c) =? "signup"
                       then "Account created successfully!"
                       else "Welcome back!")])%list.
Proof.
  intros Hf. cbv zeta. unfold stepUi, next.
  rewrite Hf, (handleAuthSubmit_complete API (snd c) (Resolved data) Hf).
  unfold authRequest, next, onState, setAuthForm. cbn [fst snd].
  cbn [authMode authForm latestNews isInitializing].
  set (s1 := toast_success _ _).
  set (s2 := setShowAuth false _).
  assert (H2 : currentUser s2 = Some (user data) /\
               localStorage s2 = Some (Json (user data)) /\
               showAuth s2 = false /\
               userStats s2 = userStats (fst c) /\
               reports s2 = reports (fst c) /\
               toasts (effects s2) =
                 (toasts (effects (fst c)) ++
                  [Toast t_success (if authMode (snd c) =? "signup"
                                    then "Account created successfully!"
                                    else "Welcome back!")])%list).
  { subst s2 s1. straight. repeat split.
    rewrite !toasts_app. cbn. now rewrite !app_nil_r. }
  destruct H2 as (Hc & Hl & Ha & Hs & Hr & Ht).
  destruct (onCurrentUserChange_frame s2 stats history) as (Fc & Fa & Fl & Ft).
  cbv zeta in *. rewrite Fc, Fa, Fl, Ft, Hc, Hl, Ha, Ht.
  repeat split.
  - unfold onCurrentUserChange. rewrite Hc. unfold andThen.
    destruct (fetchUserReports_frame (fetchUserStats (Some (user data)) stats s2)
                (Some (user data)) history) as (_ & _ & _ & _ & Hk & _).
    cbv zeta in Hk. rewrite Hk, fetchUserStats_userStats, Hs. reflexivity.
  - unfold onCurrentUserChange. rewrite Hc. unfold andThen.
    rewrite fetchUserReports_reports.
    destruct (fetchUserStats_frame s2 (Some (user data)) stats)
      as (_ & _ & _ & _ & Hk & _).
    cbv zeta in Hk. rewrite Hk, Hr. reflexivity.
Qed.

(** Signing up from the sign-in screen, with a backend that answers. *)
Lemma signIn_succeeds_witness :
  formComplete (snd (signInScreen filledShell)) = true /\
  currentUser (fst (stepUi (SubmitAuth "/api" (Resolved {| user := remoteUser |})
                              (Resolved stats50) (Resolved []))
                      (signInScreen filledShell)))
  = Some remoteUser.
Proof.
  split; [reflexivity |].
  exact (proj1 (signIn_succeeds "/api" {| user := remoteUser |}
                  (Resolved stats50) (Resolved []) (signInScreen filledShell)
                  eq_refl)).
Defined.

(** A sign-in with no password makes no request; one that the backend
    refuses with a reason shows that reason. *)
Lemma handleAuthSubmit_failures_witness :
  formComplete noPasswordShell = false /\
  formComplete filledShell = true /\
  effects (fst (handleAuthSubmit "/api" noPasswordShell
                  (Resolved {| user := remoteUser |}) (signInScreen noPasswordShell)))
  = [Toast t_error "Please enter email and password"] /\
  currentUser (fst (handleAuthSubmit "/api" filledShell
                      (Thrown (Build_Err true (Some (Build_HttpResponse 400 (Some "Email already registered")))))
                      (signInScreen filledShell)))
  = None.
Proof.
  split; [reflexivity | split; [reflexivity |]].
  destruct (handleAuthSubmit_failures "/api" noPasswordShell
              (Resolved {| user := remoteUser |}) (signInScreen noPasswordShell))
    as (H1 & _).
  destruct (handleAuthSubmit_failures "/api" filledShell
              (Thrown (Build_Err true (Some (Build_HttpResponse 400 (Some "Email already registered")))))
              (signInScreen filledShell))
    as (_ & H2).
  split.
  - rewrite (H1 eq_refl). reflexivity.
  - destruct (H2 eq_refl _ eq_refl) as (_ & Hc & _). rewrite Hc. reflexivity.
Defined.

(** ** The screen shown *)

Lemma checkAuthStatus_signInRule
    (st : State) (t_email t_id : N) (iso : string)
    (verify create : Outcome User.t) :
  currentUser st = None -> showAuth st = false ->
  signInRule (checkAuthStatus t_email t_id iso verify create st).
Proof.
  intros Hu Ha. unfold signInRule, checkAuthStatus, createUser.
  destruct (localStorage st) as [[cached|]|].
  - destruct verify as [data|error];
      [straight; now rewrite ?Hu, ?Ha |].
    destruct (isNetworkError error); [straight; now rewrite ?Hu, ?Ha |].
    destruct create as [data|error']; [straight; now rewrite ?Hu, ?Ha |].
    destruct (isNetworkError error'); straight; now rewrite ?Hu, ?Ha.
  - straight. now rewrite ?Hu, ?Ha.
  - destruct create as [data|error']; [straight; now rewrite ?Hu, ?Ha |].
    destruct (isNetworkError error'); straight; now rewrite ?Hu, ?Ha.
Qed.

Lemma signInRule_frame (st st' : State) :
  currentUser st' = currentUser st -> showAuth st' = showAuth st ->
  signInRule st -> signInRule st'.
Proof. unfold signInRule. now intros -> ->. Qed.

Lemma mount_signInRule
    (st : State) (t_email t_id : N) (iso : string)
    (verify create : Outcome User.t)
    (stats : Outcome UserStats.t) (history : Outcome (list ReportItem.t)) :
  signInRule (mount t_email t_id iso verify create stats history st).
Proof.
  unfold mount, andThen.
  set (s1 := checkAuthStatus _ _ _ _ _ _).
  destruct (onCurrentUserChange_frame s1 stats history) as (Hc & Ha & _).
  apply (signInRule_frame s1); [exact Hc | exact Ha |].
  subst s1. now apply checkAuthStatus_signInRule.
Qed.

Lemma handleFileUpload_showAuth (files : list Selected) (st : State) :
  showAuth (handleFileUpload files st) = showAuth st.
Proof.
  revert st. induction files as [|f files IH]; intros st; [reflexivity |].
  change (handleFileUpload (f :: files) st)
    with (handleFileUpload files (uploadOne f st)).
  rewrite IH. unfold uploadOne.
  destruct (sel_upload f) as [data|error]; [now straight |].
  destruct (isNetworkError error); now straight.
Qed.

Lemma step_signInRule (e : Event) (st : State) :
  signInRule st -> signInRule (step e st).
Proof.
  intros H. destruct e; cbn [step].
  - apply mount_signInRule.
  - exact H.
  - apply (signInRule_frame st); [| | exact H].
    + now destruct (handleFileUpload_frame files st) as (Hc & _).
    + apply handleFileUpload_showAuth.
  - exact H.
  - exact H.
  - unfold submit.
    destruct (submit_settles st st now t_q t_r res answers stats history)
      as (Hc & _ & Ha & _).
    now apply (signInRule_frame st).
  - reflexivity.
Qed.

Lemma stepUi_signInRule (e : UiEvent) (c : Component) :
  signInRule (fst c) -> signInRule (fst (stepUi e c)).
Proof.
  intros H. destruct e; cbn [stepUi].
  - unfold onState. cbn [fst]. now apply step_signInRule.
  - unfold initialize, next, onState, setIsInitializing, fetchLatestNews.
    cbn [fst snd].
    assert (Hn : forall st sh, fst (match news with
              | Resolved data => setLatestNews data
              | Thrown error =>
                  if isNetworkError error
                  then setLatestNews
                         [NewsItem.mk "local-1" "Local News: Running in Offline Mode"
                            "The application is currently running without a backend connection. Some features may be limited."
                            "Local" iso1;
                          NewsItem.mk "local-2" "Tip: Connect a Backend"
                            "To enable live data and file uploads, start the backend API or set REACT_APP_BACKEND_URL to a reachable endpoint."
                            "Local" iso2]
                  else fun c0 => c0
              end (st, sh)) = st).
    { intros st sh. destruct news as [d|er]; [reflexivity |].
      now destruct (isNetworkError er). }
    unfold next, onState. cbn [fst snd]. cbv zeta. rewrite Hn.
    apply (signInRule_frame (mount t_email t_id iso verify create stats history (fst c)));
      [now straight | now straight | apply mount_signInRule].
  - exact H.
  - exact H.
  - unfold next. destruct (formComplete (snd c)) eqn:Hf.
    + rewrite (handleAuthSubmit_complete API (snd c) res Hf).
      destruct res as [data|error].
      * unfold authRequest, next, onState, setAuthForm. cbn [fst snd].
        match goal with
        | |- signInRule (onCurrentUserChange stats history ?s) =>
            destruct (onCurrentUserChange_frame s stats history) as (Hc & Ha & _);
            apply (signInRule_frame s); [exact Hc | exact Ha |]
        end.
        unfold signInRule. now straight.
      * unfold authRequest, next, onState. cbn [fst snd].
        apply (signInRule_frame (fst c)); [| | exact H].
        -- destruct (isNetworkError error); [now straight |].
           destruct (option_map detail (response error)) as [[d|]|];
             [destruct (truthy d) | |]; now straight.
        -- destruct (isNetworkError error); [now straight |].
           destruct (option_map detail (response error)) as [[d|]|];
             [destruct (truthy d) | |]; now straight.
    + rewrite (handleAuthSubmit_incomplete API (snd c) res Hf).
      assert (E : signInRule (fst (onState (toast_error
                    (if authMode (snd c) =? "signup"
                     then "Please fill in all fields"
                     else "Please enter email and password")) c))).
      { unfold onState. cbn [fst].
        apply (signInRule_frame (fst c)); [now straight | now straight | exact H]. }
      destruct res; exact E.
Qed.

Lemma stepUi_isInitializing (e : UiEvent) (c : Component) :
  isInitializing (snd c) = false -> isInitializing (snd (stepUi e c)) = false.
Proof.
  intros H. destruct e; cbn [stepUi].
  - exact H.
  - reflexivity.
  - exact H.
  - exact H.
  - unfold next. destruct (formComplete (snd c)) eqn:Hf.
    + rewrite (handleAuthSubmit_complete API (snd c) res Hf).
      destruct res as [data|error].
      * unfold authRequest, next, onState, setAuthForm. cbn [fst snd].
        cbn [isInitializing]. exact H.
      * unfold authRequest, next, onState. cbn [fst snd].
        destruct (isNetworkError error); [exact H |].
        destruct (option_map detail (response error)) as [[d|]|];
          [destruct (truthy d) | |]; exact H.
    + rewrite (handleAuthSubmit_incomplete API (snd c) res Hf).
      destruct res; exact H.
Qed.

Lemma runUi_keeps (events : list UiEvent) (c : Component) :
  isInitializing (snd c) = false -> signInRule (fst c) ->
  isInitializing (snd (runUi events c)) = false /\
  signInRule (fst (runUi events c)).
Proof.
  revert c. induction events as [|e events IH]; intros c Hi Hr.
  - now split.
  - cbn [runUi]. unfold next. apply IH.
    + now apply stepUi_isInitializing.
    + now apply stepUi_signInRule.
Qed.

(** X18: once the first load is over, whatever the user does and whatever
    the backend answers (handlers taken one at a time), the screen shown is
    decided by the identity alone: the sign-in screen when nobody is signed
    in, the application when somebody is; the loading screen does not come
    back. *)
Theorem screen_follows_identity
    (t_email t_id : N) (iso : string) (verify create : Outcome User.t)
    (stats : Outcome UserStats.t) (history : Outcome (list ReportItem.t))
    (iso1 iso2 : string) (news : Outcome (list NewsItem.t))
    (events : list UiEvent) (c : Component) :
  let c' := runUi (Startup t_email t_id iso verify create stats history
                     iso1 iso2 news :: events) c in
  screen c' = match currentUser (fst c') with
              | Some _ => Main
              | None => AuthScreen
              end.
Proof.
  cbv zeta. cbn [runUi]. unfold next.
  set (c1 := stepUi _ c).
  assert (H1 : isInitializing (snd c1) = false /\ signInRule (fst c1)).
  { split.
    - reflexivity.
    - subst c1. cbn [stepUi]. unfold initialize, next, onState, setIsInitializing.
      cbn [fst snd].
      assert (Hn : forall x : Component,
                 fst (fetchLatestNews iso1 iso2 news x) = axios_get "news" (fst x)).
      { intros x. unfold fetchLatestNews, next, onState.
        destruct news as [d|er]; [reflexivity |].
        now destruct (isNetworkError er). }
      rewrite Hn. cbn [fst].
      apply (signInRule_frame (mount t_email t_id iso verify create stats history (fst c)));
        [now straight | now straight | apply mount_signInRule]. }
  destruct H1 as (Hi & Hr).
  destruct (runUi_keeps events c1 Hi Hr) as (Hi' & Hr').
  unfold screen. rewrite Hi', Hr'.
  now destruct (currentUser (fst (runUi events c1))).
Qed.

(** A first load with no backend, a question, a sign-out and a sign-in:
    the application is shown at the end. *)
Lemma screen_follows_identity_witness :
  screen (runUi aVisit (initial None, initialShell)) = Main.
Proof.
  unfold aVisit.
  rewrite (screen_follows_identity 5 6 "now" (Thrown unreachable) (Thrown unreachable)
             (Thrown unreachable) (Thrown unreachable) "t1" "t2" (Thrown unreachable)).
  vm_compute. reflexivity.
Defined.

(** X19: a first visit of the whole component with no backend at all
    ends on the application, not on the sign-in screen: an identity made
    up locally is active, the news are the two built-in items stamped with
    the two clock readings, the form is the empty login form, two requests
    were made in all (the creation of the identity and the news) and the
    only message shown is the one that announces the offline mode. *)
Theorem initialize_first_visit_offline
    (c : Component) (t_email t_id : N) (iso : string)
    (verify : Outcome User.t) (err errN : Err)
    (stats : Outcome UserStats.t) (history : Outcome (list ReportItem.t))
    (iso1 iso2 : string) :
  localStorage (fst c) = None ->
  Unreachable err -> Unreachable errN ->
  let c' := initialize t_email t_id iso verify (Thrown err) stats history
              iso1 iso2 (Thrown errN) c in
  screen c' = Main /\
  (exists u, currentUser (fst c') = Some u /\ isLocalUser u = true /\
             localStorage (fst c') = Some (Json u)) /\
  Forall isLocalNews (latestNews (snd c')) /\
  map NewsItem.published_at (latestNews (snd c')) = [iso1; iso2] /\
  authMode (snd c') = "login" /\ authForm (snd c') = emptyForm /\
  requests (effects (fst c')) =
    (requests (effects (fst c)) ++ [Request POST "users"; Request GET "news"])%list /\
  toasts (effects (fst c')) =
    (toasts (effects (fst c)) ++
     [Toast t_success "Running in offline mode: local user created"])%list.
Proof.
  intros Hs Hu Hn. cbv zeta.
  unfold initialize, next, onState, fetchLatestNews, setIsInitializing.
  unfold next, onState. cbn [fst snd]. rewrite Hn.
  unfold setLatestNews, initialShell. cbn [fst snd].
  cbn [authMode authForm latestNews isInitializing].
  destruct (mount_offline_spec (fst c) t_email t_id iso verify err stats history Hs Hu)
    as (Hc & Hl & _ & _ & _ & _ & Ha & He).
  cbv zeta in *. unfold screen. cbn [fst snd isInitializing]. straight.
  rewrite Hc, Hl, Ha, He.
  split; [reflexivity |].
  split.
  { eexists. split; [reflexivity |]. split; [| reflexivity].
    apply (startsWith_append "local-"). }
  split; [repeat constructor |].
  split; [reflexivity |]. split; [reflexivity |]. split; [reflexivity |].
  rewrite !requests_app, !toasts_app, <- !app_assoc. cbn. now rewrite ?app_nil_r.
Qed.

(** The very first visit, nothing stored, no backend. *)
Lemma initialize_first_visit_offline_witness :
  localStorage (fst (initial None, initialShell)) = None /\
  Unreachable unreachable /\
  screen (initialize 5 6 "now" (Thrown unreachable) (Thrown unreachable)
            (Thrown unreachable) (Thrown unreachable) "t1" "t2"
            (Thrown unreachable) (initial None, initialShell)) = Main.
Proof.
  split; [reflexivity | split; [reflexivity |]].
  exact (proj1 (initialize_first_visit_offline (initial None, initialShell) 5 6 "now"
                  (Thrown unreachable) unreachable unreachable
                  (Thrown unreachable) (Thrown unreachable) "t1" "t2"
                  eq_refl eq_refl eq_refl)).
Defined.

(** ** The API root *)

Lemma stripTrailingSlash_slash (s : string) : stripTrailingSlash (s ++ "/") = s.
Proof.
  induction s as [|a s IH]; [reflexivity |].
  cbn [append]. destruct s as [|b s].
  - reflexivity.
  - change (stripTrailingSlash (String a (String b s ++ "/")))
      with (String a (stripTrailingSlash (String b s ++ "/"))).
    now rewrite IH.
Qed.

Lemma stripTrailingSlash_other (s : string) :
  (forall u, s <> u ++ "/") -> stripTrailingSlash s = s.
Proof.
  induction s as [|a s IH]; intros H; [reflexivity |].
  destruct s as [|b s].
  - cbn. destruct (Ascii.eqb_spec a "/"%char) as [->|]; [| reflexivity].
    now elim (H EmptyString).
  - change (stripTrailingSlash (String a (String b s)))
      with (String a (stripTrailingSlash (String b s))).
    rewrite IH; [reflexivity |].
    intros u E. apply (H (String a u)). cbn [append]. now rewrite E.
Qed.

Lemma prefix_true_iff (p s : string) :
  String.prefix p s = true <-> exists b, s = p ++ b.
Proof.
  revert s. induction p as [|a p IH]; intros s.
  - split; [intros _; now exists s | intros _; now destruct s].
  - destruct s as [|c s]; cbn [String.prefix append].
    + split; [discriminate | now intros (b & E)].
    + destruct (ascii_dec a c) as [->|Hne].
      * rewrite IH. split; intros (b & E); exists b; [now rewrite E | now injection E].
      * split; [discriminate |]. intros (b & E). injection E as E1 E2. now elim Hne.
Qed.

Lemma includesb_true_iff (s part : string) :
  includesb s part = true <-> includes s part.
Proof.
  unfold includes. induction s as [|c s IH].
  - cbn [includesb]. rewrite orb_false_r, prefix_true_iff. split.
    + intros (b & E). now exists EmptyString, b.
    + intros (a & b & E). destruct a; [now exists b | discriminate].
  - cbn [includesb]. rewrite orb_true_iff, prefix_true_iff, IH. split.
    + intros [(b & E) | (a & b & E)].
      * now exists EmptyString, b.
      * exists (String c a), b. cbn [append]. now rewrite E.
    + intros (a & b & E). destruct a as [|c' a].
      * left. now exists b.
      * right. cbn [append] in E. injection E as _ E. now exists a, b.
Qed.

(** X20: the API root always ends in [/api].  With a backend URL
    configured the root is that URL followed by [/api], one slash at the
    end of the URL being dropped first, and the page's origin plays no
    part; with none configured (not defined, or empty) the root is the
    origin of the page followed by [/api] when the origin has [fly.dev],
    [render.com] or [localhost] somewhere in it, and the relative [/api]
    otherwise. *)
Theorem apiBase_spec (env origin : option string) :
  let API := apiBase env origin in
  (exists root, API = root ++ "/api") /\
  (forall url, env = Some (url ++ "/") -> API = url ++ "/api") /\
  (forall url, env = Some url -> url <> EmptyString ->
     (forall u, url <> u ++ "/") -> API = url ++ "/api") /\
  (env = None \/ env = Some EmptyString ->
     (forall o, origin = Some o ->
        includes o "fly.dev" \/ includes o "render.com" \/ includes o "localhost" ->
        API = o ++ "/api") /\
     (forall o, origin = Some o ->
        ~ includes o "fly.dev" -> ~ includes o "render.com" ->
        ~ includes o "localhost" -> API = "/api") /\
     (origin = None -> API = "/api")).
Proof.
  cbv zeta. split; [| split; [| split]].
  - unfold apiBase. cbv zeta. destruct (truthy (env ?? EmptyString)).
    + now eexists.
    + destruct origin as [o|]; [| now exists EmptyString].
      destruct (includesb o "fly.dev" || includesb o "render.com"
                || includesb o "localhost");
        [now exists o | now exists EmptyString].
  - intros url ->. unfold apiBase, nullish. cbv zeta.
    assert (Ht : truthy (url ++ "/") = true).
    { destruct (truthy (url ++ "/")) eqn:E; [reflexivity |].
      apply truthy_false_iff in E. now destruct url. }
    now rewrite Ht, stripTrailingSlash_slash.
  - intros url -> Hne Hs. unfold apiBase, nullish. cbv zeta.
    assert (Ht : truthy url = true).
    { destruct (truthy url) eqn:E; [reflexivity |].
      apply truthy_false_iff in E. contradiction. }
    now rewrite Ht, stripTrailingSlash_other.
  - intros Henv.
    assert (Ht : truthy (env ?? EmptyString) = false).
    { now destruct Henv as [-> | ->]. }
    unfold apiBase. cbv zeta. rewrite Ht. split; [| split].
    + intros o -> Hin.
      assert (Hb : includesb o "fly.dev" || includesb o "render.com"
                   || includesb o "localhost" = true).
      { rewrite !orb_true_iff, !includesb_true_iff. tauto. }
      now rewrite Hb.
    + intros o -> H1 H2 H3.
      assert (Hb : includesb o "fly.dev" || includesb o "render.com"
                   || includesb o "localhost" = false).
      { rewrite !orb_false_iff. repeat split.
        all: match goal with
             | |- includesb ?s ?p = false =>
                 destruct (includesb s p) eqn:E; [| reflexivity];
                 apply includesb_true_iff in E; contradiction
             end. }
      now rewrite Hb.
    + now intros ->.
Qed.

(** A configured URL with its slash, and a page served from localhost
    with nothing configured. *)
Lemma apiBase_spec_witness :
  apiBase (Some "https://api.example.com/") None = "https://api.example.com/api" /\
  apiBase None (Some "http://localhost:3000") = "http://localhost:3000/api".
Proof.
  split.
  - exact (proj1 (proj2 (apiBase_spec (Some "https://api.example.com/") None))
             "https://api.example.com" eq_refl).
  - destruct (apiBase_spec None (Some "http://localhost:3000"))
      as (_ & _ & _ & H).
    destruct (H (or_introl eq_refl)) as (Ho & _).
    apply (Ho _ eq_refl). right. right.
    now exists "http://", ":3000".
Defined.
